(** * Detection and redaction engine of backend_info (services/pii_detector.py)

    Shallow embedding of the PII detector of the backend service, of the
    per-record risk classifier of report/report.py, and of the parts of
    Python's [re] module the detector relies on.

    Python strings are lists of Unicode code points ([list nat]).  Python's
    Unicode character classes are modelled exactly on Latin-1
    (U+0000 .. U+00FF), which covers Portuguese text; code points above
    U+00FF (in Portuguese text mostly typographic punctuation such as curly
    quotes and dashes) are classified as punctuation. *)

From Stdlib Require Import List String Ascii Bool Arith ZArith Lia Permutation Sorted.
Import ListNotations.
Open Scope string_scope.
Open Scope list_scope.
Open Scope nat_scope.

(* ------------------------------------------------------------------ *)
(** ** Characters *)

Module Chr.

Definition between (lo hi c : nat) : bool := (lo <=? c) && (c <=? hi).

(** [\d] and [str.isdecimal]: Unicode category Nd. *)
Definition is_decimal (c : nat) : bool := between 48 57 c.

(** [str.isdigit]: Numeric_Type Digit or Decimal (adds the superscripts). *)
Definition is_digit (c : nat) : bool :=
  is_decimal c || (c =? 178) || (c =? 179) || (c =? 185).

(** [str.isnumeric] adds the vulgar fractions. *)
Definition is_numeric (c : nat) : bool :=
  is_digit c || between 188 190 c.

Definition is_alpha (c : nat) : bool :=
  between 65 90 c || between 97 122 c || (c =? 170) || (c =? 181) ||
  (c =? 186) || between 192 214 c || between 216 246 c || between 248 255 c.

(** [str.isalnum] *)
Definition is_alnum (c : nat) : bool := is_alpha c || is_numeric c.

(** [\w] on str patterns: alphanumeric or underscore. *)
Definition is_word (c : nat) : bool := is_alnum c || (c =? 95).

(** [\s] and [str.isspace]. *)
Definition is_space (c : nat) : bool :=
  between 9 13 c || between 28 32 c || (c =? 133) || (c =? 160).

(** [str.lower] and [str.upper] on single characters. *)
Definition lower (c : nat) : nat :=
  if between 65 90 c || between 192 214 c || between 216 222 c
  then c + 32 else c.

Definition upper (c : nat) : nat :=
  if between 97 122 c || between 224 246 c || between 248 254 c then c - 32
  else if c =? 181 then 924
  else if c =? 255 then 376
  else c.

End Chr.

(** Decoding of the UTF-8 bytes of a Rocq string literal into code points. *)
Fixpoint utf8_decode (bs : list nat) : list nat :=
  match bs with
  | [] => []
  | b :: rest =>
      if b <? 128 then b :: utf8_decode rest
      else if b <? 224 then
        match rest with
        | b2 :: rest' => ((b - 192) * 64 + (b2 - 128)) :: utf8_decode rest'
        | [] => [b]
        end
      else
        match rest with
        | b2 :: b3 :: rest' =>
            ((b - 224) * 4096 + (b2 - 128) * 64 + (b3 - 128)) :: utf8_decode rest'
        | _ => [b]
        end
  end.

(** A Python [str] literal. *)
Definition py (s : string) : list nat :=
  utf8_decode (map nat_of_ascii (list_ascii_of_string s)).

(* ------------------------------------------------------------------ *)
(** ** Regular expressions, with the semantics of Python's [re] *)

Module Re.

Inductive citem : Type :=
| CChr (c : nat)
| CRng (lo hi : nat)
| CDig | CNotDig | CWrd | CNotWrd | CSpc | CNotSpc.

Inductive regex : Type :=
| REps
| RChar (c : nat)
| RClass (neg : bool) (items : list citem)
| RAny                               (* [.]: any character but a newline *)
| RBound                             (* [\b] *)
| RNegLook (r : regex)               (* [(?!r)] *)
| RSeq (r1 r2 : regex)
| RAlt (r1 r2 : regex)               (* ordered: [r1] is tried first *)
| RRep (r : regex) (mn : nat) (mx : option nat).  (* greedy [{mn,mx}] *)

Record pattern : Type := Pat { icase : bool; re : regex }.

(** *** Character tests *)

Definition item_mem (it : citem) (c : nat) : bool :=
  match it with
  | CChr d => c =? d
  | CRng lo hi => Chr.between lo hi c
  | CDig => Chr.is_decimal c
  | CNotDig => negb (Chr.is_decimal c)
  | CWrd => Chr.is_word c
  | CNotWrd => negb (Chr.is_word c)
  | CSpc => Chr.is_space c
  | CNotSpc => negb (Chr.is_space c)
  end.

Definition items_mem (its : list citem) (c : nat) : bool :=
  existsb (fun it => item_mem it c) its.

Definition class_mem (ic : bool) (its : list citem) (c : nat) : bool :=
  items_mem its c ||
  (ic && (items_mem its (Chr.lower c) || items_mem its (Chr.upper c))).

Definition lit_eq (ic : bool) (c d : nat) : bool :=
  (c =? d) || (ic && ((Chr.lower c =? Chr.lower d) || (Chr.upper c =? Chr.upper d))).

Definition word_at (s : list nat) (i : nat) : bool :=
  match nth_error s i with Some c => Chr.is_word c | None => false end.

(** [\b]: never true in the empty string. *)
Definition boundary (s : list nat) (i : nat) : bool :=
  match s with
  | [] => false
  | _ => xorb (match i with 0 => false | S i' => word_at s i' end) (word_at s i)
  end.

Definition below (mx : option nat) (n : nat) : bool :=
  match mx with Some x => n <? x | None => true end.

(** *** Backtracking matcher

    [m ic r s i k] matches [r] at position [i] of [s] and passes the end
    position to the continuation [k], backtracking into [r] when [k] fails,
    in the order of Python's matcher: alternatives left to right,
    repetitions greedy. *)

(** The loop of a greedy repetition [{mn,mx}] of a sub-pattern matched by
    [mr], after [n] iterations at position [j].  An optional iteration must
    consume input (Python stops a repetition at an empty iteration).  The
    fuel, [mn + (length s - i) + 1] at the start, is never exhausted. *)
Fixpoint rep_loop (mr : nat -> (nat -> option nat) -> option nat)
         (mn : nat) (mx : option nat) (k : nat -> option nat)
         (fuel n j : nat) {struct fuel} : option nat :=
  match fuel with
  | 0 => None
  | S fuel' =>
      if n <? mn then mr j (fun j' => rep_loop mr mn mx k fuel' (S n) j')
      else
        match (if below mx n
               then mr j (fun j' => if j <? j' then rep_loop mr mn mx k fuel' (S n) j' else None)
               else None) with
        | Some e => Some e
        | None => k j
        end
  end.

Fixpoint m (ic : bool) (r : regex) (s : list nat) (i : nat)
         (k : nat -> option nat) {struct r} : option nat :=
  match r with
  | REps => k i
  | RChar c =>
      match nth_error s i with
      | Some d => if lit_eq ic c d then k (S i) else None
      | None => None
      end
  | RClass neg its =>
      match nth_error s i with
      | Some d => if xorb neg (class_mem ic its d) then k (S i) else None
      | None => None
      end
  | RAny =>
      match nth_error s i with
      | Some d => if d =? 10 then None else k (S i)
      | None => None
      end
  | RBound => if boundary s i then k i else None
  | RNegLook r1 =>
      match m ic r1 s i Some with Some _ => None | None => k i end
  | RSeq r1 r2 => m ic r1 s i (fun j => m ic r2 s j k)
  | RAlt r1 r2 =>
      match m ic r1 s i k with Some e => Some e | None => m ic r2 s i k end
  | RRep r1 mn mx =>
      rep_loop (fun j k' => m ic r1 s j k') mn mx k (mn + S (List.length s - i)) 0 i
  end.

(** [pattern.match(s, pos)]: end of the match anchored at [i]. *)
Definition match_at (ic : bool) (r : regex) (s : list nat) (i : nat) : option nat :=
  m ic r s i Some.

(** Leftmost match starting at or after [i]. *)
Fixpoint search_from (ic : bool) (r : regex) (s : list nat) (i fuel : nat)
  : option (nat * nat) :=
  match fuel with
  | 0 => None
  | S f =>
      match match_at ic r s i with
      | Some e => Some (i, e)
      | None => search_from ic r s (S i) f
      end
  end.

(** [re.search(p, s, flags)] is not [None]. *)
Definition search (p : pattern) (extra_ic : bool) (s : list nat) : bool :=
  match search_from (icase p || extra_ic) (re p) s 0 (S (List.length s)) with
  | Some _ => true
  | None => false
  end.

Fixpoint finditer_aux (ic : bool) (r : regex) (s : list nat) (pos fuel : nat)
  : list (nat * nat) :=
  match fuel with
  | 0 => []
  | S f =>
      match search_from ic r s pos (S (List.length s - pos)) with
      | None => []
      | Some (st, en) =>
          (st, en) :: finditer_aux ic r s (if en =? st then S en else en) f
      end
  end.

(** [[(m.start(), m.end()) for m in re.finditer(p, s, flags)]]: successive
    non-overlapping matches, scanning left to right. *)
Definition finditer (p : pattern) (extra_ic : bool) (s : list nat) : list (nat * nat) :=
  finditer_aux (icase p || extra_ic) (re p) s 0 (S (List.length s)).

(** *** Parser of the pattern syntax used by the detector *)

Fixpoint p_num (s : list nat) (acc : nat) (seen : bool) : option (nat * list nat) :=
  match s with
  | c :: rest => if Chr.is_decimal c then p_num rest (acc * 10 + (c - 48)) true
                 else if seen then Some (acc, s) else None
  | [] => if seen then Some (acc, s) else None
  end.

Definition esc_item (e : nat) : citem :=
  if e =? 100 then CDig else if e =? 68 then CNotDig
  else if e =? 119 then CWrd else if e =? 87 then CNotWrd
  else if e =? 115 then CSpc else if e =? 83 then CNotSpc
  else CChr e.

(** Items of a character class up to and including the closing bracket. *)
Fixpoint p_class (fuel : nat) (s : list nat) : option (list citem * list nat) :=
  match fuel with
  | 0 => None
  | S f =>
      match s with
      | [] => None
      | 93 :: rest => Some ([], rest)
      | 92 :: e :: rest =>
          match p_class f rest with
          | Some (l, r) => Some (esc_item e :: l, r)
          | None => None
          end
      | c :: 45 :: d :: rest =>
          if d =? 93 then
            match p_class f (45 :: d :: rest) with
            | Some (l, r) => Some (CChr c :: l, r)
            | None => None
            end
          else
            match p_class f rest with
            | Some (l, r) => Some (CRng c d :: l, r)
            | None => None
            end
      | c :: rest =>
          match p_class f rest with
          | Some (l, r) => Some (CChr c :: l, r)
          | None => None
          end
      end
  end.

Definition esc_atom (e : nat) : regex :=
  if e =? 98 then RBound
  else match esc_item e with
       | CChr c => RChar c
       | it => RClass false [it]
       end.

Definition p_quant (a : regex) (s : list nat) : regex * list nat :=
  match s with
  | 63 :: rest => (RRep a 0 (Some 1), rest)
  | 42 :: rest => (RRep a 0 None, rest)
  | 43 :: rest => (RRep a 1 None, rest)
  | 123 :: rest =>
      match p_num rest 0 false with
      | Some (n, 125 :: rest') => (RRep a n (Some n), rest')
      | Some (n, 44 :: 125 :: rest') => (RRep a n None, rest')
      | Some (n, 44 :: rest') =>
          match p_num rest' 0 false with
          | Some (x, 125 :: rest'') => (RRep a n (Some x), rest'')
          | _ => (a, s)
          end
      | _ => (a, s)
      end
  | _ => (a, s)
  end.

Fixpoint p_alt (fuel : nat) (s : list nat) {struct fuel} : option (regex * list nat) :=
  match fuel with
  | 0 => None
  | S f =>
      match p_seq f s with
      | Some (r1, 124 :: rest) =>
          match p_alt f rest with
          | Some (r2, rest') => Some (RAlt r1 r2, rest')
          | None => None
          end
      | o => o
      end
  end
with p_seq (fuel : nat) (s : list nat) {struct fuel} : option (regex * list nat) :=
  match fuel with
  | 0 => None
  | S f =>
      match s with
      | [] => Some (REps, [])
      | c :: _ =>
          if (c =? 124) || (c =? 41) then Some (REps, s)
          else
            match p_atom f s with
            | Some (a, rest) =>
                let (a', rest') := p_quant a rest in
                match p_seq f rest' with
                | Some (r, rest'') => Some (RSeq a' r, rest'')
                | None => None
                end
            | None => None
            end
      end
  end
with p_atom (fuel : nat) (s : list nat) {struct fuel} : option (regex * list nat) :=
  match fuel with
  | 0 => None
  | S f =>
      match s with
      | 40 :: 63 :: 58 :: rest =>
          match p_alt f rest with
          | Some (r, 41 :: rest') => Some (r, rest')
          | _ => None
          end
      | 40 :: 63 :: 33 :: rest =>
          match p_alt f rest with
          | Some (r, 41 :: rest') => Some (RNegLook r, rest')
          | _ => None
          end
      | 40 :: rest =>
          match p_alt f rest with
          | Some (r, 41 :: rest') => Some (r, rest')
          | _ => None
          end
      | 91 :: 94 :: rest =>
          match p_class f rest with
          | Some (its, rest') => Some (RClass true its, rest')
          | None => None
          end
      | 91 :: rest =>
          match p_class f rest with
          | Some (its, rest') => Some (RClass false its, rest')
          | None => None
          end
      | 46 :: rest => Some (RAny, rest)
      | 92 :: e :: rest => Some (esc_atom e, rest)
      | c :: rest => Some (RChar c, rest)
      | [] => None
      end
  end.

(** A pattern that matches nothing, the result of a syntax error. *)
Definition never : regex := RClass false [].

Definition parse (cs : list nat) : option regex :=
  match p_alt (S (List.length cs) * 4) cs with
  | Some (r, []) => Some r
  | _ => None
  end.

(** [re.compile(source)], with a leading inline [(?i)] flag. *)
Definition rx (src : string) : pattern :=
  let cs := py src in
  match cs with
  | 40 :: 63 :: 105 :: 41 :: rest =>
      Pat true (match parse rest with Some r => r | None => never end)
  | _ => Pat false (match parse cs with Some r => r | None => never end)
  end.

Definition rx_ok (src : string) : bool :=
  let cs := py src in
  match cs with
  | 40 :: 63 :: 105 :: 41 :: rest => match parse rest with Some _ => true | None => false end
  | _ => match parse cs with Some _ => true | None => false end
  end.

End Re.

(* ------------------------------------------------------------------ *)
(** ** The patterns of [PIIDetector] (services/pii_detector.py) *)

Module Patterns.
Import Re.

(** [_detect_cpf] *)
Definition cpf_formatted : pattern := rx "\b\d{3}\.\d{3}\.\d{3}-\d{2}\b".
Definition cpf_loose : pattern := rx "\b\d{11}\b".

(** [CPF_CONTEXT_KEYWORDS] *)
Definition CPF_CONTEXT_KEYWORDS : list pattern :=
  map rx [ "cpf"; "cadastro de pessoa f[íi]sica"; "inscri[çc][ãa]o";
           "inscrito no cpf"; "cpf n[úu]mero"; "cpf sob o n[úu]mero";
           "portador do cpf"; "titular do cpf"; "contribuinte";
           "documento cpf"; "cadastro cpf" ].

(** [self.phone_patterns] *)
Definition phone_patterns : list pattern :=
  map rx [ "\b(?:\(?[1-9]{2}\)?\s?)(?:9\s?\d|[2-5]\d)\d{2}[-.\s]\d{4}\b";
           "\b[1-9]{2}9\d{8}\b";
           "\b[1-9]{2}[2-5]\d{7}\b";
           "(?i)(?:tel|cel|zap|whatsapp|contato|fone)[:\s\.]+\d{8,12}\b" ].

(** [self.regex_patterns] *)
Definition CNPJ : pattern := rx "\b\d{2}\.\d{3}\.\d{3}/\d{4}-\d{2}\b".
Definition EMAIL : pattern :=
  rx "\b[A-Za-z0-9._%+-]+@(?!.*\.gov\.br)[A-Za-z0-9.-]+\.[A-Z|a-z]{2,}\b".
Definition CEP : pattern := rx "\b\d{5}\s*[-]\s*\d{3}\b".
Definition FULL_ADDRESS : pattern :=
  rx "(?i)\b(?:Rua|Av\.|Avenida|Q\.|Qd\.|Quadra|SQN|SQS|SHN|SHS|CLN|CRN|SRES|SHDF|Cond\.|Bloco|Bl\.|Lote|Lt\.|Conjunto|Conj\.|Arts|Al\.|Alameda)\s+[A-Za-z0-9\s,.-]{1,100}(?:(?:\b\d+|[A-Z]\b))".
Definition GENERAL_REGISTRY : pattern :=
  rx "(?i)(?:RG|CNH|Matr[íi]cula|NIS|PIS|PASEP|NIT|CTPS|IPTU|Inscri[çc][ãa]o|T[íi]tulo\s(?:de\s)?Eleitor)(?!\s*cpf)[:\s\.]+\d{1,15}[-\d]*|\b\d{3}\.\d{5}\.\d{2}-\d\b".

(** [self.sensitive_keywords], in the dict's order. *)
Definition sensitive_keywords : list (string * list pattern) :=
  [ ("SENSITIVE_HEALTH",
      map rx [ "\bdiagn[oó]stico d[eo]\b";
               "\bportador d[eo] (?:c[âa]ncer|hiv|aids|defici[êe]ncia)\b";
               "\bminha doen[çc]a\b";
               "\blaudo m[ée]dico\b";
               "\bCID\s?[A-Z]\d";
               "\btranstorno (?:mental|bipolar|ansiedade)\b";
               "\bexame d[eo] (?:sangue|dna|bi[óo]psia)\b";
               "\bsofria de\b";
               "\bpaciente com\b" ]);
    ("SENSITIVE_MINOR",
      map rx [ "\bmenor de idade\b";
               "\btutela d[eo] menor\b";
               "\bguarda d[oa] crian[çc]a\b";
               "\bfilh[oa] menor\b";
               "\badolescente infrator\b";
               "\bcertid[ãa]o de nascimento\b";
               "\bconselho tutelar\b" ]);
    ("SENSITIVE_SOCIAL",
      map rx [ "\bvulnerabilidade social\b";
               "\bbenefici[áa]rio do (?:bolsa|aux[íi]lio)\b";
               "\brecebe cesta b[áa]sica\b";
               "\bcad[úu]nico\b" ]);
    ("SENSITIVE_RACE",
      map rx [ "\bautodeclara[çc][ãa]o de cor\b";
               "\bcor d[ae] pele\b";
               "\bquesito raça\b" ]);
    ("SENSITIVE_GENDER",
      map rx [ "\bnome social\b";
               "\bcirurgia de redesigna[çc][ãa]o\b";
               "\bidentidade de g[êe]nero\b" ]) ].

(** Honorific test of the name filter. *)
Definition honorific : pattern := rx "(?i)\b(?:dr|dra|sr|sra)\.?\s".

(** [re.sub(r'\D', '', ...)] and [re.sub(r'[^\w\s]', '', ...)]. *)
Definition strip_non_digits (s : list nat) : list nat := filter Chr.is_decimal s.
Definition strip_punct (s : list nat) : list nat :=
  filter (fun c => Chr.is_word c || Chr.is_space c) s.

End Patterns.

(* ------------------------------------------------------------------ *)
(** ** [PIIDetector.detect_and_redact] *)

Module Detector.
Import Re Patterns.

(** *** Python helpers *)

(** [s[a:b]] for non-negative [a], [b]. *)
Definition slice (s : list nat) (a b : nat) : list nat := firstn (b - a) (skipn a s).

(** [range(a, b)] *)
Definition range (a b : nat) : list nat := seq a (b - a).

(** [p in xs] for a set of ints. *)
Definition mem (p : nat) (xs : list nat) : bool := existsb (Nat.eqb p) xs.

Fixpoint str_eqb (a b : list nat) : bool :=
  match a, b with
  | [], [] => true
  | x :: a', y :: b' => (x =? y) && str_eqb a' b'
  | _, _ => false
  end.

Definition str_mem (w : list nat) (ws : list (list nat)) : bool :=
  existsb (str_eqb w) ws.

(** [str.lower()] *)
Definition str_lower (s : list nat) : list nat := map Chr.lower s.

(** [str.strip()] *)
Definition lstrip (s : list nat) : list nat :=
  let fix go s := match s with
                  | c :: rest => if Chr.is_space c then go rest else s
                  | [] => []
                  end in go s.
Definition strip (s : list nat) : list nat := rev (lstrip (rev (lstrip s))).

(** [str.split()] with no separator: maximal runs of non-space characters. *)
Fixpoint split_ws_aux (s : list nat) (cur : list nat) : list (list nat) :=
  match s with
  | [] => match cur with [] => [] | _ => [rev cur] end
  | c :: rest =>
      if Chr.is_space c then
        match cur with
        | [] => split_ws_aux rest []
        | _ => rev cur :: split_ws_aux rest []
        end
      else split_ws_aux rest (c :: cur)
  end.
Definition split_ws (s : list nat) : list (list nat) := split_ws_aux s [].

(** [str.isdigit()] on a string: non-empty and every character a digit. *)
Definition str_isdigit (s : list nat) : bool :=
  match s with [] => false | _ => forallb Chr.is_digit s end.

(** [int(c)] for a one-character string; [None] is the ValueError raised on
    digits that are not decimal (superscripts). *)
Definition int_of (c : nat) : option nat :=
  if Chr.is_decimal c then Some (c - 48) else None.

(** A Python [defaultdict(int)] / [dict] of counters, in insertion order. *)
Definition counts := list (string * nat).

(** [d[k] += 1] *)
Fixpoint incr (k : string) (d : counts) : counts :=
  match d with
  | [] => [(k, 1)]
  | (k', v) :: rest => if String.eqb k k' then (k', S v) :: rest else (k', v) :: incr k rest
  end.

(** [d.get(k, 0)] *)
Fixpoint get (k : string) (d : counts) : nat :=
  match d with
  | [] => 0
  | (k', v) :: rest => if String.eqb k k' then v else get k rest
  end.

(** *** [_validate_cpf_digit]

    [None] stands for the ValueError [int()] raises on a non-decimal digit. *)

(** [sum(int(cpf[i]) * (w - i) for i in range(n))] *)
Definition weighted_sum (cpf : list nat) (n w : nat) : option nat :=
  fold_left (fun acc i =>
               match acc, int_of (nth i cpf 0) with
               | Some a, Some d => Some (a + d * (w - i))
               | _, _ => None
               end) (seq 0 n) (Some 0).

Definition _validate_cpf_digit (cpf : list nat) : option bool :=
  if negb (List.length cpf =? 11) || negb (str_isdigit cpf) then Some false
  else if str_eqb cpf (repeat (nth 0 cpf 0) 11) then Some false
  else
    match weighted_sum cpf 9 10 with
    | None => None
    | Some soma =>
        let digito1 := (soma * 10 mod 11) mod 10 in
        match int_of (nth 9 cpf 0) with
        | None => None
        | Some d9 =>
            if negb (digito1 =? d9) then Some false
            else
              match weighted_sum cpf 10 11 with
              | None => None
              | Some soma2 =>
                  let digito2 := (soma2 * 10 mod 11) mod 10 in
                  match int_of (nth 10 cpf 0) with
                  | None => None
                  | Some d10 => Some (digito2 =? d10)
                  end
              end
        end
    end.

(** The detector only validates strings of [\d] characters, on which
    [int()] never raises. *)
Definition is_valid (cpf : list nat) : bool :=
  match _validate_cpf_digit cpf with Some b => b | None => false end.

(** *** [_has_cpf_context] (window 50) *)
Definition _has_cpf_context (text : list nat) (position : nat) : bool :=
  let start := position - 50 in
  let end_ := Nat.min (List.length text) (position + 50) in
  let context := str_lower (slice text start end_) in
  existsb (fun kw => search kw true context) CPF_CONTEXT_KEYWORDS.

(** *** [_detect_cpf] *)

(** Loop state: [(cpf_matches, detected_positions)]. *)
Definition cpf_acc := (list (nat * nat * bool) * list nat)%type.

Definition formatted_body (text : list nat) (acc : cpf_acc) (mt : nat * nat) : cpf_acc :=
  let '(ms, det) := acc in
  let '(s, e) := mt in
  let cpf_digits := strip_non_digits (slice text s e) in
  (ms ++ [(s, e, is_valid cpf_digits)], det ++ range s e).

Definition loose_body (text : list nat) (acc : cpf_acc) (mt : nat * nat) : cpf_acc :=
  let '(ms, det) := acc in
  let '(s, e) := mt in
  if existsb (fun pos => mem pos det) (range s e) then acc
  else if _has_cpf_context text s then
    (ms ++ [(s, e, is_valid (slice text s e))], det ++ range s e)
  else acc.

Definition _detect_cpf (text : list nat) : list (nat * nat * bool) :=
  let acc := fold_left (formatted_body text) (finditer cpf_formatted false text) ([], []) in
  fst (fold_left (loose_body text) (finditer cpf_loose false text) acc).

(** *** External collaborators *)

(** A spaCy entity: [ent.start_char], [ent.end_char], [ent.label_];
    [ent.text] is [text[start_char:end_char]]. *)
Record ent : Type := Ent { start_char : nat; end_char : nat; label_ : string }.

(** [self.nlp]: [None] when the model failed to load; otherwise the call
    [self.nlp(text)], whose result [None] is an exception raised by the call
    and [Some ents] the entities [doc.ents].
    [phone_matcher text]: the matches [phonenumbers.PhoneNumberMatcher(text,
    "BR")] yields, each with [is_valid_number], and whether the iteration
    then raised. *)
Record env : Type := Env {
  nlp : option (list nat -> option (list ent));
  phone_matcher : list nat -> list (nat * nat * bool) * bool }.

(** *** Local state of one [detect_and_redact] call *)
Record dstate : Type := DState {
  indices_to_mask : list nat;
  pii_stats : counts;
  invalid_cpfs : counts;
  has_identifier : bool }.

Definition init : dstate := DState [] [] [] false.

(** The overlap-checked registration shared by the name, registry, CNPJ,
    contact and phone loops: [if not match_range.intersection(indices_to_mask)]. *)
Definition register (key : string) (sets_id : bool) (st : dstate) (mt : nat * nat) : dstate :=
  let '(s, e) := mt in
  if existsb (fun i => mem i (indices_to_mask st)) (range s e) then st
  else DState (indices_to_mask st ++ range s e) (incr key (pii_stats st))
              (invalid_cpfs st) (sets_id || has_identifier st).

(** 1. CPF *)
Definition cpf_body (st : dstate) (c : nat * nat * bool) : dstate :=
  let '(s, e, v) := c in
  DState (indices_to_mask st ++ range s e) (incr "CPF" (pii_stats st))
         (if v then invalid_cpfs st else incr "CPF_INVALID" (invalid_cpfs st)) true.

Definition stage_cpf (text : list nat) (st : dstate) : dstate :=
  fold_left cpf_body (_detect_cpf text) st.

(** 2. Names *)
Definition COMMON_NAMES : list (list nat) := map py
  [ "maria"; "joao"; "ana"; "carlos"; "paulo"; "jose"; "lucas"; "pedro";
    "marcos"; "luiz"; "gabriel"; "rafael"; "francisco"; "marcelo"; "bruno";
    "felipe"; "guilherme"; "rodrigo"; "antonio"; "mateus"; "andre"; "fernando";
    "fabio"; "leonardo"; "gustavo"; "juliana"; "patricia"; "aline"; "camila";
    "bruna"; "jessica"; "leticia"; "julia"; "luciana"; "amanda"; "mariana";
    "vanessa"; "alice"; "beatriz"; "larissa"; "debora"; "claudia"; "carol";
    "carolina"; "sandra"; "regina"; "roberta"; "edson"; "sergio"; "vitor";
    "thiago"; "alexandre"; "eduardo"; "daniel"; "renato"; "ricardo"; "jorge";
    "samuel"; "diego"; "leandro"; "tiago"; "anderson"; "claudio"; "marcio";
    "mauro"; "roberto"; "wellington"; "wallace"; "robson"; "cristiano";
    "geraldo"; "raimundo"; "sebastiao"; "miguel"; "arthur"; "heitor"; "bernardo";
    "davi"; "theo"; "lorenzo"; "gabriel"; "gael"; "bento"; "helena"; "laura";
    "sophia"; "manuela"; "maite"; "liz"; "cecilia"; "elisa"; "maitê"; "eloá" ].

Definition COMMON_SURNAMES : list (list nat) := map py
  [ "silva"; "santos"; "oliveira"; "souza"; "rodrigues"; "ferreira"; "alves";
    "pereira"; "lima"; "gomes"; "costa"; "ribeiro"; "martins"; "carvalho";
    "almeida"; "lopes"; "soares"; "fernandes"; "vieira"; "barbosa"; "rocha";
    "dias"; "nascimento"; "andrade"; "moreira"; "nunes"; "marques"; "machado";
    "mendes"; "freitas"; "cardoso"; "ramos"; "goncalves"; "santana"; "teixeira";
    "cavalcanti"; "moura"; "campos"; "jesus"; "pinto"; "araujo"; "leite";
    "barros"; "farias"; "cunha"; "reis"; "siqueira"; "moraes"; "castro";
    "batista"; "neves"; "rosa"; "medeiros"; "dantas"; "conceicao"; "braga";
    "filho"; "neto"; "junior"; "sobrinho"; "mota"; "vasconcelos"; "cruz";
    "viana"; "peixoto"; "maia"; "monteiro"; "coelho"; "correia"; "brito" ].

(** The tests of the loop body on one entity: label, at least two parts,
    a dictionary part or an honorific in the five preceding characters. *)
Definition name_accepted (text : list nat) (en : ent) : bool :=
  String.eqb (label_ en) "PER" &&
  (let name_candidate := strip (slice text (start_char en) (end_char en)) in
   let clean_name := strip_punct (str_lower name_candidate) in
   let parts := split_ws clean_name in
   (2 <=? List.length parts) &&
   (let has_common := existsb (fun p => str_mem p COMMON_NAMES || str_mem p COMMON_SURNAMES) parts in
    let has_honor := search honorific false
                       (slice text (start_char en - 5) (start_char en)) in
    has_common || has_honor)).

Definition name_body (text : list nat) (st : dstate) (en : ent) : dstate :=
  if name_accepted text en then register "PERSON_NAME" true st (start_char en, end_char en)
  else st.

Definition stage_names (ev : env) (text : list nat) (st : dstate) : dstate :=
  match nlp ev with
  | None => st
  | Some recognize =>
      match recognize text with
      | None => st                       (* except Exception: pass *)
      | Some ents => fold_left (name_body text) ents st
      end
  end.

(** 3. Registros Gerais *)
Definition stage_registry (text : list nat) (st : dstate) : dstate :=
  fold_left (register "GENERAL_REGISTRY" true) (finditer GENERAL_REGISTRY false text) st.

(** CNPJ *)
Definition stage_cnpj (text : list nat) (st : dstate) : dstate :=
  fold_left (register "CNPJ" false) (finditer CNPJ false text) st.

(** Email / Endereço / CEP; CEP hits are counted under FULL_ADDRESS. *)
Definition contact_types : list (string * pattern) :=
  [("EMAIL", EMAIL); ("FULL_ADDRESS", FULL_ADDRESS); ("CEP", CEP)].

Definition stats_key (pii_type : string) : string :=
  if String.eqb pii_type "CEP" then "FULL_ADDRESS" else pii_type.

Definition stage_contact (text : list nat) (st : dstate) : dstate :=
  fold_left (fun st tp => fold_left (register (stats_key (fst tp)) false)
                                    (finditer (snd tp) false text) st)
            contact_types st.

(** Telefone: the four regexes, then phonenumbers (inside try/except: an
    exception ends the loop, keeping the matches already registered). *)
Definition stage_phone_regex (text : list nat) (st : dstate) : dstate :=
  fold_left (fun st p => fold_left (register "PHONE" false) (finditer p false text) st)
            phone_patterns st.

Definition phonenumbers_body (st : dstate) (pm : nat * nat * bool) : dstate :=
  let '(s, e, valid) := pm in
  if valid then register "PHONE" false st (s, e) else st.

Definition stage_phonenumbers (ev : env) (text : list nat) (st : dstate) : dstate :=
  fold_left phonenumbers_body (fst (phone_matcher ev text)) st.

(** Contextual Sensitive Data: no overlap test; gated by [has_identifier]. *)
Definition sensitive_body (key : string) (st : dstate) (mt : nat * nat) : dstate :=
  let '(s, e) := mt in
  if has_identifier st then
    DState (indices_to_mask st ++ range s e) (incr key (pii_stats st))
           (invalid_cpfs st) (has_identifier st)
  else st.

Definition stage_sensitive (text : list nat) (st : dstate) : dstate :=
  fold_left (fun st kk =>
               fold_left (fun st kw => fold_left (sensitive_body (fst kk)) (finditer kw true text) st)
                         (snd kk) st)
            sensitive_keywords st.

(** The whole sequence of loops. *)
Definition run (ev : env) (text : list nat) : dstate :=
  stage_sensitive text
    (stage_phonenumbers ev text
      (stage_phone_regex text
        (stage_contact text
          (stage_cnpj text
            (stage_registry text
              (stage_names ev text
                (stage_cpf text init))))))).

(** Redaction: [redacted_chars.append('x' if char.isalnum() else char)]. *)
Fixpoint render_from (mask : list nat) (i : nat) (text : list nat) : list nat :=
  match text with
  | [] => []
  | c :: rest =>
      (if mem i mask then (if Chr.is_alnum c then 120 else c) else c)
        :: render_from mask (S i) rest
  end.

Definition detect_and_redact (ev : env) (text : list nat) : list nat * counts * counts :=
  let st := run ev text in
  (render_from (indices_to_mask st) 0 text, pii_stats st, invalid_cpfs st).

End Detector.

(* ------------------------------------------------------------------ *)
(** ** The call on an arbitrary Python value *)

#[local] Set Warnings "-register-all".
Module PyCall.
Import Detector.

(** The Python values a table cell or a caller can pass. *)
Inductive pyval : Type :=
| PNone
| PNaN
| PInt (z : nat)
| PFloat (z : nat)
| PBool (b : bool)
| PStr (s : list nat)
| PList (l : list pyval).

(** [pd.isna]: a scalar for scalars; for a list, the element-wise result
    on [np.asarray(l, dtype=object)], given by its items in order. *)
Inductive isna_result : Type := Scalar (b : bool) | Array (bs : list bool).

Definition checknull (v : pyval) : bool :=
  match v with PNone | PNaN => true | _ => false end.

(** Longest common prefix of two shapes. *)
Fixpoint lcp (a b : list nat) : list nat :=
  match a, b with
  | x :: a', y :: b' => if x =? y then x :: lcp a' b' else []
  | _, _ => []
  end.

Definition common_shape (ds : list (list nat)) : list nat :=
  match ds with [] => [] | d :: rest => fold_left lcp rest d end.

(** The shape NumPy discovers for [np.asarray(v, dtype=object)]: a list
    adds a dimension of its length, followed by the dimensions its items
    share (ragged items stop the discovery there); a string or any other
    scalar is an element of the array. *)
Fixpoint shape (v : pyval) : list nat :=
  match v with
  | PList l => List.length l :: common_shape (map shape l)
  | _ => []
  end.

(** The items of the array, in order, down [d] dimensions. *)
Fixpoint array_items (d : nat) (v : pyval) : list pyval :=
  match d with
  | 0 => [v]
  | S d' => match v with PList l => flat_map (array_items d') l | _ => [v] end
  end.

Definition isna (v : pyval) : isna_result :=
  match v with
  | PList _ => Array (map checknull (array_items (List.length (shape v)) v))
  | _ => Scalar (checknull v)
  end.

Inductive outcome (A : Type) : Type := Raises (exc : string) | Returns (a : A).
Arguments Raises {A} exc.
Arguments Returns {A} a.

(** Truth value of the result, as taken by [or]: an array of one element is
    that element; any other array raises ValueError (the empty one too, as
    of NumPy 2.2). *)
Definition truth (r : isna_result) : outcome bool :=
  match r with
  | Scalar b => Returns b
  | Array [b] => Returns b
  | Array _ => Raises "ValueError"
  end.

(** [if pd.isna(text) or not isinstance(text, str): return text, {}, {}] *)
Definition detect_and_redact_py (ev : env) (v : pyval) : outcome (pyval * counts * counts) :=
  match truth (isna v) with
  | Raises exc => Raises exc
  | Returns true => Returns (v, [], [])
  | Returns false =>
      match v with
      | PStr text =>
          let '(r, st, inv) := detect_and_redact ev text in Returns (PStr r, st, inv)
      | _ => Returns (v, [], [])
      end
  end.

End PyCall.

(* ------------------------------------------------------------------ *)
(** ** Per-record risk classification (report/report.py, [main]) *)

Module RecordRisk.
Import Detector.

Definition critical_categories : list string :=
  [ "CPF"; "CNPJ"; "GENERAL_REGISTRY"; "SENSITIVE_HEALTH"; "SENSITIVE_MINOR";
    "SENSITIVE_SOCIAL"; "SENSITIVE_RACE"; "SENSITIVE_GENDER" ].

Definition moderate_categories : list string :=
  [ "EMAIL"; "PHONE"; "FULL_ADDRESS"; "PERSON_NAME" ].

(** [PIIDetector.PII_TYPES] of report.py. *)
Definition PII_TYPES : list (string * string) :=
  [ ("PERSON_NAME", "Nome de Pessoa");
    ("CPF", "Cadastro de Pessoa Física");
    ("CNPJ", "Cadastro Nacional de Pessoa Jurídica");
    ("EMAIL", "Endereço de E-mail");
    ("PHONE", "Número de Telefone");
    ("FULL_ADDRESS", "Endereço Completo");
    ("GENERAL_REGISTRY", "Registros Gerais (RG/NIS/PIS/CNH)");
    ("SENSITIVE_HEALTH", "Dados de Saúde (Sensível)");
    ("SENSITIVE_MINOR", "Dados de Menor de Idade (Sensível)");
    ("SENSITIVE_SOCIAL", "Dados Sociais (Sensível)");
    ("SENSITIVE_RACE", "Dados de Raça/Cor (Sensível)");
    ("SENSITIVE_GENDER", "Dados de Gênero (Sensível)") ].

Fixpoint lookup (k : string) (d : list (string * string)) : option string :=
  match d with
  | [] => None
  | (k', v) :: rest => if String.eqb k k' then Some v else lookup k rest
  end.

(** [get_description]: [self.PII_TYPES.get(key, key)] *)
Definition get_description (key : string) : string :=
  match lookup key PII_TYPES with Some d => d | None => key end.

Definition str_in (x : string) (xs : list string) : bool := existsb (String.eqb x) xs.

Definition keys (stats : counts) : list string := map fst stats.

Record risk : Type := Risk { level : string; reasons : list string }.

(** The entry [record_risk_analysis[record_id]] written for one record's
    [stats]; [None] when the loop body writes no entry. *)
Definition classify_record (stats : counts) : option risk :=
  match stats with
  | [] => Some (Risk "PÚBLICO" [])
  | _ =>
      let has_critical := existsb (fun cat => str_in cat (keys stats)) critical_categories in
      let has_moderate := existsb (fun cat => str_in cat (keys stats)) moderate_categories in
      if has_critical then
        Some (Risk "CRÍTICO"
                (map get_description (filter (fun cat => str_in cat critical_categories) (keys stats))))
      else if has_moderate then
        Some (Risk "MODERADO"
                (map get_description (filter (fun cat => str_in cat moderate_categories) (keys stats))))
      else None
  end.

End RecordRisk.

(* ------------------------------------------------------------------ *)
(** ** The detector as one fold over candidate spans *)

Module Accumulator.
Import Re Patterns Detector.

(** How a candidate is registered. *)
Inductive kind : Type :=
| KCpf (valid : bool)          (* tax ID: no overlap test *)
| KChecked (sets_id : bool)    (* overlap-checked *)
| KSensitive.                  (* sensitive topic: gated, no overlap test *)

Record cand : Type := Cand { c_kind : kind; c_key : string; c_start : nat; c_end : nat }.

Definition spans (kd : kind) (key : string) (l : list (nat * nat)) : list cand :=
  map (fun se => Cand kd key (fst se) (snd se)) l.

Definition name_cands (ev : env) (text : list nat) : list cand :=
  match nlp ev with
  | None => []
  | Some recognize =>
      match recognize text with
      | None => []
      | Some ents =>
          map (fun en => Cand (KChecked true) "PERSON_NAME" (start_char en) (end_char en))
              (filter (name_accepted text) ents)
      end
  end.

Definition cpf_cands (text : list nat) : list cand :=
  map (fun c => let '(s, e, v) := c in Cand (KCpf v) "CPF" s e) (_detect_cpf text).

(** Registry, CNPJ, contact and phone-regex spans. *)
Definition regex_cands (text : list nat) : list cand :=
  spans (KChecked true) "GENERAL_REGISTRY" (finditer GENERAL_REGISTRY false text)
  ++ spans (KChecked false) "CNPJ" (finditer CNPJ false text)
  ++ flat_map (fun tp => spans (KChecked false) (stats_key (fst tp)) (finditer (snd tp) false text))
              contact_types
  ++ flat_map (fun p => spans (KChecked false) "PHONE" (finditer p false text)) phone_patterns.

Definition phonenumbers_cands (ev : env) (text : list nat) : list cand :=
  map (fun pm => let '(s, e, _) := pm in Cand (KChecked false) "PHONE" s e)
      (filter (fun pm => let '(_, _, valid) := pm in valid) (fst (phone_matcher ev text))).

Definition sensitive_cands (text : list nat) : list cand :=
  flat_map (fun kk => flat_map (fun kw => spans KSensitive (fst kk) (finditer kw true text))
                               (snd kk))
           sensitive_keywords.

(** All candidate spans of one call, in the order the detectors run. *)
Definition candidates (ev : env) (text : list nat) : list cand :=
  cpf_cands text ++ name_cands ev text ++ regex_cands text
  ++ phonenumbers_cands ev text ++ sensitive_cands text.

Definition overlaps (mask : list nat) (s e : nat) : bool :=
  existsb (fun i => mem i mask) (range s e).

Definition add (st : dstate) (c : cand) (sets_id : bool) : dstate :=
  DState (indices_to_mask st ++ range (c_start c) (c_end c)) (incr (c_key c) (pii_stats st))
         (invalid_cpfs st) (sets_id || has_identifier st).

(** The accumulator of the spec (section 4.6), read literally: every
    candidate, of every detector, is dropped when it overlaps the mask
    accumulated so far and added and counted otherwise. *)
Definition literal_step (st : dstate) (c : cand) : dstate :=
  if overlaps (indices_to_mask st) (c_start c) (c_end c) then st
  else
    match c_kind c with
    | KCpf v =>
        let st' := add st c true in
        DState (indices_to_mask st') (pii_stats st')
               (if v then invalid_cpfs st else incr "CPF_INVALID" (invalid_cpfs st)) true
    | KChecked b => add st c b
    | KSensitive => add st c false
    end.

(** The accumulator as the code implements it: overlap-checked candidates
    are dropped on overlap; tax-ID candidates are always added; sensitive
    candidates are added when an identifier was found, regardless of
    overlap. *)
Definition step (st : dstate) (c : cand) : dstate :=
  match c_kind c with
  | KCpf v =>
      let st' := add st c true in
      DState (indices_to_mask st') (pii_stats st')
             (if v then invalid_cpfs st else incr "CPF_INVALID" (invalid_cpfs st)) true
  | KChecked b => if overlaps (indices_to_mask st) (c_start c) (c_end c) then st else add st c b
  | KSensitive => if has_identifier st then add st c false else st
  end.

End Accumulator.

(** The legal-process (SEI) number pattern of the repository
    (report/indexReport.py, [SEI_PROCESS]). *)
Definition SEI_PROCESS : Re.pattern := Re.rx "\b\d{5}[-\s]?\d{6,}[/]?\d{4}[-\s]?\d{2}\b".


(** Pieces of the EMAIL pattern: the literal [\.gov\.br] of its lookahead
    and the three character classes, as [Re.rx] parses them. *)
Module EmailParts.
Import Re.
Definition gov_lit : regex :=
  RSeq (RChar 46) (RSeq (RChar 103) (RSeq (RChar 111) (RSeq (RChar 118)
    (RSeq (RChar 46) (RSeq (RChar 98) (RSeq (RChar 114) REps)))))).

Definition L_items : list citem :=
  [CRng 65 90; CRng 97 122; CRng 48 57; CChr 46; CChr 95; CChr 37; CChr 43; CChr 45].
Definition D_items : list citem := [CRng 65 90; CRng 97 122; CRng 48 57; CChr 46; CChr 45].
Definition T_items : list citem := [CRng 65 90; CChr 124; CRng 97 122].
End EmailParts.

(* ------------------------------------------------------------------ *)
(** ** Python's [int / int > c] with a float literal [c] *)

Module PyFloat.
Import PyCall.

(** CPython divides two ints with a correctly rounded result, and raises
    OverflowError when the quotient rounds beyond the largest double, that
    is when [num / den >= 2^1024 - 2^970]. *)
Definition max_quot : Z := (2 ^ 1024 - 2 ^ 970)%Z.

(** [num / den > lit] for ints [num >= 0], where [lit] is a double and
    [mid_num * 2^-mid_exp] the midpoint between [lit] and the next double
    above it, with [lit] of even mantissa: round-to-nearest-even puts the
    quotient above [lit] exactly when the exact quotient exceeds that
    midpoint. *)
Definition div_gt (mid_num mid_exp : Z) (num den : nat) : outcome bool :=
  if den =? 0 then Raises "ZeroDivisionError"
  else if (max_quot * Z.of_nat den <=? Z.of_nat num)%Z then Raises "OverflowError"
  else Returns (mid_num * Z.of_nat den <? Z.of_nat num * 2 ^ mid_exp)%Z.

(** [0.05] is the double [7205759403792794 * 2^-57]. *)
Definition gt_0_05 (num den : nat) : outcome bool := div_gt 14411518807585589 58 num den.

(** [0.5] is the double [2^52 * 2^-53]. *)
Definition gt_0_5 (num den : nat) : outcome bool := div_gt (2 ^ 53 + 1) 54 num den.

End PyFloat.

(* ------------------------------------------------------------------ *)
(** ** Report statistics (services/report_service.py, [ReportService]) *)

Module ReportService.
Import Detector PyCall PyFloat.

(** [k in d] for a dict. *)
Definition key_in (k : string) (d : counts) : bool := existsb (fun kv => String.eqb k (fst kv)) d.

(** [sum(d.values())] *)
Definition sum_values (d : counts) : nat := list_sum (map snd d).

(** [sum(d.get(k, 0) for k in ks)] *)
Definition sum_get (ks : list string) (d : counts) : nat := list_sum (map (fun k => get k d) ks).

Definition critical_pii : list string :=
  [ "CPF"; "CNPJ"; "GENERAL_REGISTRY"; "CREDIT_CARD"; "SENSITIVE_HEALTH"; "SENSITIVE_MINOR";
    "SENSITIVE_SOCIAL"; "SENSITIVE_RACE"; "SENSITIVE_GENDER" ].

Definition high_risk_pii : list string :=
  [ "EMAIL"; "PHONE"; "DATE_BIRTH"; "OAB"; "MATRICULA"; "FULL_ADDRESS" ].

Definition sensitive_keys : list string :=
  [ "SENSITIVE_HEALTH"; "SENSITIVE_RACE"; "SENSITIVE_GENDER"; "SENSITIVE_MINOR"; "SENSITIVE_SOCIAL" ].

(** [_calculate_risk_level]: the ratio is evaluated before
    [sensitive_detected] in the [or]. *)
Definition _calculate_risk_level (pii_stats : counts) (total_records : nat) : outcome string :=
  let critical_count := sum_get critical_pii pii_stats in
  let high_count := sum_get high_risk_pii pii_stats in
  let total_pii := sum_values pii_stats in
  if 0 <? critical_count then
    let sensitive_detected := existsb (fun k => key_in k pii_stats) sensitive_keys in
    match gt_0_05 critical_count total_records with
    | Raises exc => Raises exc
    | Returns above => if above || sensitive_detected then Returns "CRÍTICO" else Returns "ALTO"
    end
  else if 0 <? high_count then Returns "MÉDIO"
  else if 0 <? total_pii then Returns "BAIXO"
  else Returns "MÍNIMO".

Definition rec_crypto : string := "Implementar criptografia em repouso e trânsito".
Definition rec_access : string := "Acesso restrito: Necessidade de conhecer (Need-to-know)".
Definition rec_health : string :=
  "⚠️  ALERTA: Dado Sensível de Saúde. Requer Relatório de Impacto (RIPD/DPIA)".
Definition rec_discr : string :=
  "⚠️  ALERTA: Dados Discriminatórios (Raça/Gênero) detectados. Tratamento restrito.".
Definition rec_minor : string :=
  "⚠️  ALERTA: Dados de Menores de Idade. Proteção especial requerida.".
Definition rec_gov : string :=
  "Identificadores governamentais: Aplicar mascaramento irreversível para ambientes de teste".
Definition rec_default : string := "Manter monitoramento periódico de conformidade".

Definition _get_recommendations (risk_level : string) (pii_stats : counts) : list string :=
  let recommendations :=
    (if RecordRisk.str_in risk_level ["CRÍTICO"; "ALTO"] then [rec_crypto; rec_access] else [])
    ++ (if key_in "SENSITIVE_HEALTH" pii_stats then [rec_health] else [])
    ++ (if key_in "SENSITIVE_RACE" pii_stats || key_in "SENSITIVE_GENDER" pii_stats
        then [rec_discr] else [])
    ++ (if key_in "SENSITIVE_MINOR" pii_stats then [rec_minor] else [])
    ++ (if key_in "CPF" pii_stats || key_in "GENERAL_REGISTRY" pii_stats then [rec_gov] else []) in
  match recommendations with
  | [] => [rec_default]
  | _ => recommendations
  end.

Definition descriptions : list (string * string) :=
  [ ("CPF", "Cadastro de Pessoa Física");
    ("CNPJ", "Cadastro Nacional de Pessoa Jurídica");
    ("PERSON_NAME", "Nome de Pessoa");
    ("EMAIL", "Endereço de E-mail");
    ("PHONE", "Número de Telefone");
    ("FULL_ADDRESS", "Endereço Completo");
    ("CEP", "Código de Endereçamento Postal");
    ("GENERAL_REGISTRY", "Registros Gerais (RG/NIS/PIS/CNH)");
    ("DOC_GENERICO", "Documento Genérico");
    ("MATRICULA", "Matrícula Funcional");
    ("OAB", "Registro OAB");
    ("CREDIT_CARD", "Número de Cartão de Crédito");
    ("SENSITIVE_HEALTH", "Dados de Saúde (Sensível)");
    ("SENSITIVE_MINOR", "Dados de Menor de Idade (Sensível)");
    ("SENSITIVE_SOCIAL", "Dados Sociais (Sensível)");
    ("SENSITIVE_RACE", "Dados de Raça/Cor (Sensível)");
    ("SENSITIVE_GENDER", "Dados de Gênero (Sensível)");
    ("DATE_BIRTH", "Data de Nascimento") ].

(** [descriptions.get(pii_type, pii_type)] *)
Definition _get_pii_description (pii_type : string) : string :=
  match RecordRisk.lookup pii_type descriptions with Some d => d | None => pii_type end.

(** *** [sorted(d.items(), key=lambda x: x[1], reverse=True)]

    CPython sorts with [reverse=True] by reversing the list, sorting it
    stably in ascending order and reversing the result.  Every stable sort
    gives the same result; insertion is used here. *)
Fixpoint insert_by_count (x : string * nat) (l : list (string * nat)) : list (string * nat) :=
  match l with
  | [] => [x]
  | y :: rest => if snd x <? snd y then x :: l else y :: insert_by_count x rest
  end.

Definition stable_sort_by_count (l : list (string * nat)) : list (string * nat) :=
  fold_left (fun acc x => insert_by_count x acc) l [].

Definition sorted_by_count_desc (items : list (string * nat)) : list (string * nat) :=
  rev (stable_sort_by_count (rev items)).

(** The [type], [description] and [count] fields of [pii_breakdown] in
    [create_report] (its [percentage] field is not modelled). *)
Definition pii_breakdown (pii_statistics : counts) : list (string * string * nat) :=
  map (fun tc => (fst tc, _get_pii_description (fst tc), snd tc))
      (sorted_by_count_desc pii_statistics).

Definition risk_descriptions : list (string * string) :=
  [ ("CRÍTICO", "Dados sensíveis (Saúde/Raça/Gênero) ou identificadores oficiais em massa detectados.");
    ("ALTO", "Identificadores oficiais e dados de contato detectados. Risco de identificação direta.");
    ("MÉDIO", "Dados profissionais ou de localização detectados. Requer atenção.");
    ("BAIXO", "Poucos dados pessoais esparsos. Risco controlado.");
    ("MÍNIMO", "Nenhum dado sensível significativo detectado.") ].

(** [_get_risk_description]: [descriptions.get(risk_level, 'Classificação não disponível')] *)
Definition _get_risk_description (risk_level : string) : string :=
  match RecordRisk.lookup risk_level risk_descriptions with
  | Some d => d
  | None => "Classificação não disponível"
  end.

End ReportService.

(* ------------------------------------------------------------------ *)
(** ** The standalone detector of report/indexReport.py *)

Module IndexReport.
Import Re Detector PyCall PyFloat.

(** [d[k] += n] on a [defaultdict(int)] *)
Fixpoint add_count (k : string) (n : nat) (d : counts) : counts :=
  match d with
  | [] => [(k, n)]
  | (k', v) :: rest => if String.eqb k k' then (k', v + n) :: rest else (k', v) :: add_count k n rest
  end.

Definition regex_patterns : list (string * pattern) :=
  [ ("CPF", rx "\b\d{3}\.?\d{3}\.?\d{3}[-\s]?\d{2}\b");
    ("CNPJ", rx "\b\d{2}\.?\d{3}\.?\d{3}[/]?\d{4}[-\s]?\d{2}\b");
    ("RG", rx "\b\d{1,2}\.?\d{3}\.?\d{3}[-\s]?[0-9xX]\b");
    ("EMAIL", rx "\b[A-Za-z0-9._%+-]+@[A-Za-z0-9.-]+\.[A-Z|a-z]{2,}\b");
    ("PHONE", rx "\b(?:\(?\d{2}\)?\s?)?(?:9\s?\d{4}|\d{4})[-.\s]?\d{4}\b");
    ("CEP", rx "\b\d{5}[-\s]?\d{3}\b");
    ("SEI_PROCESS", rx "\b\d{5}[-\s]?\d{6,}[/]?\d{4}[-\s]?\d{2}\b");
    ("DATE_BIRTH",
      rx "\b(?:0?[1-9]|[12][0-9]|3[01])[/\-](?:0?[1-9]|1[0-2])[/\-](?:19|20)\d{2}\b") ].

(** [indices_to_mask.update(range(s, e))] for every match *)
Definition mask_matches (matches : list (nat * nat)) (mask : list nat) : list nat :=
  fold_left (fun mk se => mk ++ range (fst se) (snd se)) matches mask.

(** Loop state: [(indices_to_mask, pii_stats)]. *)
Definition regex_body (text : list nat) (acc : list nat * counts) (tp : string * pattern)
  : list nat * counts :=
  let '(mask, stats) := acc in
  let matches := finditer (snd tp) false text in
  match matches with
  | [] => acc
  | _ => (mask_matches matches mask, add_count (fst tp) (List.length matches) stats)
  end.

(** [ent.label_ == "PER" and len(ent.text.split()) > 1] *)
Definition is_name (text : list nat) (en : ent) : bool :=
  String.eqb (label_ en) "PER" &&
  (1 <? List.length (split_ws (slice text (start_char en) (end_char en)))).

Definition ent_body (text : list nat) (acc : list nat * counts) (en : ent) : list nat * counts :=
  let '(mask, stats) := acc in
  if is_name text en then
    (mask ++ range (start_char en) (end_char en), incr "PERSON_NAME" stats)
  else if String.eqb (label_ en) "LOC" then
    (mask ++ range (start_char en) (end_char en), incr "LOCATION" stats)
  else acc.

(** [detect_and_redact] on a [str]; [nlp text] is the call [self.nlp(text)]
    ([None]: it raised, outside any [try]). *)
Definition detect_and_redact_text (nlp : list nat -> option (list ent)) (text : list nat)
  : outcome (list nat * counts) :=
  let acc := fold_left (regex_body text) regex_patterns ([], []) in
  match nlp text with
  | None => Raises "Exception"
  | Some ents =>
      let '(mask, stats) := fold_left (ent_body text) ents acc in
      Returns (render_from mask 0 text, stats)
  end.

Definition detect_and_redact (nlp : list nat -> option (list ent)) (v : pyval)
  : outcome (pyval * counts) :=
  match truth (isna v) with
  | Raises exc => Raises exc
  | Returns true => Returns (v, [])
  | Returns false =>
      match v with
      | PStr text =>
          match detect_and_redact_text nlp text with
          | Raises exc => Raises exc
          | Returns (r, st) => Returns (PStr r, st)
          end
      | _ => Returns (v, [])
      end
  end.

Definition critical_pii : list string := [ "CPF"; "CNPJ"; "RG" ].
Definition high_risk_pii : list string := [ "EMAIL"; "PHONE"; "DATE_BIRTH" ].

(** [ReportGenerator.calculate_risk_level] *)
Definition calculate_risk_level (pii_stats : counts) (total_records : nat) : outcome string :=
  let critical_count := ReportService.sum_get critical_pii pii_stats in
  let high_count := ReportService.sum_get high_risk_pii pii_stats in
  let total_pii := ReportService.sum_values pii_stats in
  if 0 <? critical_count then
    match gt_0_5 critical_count total_records with
    | Raises exc => Raises exc
    | Returns true => Returns "🔴 CRÍTICO"
    | Returns false => Returns "🟠 ALTO"
    end
  else if 0 <? high_count then Returns "🟡 MÉDIO"
  else if 0 <? total_pii then Returns "🟢 BAIXO"
  else Returns "⚪ MÍNIMO".

End IndexReport.

(* ------------------------------------------------------------------ *)
(** ** The anonymisation script src/index.py, [PIIDetector.redact_text] *)

Module IndexScript.
Import Re Detector PyCall.

Definition regex_patterns : list pattern :=
  [ rx "\b\d{3}\.?\d{3}\.?\d{3}-?\d{2}\b";
    rx "\b\d{2}\.?\d{3}\.?\d{3}/?\d{4}-?\d{2}\b";
    rx "\b[A-Za-z0-9._%+-]+@[A-Za-z0-9.-]+\.[A-Z|a-z]{2,}\b";
    rx "\b(?:\(?\d{2}\)?\s?)?(?:9\d{4}|\d{4})[-.\s]?\d{4}\b";
    rx "\b\d{5}-?\d{6,}/?\d{4}-?\d{2}\b" ].

Definition redact_str (nlp : list nat -> option (list ent)) (text : list nat) : outcome (list nat) :=
  let mask := fold_left (fun mk p => IndexReport.mask_matches (finditer p false text) mk)
                        regex_patterns [] in
  match nlp text with
  | None => Raises "Exception"
  | Some ents =>
      let mask := fold_left (fun mk en =>
                               if IndexReport.is_name text en
                               then mk ++ range (start_char en) (end_char en) else mk) ents mask in
      Returns (render_from mask 0 text)
  end.

Definition redact_text (nlp : list nat -> option (list ent)) (v : pyval) : outcome pyval :=
  match truth (isna v) with
  | Raises exc => Raises exc
  | Returns true => Returns v
  | Returns false =>
      match v with
      | PStr text =>
          match redact_str nlp text with
          | Raises exc => Raises exc
          | Returns r => Returns (PStr r)
          end
      | _ => Returns v
      end
  end.

End IndexScript.

(* ------------------------------------------------------------------ *)
(** ** The record loops of services/file_processor.py, [FileProcessor] *)

Module FileProcessor.
Import Detector PyCall.

(** The items of the tuple a detector returns: Python values and dicts. *)
Inductive pyobj : Type :=
| OVal (v : pyval)
| ODict (d : counts).

(** [bool(x)] *)
Definition truthy (o : pyobj) : bool :=
  match o with
  | ODict d => match d with [] => false | _ => true end
  | OVal v =>
      match v with
      | PNone => false
      | PNaN => true
      | PInt z | PFloat z => negb (z =? 0)
      | PBool b => b
      | PStr s => match s with [] => false | _ => true end
      | PList l => match l with [] => false | _ => true end
      end
  end.

(** [a, b = t] for a tuple [t]: ValueError unless it has two items. *)
Definition unpack2 (items : list pyobj) : outcome (pyobj * pyobj) :=
  match items with
  | [a; b] => Returns (a, b)
  | _ => Raises "ValueError"
  end.

(** [self.detector.detect_and_redact] as wired by app.py and
    process_file.py: the service detector, returning a triple. *)
Definition service_detect (ev : env) (v : pyval) : outcome (list pyobj) :=
  match detect_and_redact_py ev v with
  | Raises exc => Raises exc
  | Returns (r, st, inv) => Returns [OVal r; ODict st; ODict inv]
  end.

(** [for pii_type, count in pii_stats.items(): pii_stats_total[pii_type] += count] *)
Definition add_all (src dst : counts) : counts :=
  fold_left (fun d kv => IndexReport.add_count (fst kv) (snd kv) d) src dst.

(** Loop state: [(len(records), records_with_pii, pii_stats_total)]; the
    record dicts appended to [records] are not modelled beyond their
    number (building them raises nothing). *)
Definition fp_state := (nat * nat * counts)%type.

(** One processed record: detection, unpacking, statistics. *)
Definition record_body (detect : pyval -> outcome (list pyobj)) (st : fp_state) (v : pyval)
  : outcome fp_state :=
  let '(n, rw, tot) := st in
  match detect v with
  | Raises exc => Raises exc
  | Returns items =>
      match unpack2 items with
      | Raises exc => Raises exc
      | Returns (_, pii_stats) =>
          if truthy pii_stats then
            match pii_stats with
            | ODict d => Returns (S n, S rw, add_all d tot)
            | OVal _ => Raises "AttributeError"
            end
          else Returns (S n, rw, tot)
      end
  end.

(** A [for] loop whose body may raise. *)
Fixpoint loop {A : Type} (body : fp_state -> A -> outcome fp_state) (st : fp_state) (xs : list A)
  : outcome fp_state :=
  match xs with
  | [] => Returns st
  | x :: rest =>
      match body st x with
      | Raises exc => Raises exc
      | Returns st' => loop body st' rest
      end
  end.

(** [process_csv], from the column [_identify_text_column] returned
    ([None] when it found none) and the cells of that column. *)
Definition process_csv (detect : pyval -> outcome (list pyobj)) (text_column : option string)
           (cells : list pyval) : outcome fp_state :=
  match text_column with
  | None => Raises "ValueError"
  | Some _ => loop (record_body detect) (0, 0, []) cells
  end.

(** [process_txt], from the lines [f.readlines()] returned. *)
Definition txt_body (detect : pyval -> outcome (list pyobj)) (st : fp_state) (line : list nat)
  : outcome fp_state :=
  let line := strip line in
  match line with
  | [] => Returns st
  | _ => record_body detect st (PStr line)
  end.

Definition process_txt (detect : pyval -> outcome (list pyobj)) (lines : list (list nat))
  : outcome fp_state :=
  loop (txt_body detect) (0, 0, []) lines.

(** [process_excel], read with [dtype=str]: a cell is a string or NaN
    ([None]); [text_column] is the column chosen after all fallbacks. *)
Definition excel_body (detect : pyval -> outcome (list pyobj)) (st : fp_state)
           (cell : option (list nat)) : outcome fp_state :=
  let original_text := match cell with Some s => s | None => [] end in
  if (match original_text with [] => true | _ => false end) || str_eqb original_text (py "nan")
  then Returns st
  else record_body detect st (PStr original_text).

Definition process_excel (detect : pyval -> outcome (list pyobj)) (text_column : option string)
           (cells : list (option (list nat))) : outcome fp_state :=
  match text_column with
  | None => Raises "ValueError"
  | Some _ => loop (excel_body detect) (0, 0, []) cells
  end.

End FileProcessor.

(* ------------------------------------------------------------------ *)
(** ** Notions used to state properties of the code *)

Module Properties.
Import Re Detector PyCall IndexReport FileProcessor.

(** A dict is truthy when it is not empty. *)
Definition nonempty (d : counts) : bool := match d with [] => false | _ => true end.

(** A sample detector returning the pair [(text, stats)] of [f]. *)
Definition sample_f (v : pyval) : pyval * counts :=
  (v, match v with PStr _ => [("EMAIL", 1); ("CPF", 2)] | _ => [] end).
Definition sample_detect (v : pyval) : outcome (list pyobj) :=
  Returns [OVal v; ODict (match v with PStr _ => [("EMAIL", 1); ("CPF", 2)] | _ => [] end)].

(** [p] is a prefix of [d]. *)
Definition prefix_of (p d : list nat) : Prop := exists t, d = p ++ t.

(** The order of [sorted(..., key=lambda x: x[1])]. *)
Definition count_le (a b : string * nat) : Prop := snd a <= snd b.

(** A counter dict: keys without duplicates, every value at least 1. *)
Definition dict_ok (d : counts) : Prop := NoDup (map fst d) /\ Forall (fun kv => 1 <= snd kv) d.

(** Position [i] lies in a match of one of the patterns [tps]. *)
Definition regex_covered (tps : list (string * pattern)) (text : list nat) (i : nat) : Prop :=
  exists k P s e, In (k, P) tps /\ In (s, e) (finditer P false text) /\ s <= i < e.

(** The location entities counted by [detect_and_redact] of indexReport.py. *)
Definition is_loc (text : list nat) (en : ent) : bool :=
  negb (is_name text en) && String.eqb (label_ en) "LOC".

(** All positions covered by a list of spans. *)
Definition span_positions (l : list (nat * nat)) : list nat :=
  List.concat (map (fun se => range (fst se) (snd se)) l).

(** All positions covered by the entries of [_detect_cpf]. *)
Definition cpf_positions (l : list (nat * nat * bool)) : list nat :=
  List.concat (map (fun c => let '(s, e, _) := c in range s e) l).

End Properties.

(* ================================================================== *)
(** * Proofs *)

Module Fold.
Import Re Patterns Detector Accumulator.

Lemma fold_left_map_gen {A B C : Type} (f : A -> B -> A) (g : C -> B) (l : list C) (a : A) :
  fold_left f (map g l) a = fold_left (fun acc x => f acc (g x)) l a.
Proof. revert a; induction l as [|x l IH]; intros a; simpl; auto. Qed.

Lemma fold_left_flat_map_gen {A B C : Type} (f : A -> B -> A) (g : C -> list B) (l : list C) (a : A) :
  fold_left f (flat_map g l) a = fold_left (fun acc x => fold_left f (g x) acc) l a.
Proof.
  revert a; induction l as [|x l IH]; intros a; simpl; auto.
  rewrite fold_left_app; apply IH.
Qed.

Lemma fold_left_ext_gen {A B : Type} (f g : A -> B -> A) (l : list B) (a : A) :
  (forall acc x, f acc x = g acc x) -> fold_left f l a = fold_left g l a.
Proof. intros H; revert a; induction l as [|x l IH]; intros a; simpl; auto; rewrite H; auto. Qed.

Lemma fold_left_filter_gen {A B : Type} (f : A -> B -> A) (p : B -> bool) (l : list B) (a : A) :
  fold_left (fun acc x => if p x then f acc x else acc) l a = fold_left f (filter p l) a.
Proof. revert a; induction l as [|x l IH]; intros a; simpl; auto; destruct (p x); simpl; auto. Qed.

Lemma register_step key b st s e :
  register key b st (s, e) = step st (Cand (KChecked b) key s e).
Proof. reflexivity. Qed.

Lemma checked_fold key b l st :
  fold_left (register key b) l st = fold_left step (spans (KChecked b) key l) st.
Proof.
  unfold spans; rewrite fold_left_map_gen; apply fold_left_ext_gen.
  intros acc [s e]; reflexivity.
Qed.

Lemma stage_cpf_fold text st :
  stage_cpf text st =
  fold_left step (map (fun c => let '(s, e, v) := c in Cand (KCpf v) "CPF" s e) (_detect_cpf text)) st.
Proof.
  unfold stage_cpf; rewrite fold_left_map_gen; apply fold_left_ext_gen.
  intros acc [[s e] v]; reflexivity.
Qed.

Lemma stage_names_fold ev text st :
  stage_names ev text st = fold_left step (name_cands ev text) st.
Proof.
  unfold stage_names, name_cands.
  destruct (nlp ev) as [recognize|]; [|reflexivity].
  destruct (recognize text) as [ents|]; [|reflexivity].
  rewrite fold_left_map_gen, <- fold_left_filter_gen.
  apply fold_left_ext_gen; intros acc en; unfold name_body.
  destruct (name_accepted text en); reflexivity.
Qed.

Lemma stage_contact_fold text st :
  stage_contact text st =
  fold_left step (flat_map (fun tp => spans (KChecked false) (stats_key (fst tp))
                                            (finditer (snd tp) false text)) contact_types) st.
Proof.
  unfold stage_contact; rewrite fold_left_flat_map_gen; apply fold_left_ext_gen.
  intros acc tp; apply checked_fold.
Qed.

Lemma stage_phone_regex_fold text st :
  stage_phone_regex text st =
  fold_left step (flat_map (fun p => spans (KChecked false) "PHONE" (finditer p false text))
                           phone_patterns) st.
Proof.
  unfold stage_phone_regex; rewrite fold_left_flat_map_gen; apply fold_left_ext_gen.
  intros acc p; apply checked_fold.
Qed.

Lemma stage_phonenumbers_fold ev text st :
  stage_phonenumbers ev text st =
  fold_left step (map (fun pm => let '(s, e, _) := pm in Cand (KChecked false) "PHONE" s e)
                      (filter (fun pm => let '(_, _, valid) := pm in valid)
                              (fst (phone_matcher ev text)))) st.
Proof.
  unfold stage_phonenumbers; rewrite fold_left_map_gen, <- fold_left_filter_gen.
  apply fold_left_ext_gen; intros acc [[s e] v]; destruct v; reflexivity.
Qed.

Lemma stage_sensitive_fold text st :
  stage_sensitive text st =
  fold_left step (flat_map (fun kk => flat_map (fun kw => spans KSensitive (fst kk) (finditer kw true text))
                                               (snd kk)) sensitive_keywords) st.
Proof.
  unfold stage_sensitive; rewrite fold_left_flat_map_gen; apply fold_left_ext_gen.
  intros acc kk; rewrite fold_left_flat_map_gen; apply fold_left_ext_gen.
  intros acc' kw; unfold spans; rewrite fold_left_map_gen; apply fold_left_ext_gen.
  intros st0 [s e]; unfold sensitive_body, step, add; simpl.
  destruct (has_identifier st0); reflexivity.
Qed.

(** The loops of [detect_and_redact] are one fold of [step] over the
    candidate spans. *)
Lemma run_fold ev text : run ev text = fold_left step (candidates ev text) init.
Proof.
  unfold run, candidates, cpf_cands, regex_cands, phonenumbers_cands, sensitive_cands.
  rewrite !fold_left_app.
  rewrite <- stage_cpf_fold, <- stage_names_fold, <- !checked_fold,
          <- stage_contact_fold, <- stage_phone_regex_fold,
          <- stage_phonenumbers_fold, <- stage_sensitive_fold.
  reflexivity.
Qed.

End Fold.

Module Basics.
Import Detector Accumulator.

Lemma mem_In i l : mem i l = true <-> In i l.
Proof.
  unfold mem; rewrite existsb_exists; split.
  - intros [x [Hx Heq]]; apply Nat.eqb_eq in Heq; subst; auto.
  - intros H; exists i; split; auto; apply Nat.eqb_refl.
Qed.

Lemma mem_false i l : mem i l = false <-> ~ In i l.
Proof.
  rewrite <- mem_In; destruct (mem i l); split; intros H; try congruence.
Qed.

Lemma range_In i s e : In i (range s e) <-> s <= i < e.
Proof. unfold range; rewrite in_seq; lia. Qed.

Lemma overlaps_true mask s e :
  overlaps mask s e = true <-> exists i, s <= i < e /\ In i mask.
Proof.
  unfold overlaps; rewrite existsb_exists; split.
  - intros [i [Hi Hm]]; exists i; split; [apply range_In | apply mem_In]; auto.
  - intros [i [Hi Hm]]; exists i; split; [apply range_In | apply mem_In]; auto.
Qed.

Lemma overlaps_false mask s e :
  overlaps mask s e = false <-> forall i, s <= i < e -> ~ In i mask.
Proof.
  split.
  - intros H i Hi Hm.
    assert (overlaps mask s e = true) by (apply overlaps_true; eauto); congruence.
  - intros H; destruct (overlaps mask s e) eqn:E; auto.
    apply overlaps_true in E; destruct E as [i [Hi Hm]]; exfalso; eapply H; eauto.
Qed.

Lemma step_mask st c i : In i (indices_to_mask (step st c)) <->
  In i (indices_to_mask st) \/
  (c_start c <= i < c_end c /\
   match c_kind c with
   | KCpf _ => True
   | KChecked _ => overlaps (indices_to_mask st) (c_start c) (c_end c) = false
   | KSensitive => has_identifier st = true
   end).
Proof.
  unfold step, add; destruct (c_kind c).
  - simpl; rewrite in_app_iff, range_In; tauto.
  - destruct (overlaps _ _ _) eqn:E; simpl.
    + split; [tauto|]. intros [H|[_ H]]; auto; discriminate.
    + rewrite in_app_iff, range_In; tauto.
  - destruct (has_identifier st) eqn:E; simpl.
    + rewrite in_app_iff, range_In; tauto.
    + split; [tauto|]. intros [H|[_ H]]; auto; discriminate.
Qed.

Lemma fold_mask_incl cs st i :
  In i (indices_to_mask st) -> In i (indices_to_mask (fold_left step cs st)).
Proof.
  revert st; induction cs as [|c cs IH]; intros st H; simpl; auto.
  apply IH, step_mask; auto.
Qed.

Lemma fold_hasid_mono cs st :
  has_identifier st = true -> has_identifier (fold_left step cs st) = true.
Proof.
  revert st; induction cs as [|c cs IH]; intros st H; simpl; auto.
  apply IH; unfold step, add; destruct (c_kind c) as [v|b|]; simpl; auto.
  - destruct (overlaps _ _ _); simpl; auto; rewrite H, orb_true_r; auto.
  - rewrite H; simpl; rewrite ?H; reflexivity.
Qed.

Lemma keys_incr k k' d : In k (map fst (incr k' d)) <-> k = k' \/ In k (map fst d).
Proof.
  induction d as [|[a v] d IH]; simpl.
  - split; intros [H|[]]; left; auto.
  - destruct (String.eqb k' a) eqn:E; simpl.
    + apply String.eqb_eq in E; subst; split; [tauto|]. intros [H|H]; auto.
    + rewrite IH; tauto.
Qed.

Lemma get_incr k k' d : get k (incr k' d) = if String.eqb k k' then S (get k d) else get k d.
Proof.
  induction d as [|[a v] d IH]; simpl.
  - destruct (String.eqb k k'); auto.
  - destruct (String.eqb k' a) eqn:E; simpl.
    + apply String.eqb_eq in E; subst.
      destruct (String.eqb k a); auto.
    + rewrite IH. destruct (String.eqb k a) eqn:E1; auto.
      apply String.eqb_eq in E1; subst.
      destruct (String.eqb a k') eqn:E2; auto.
      apply String.eqb_eq in E2; subst; rewrite String.eqb_refl in E; discriminate.
Qed.

Lemma render_nth mask k text i :
  nth_error (render_from mask k text) i =
  option_map (fun c => if mem (k + i) mask then (if Chr.is_alnum c then 120 else c) else c)
             (nth_error text i).
Proof.
  revert k i; induction text as [|c text IH]; intros k i; simpl.
  - destruct i; reflexivity.
  - destruct i as [|i]; simpl.
    + rewrite Nat.add_0_r; reflexivity.
    + rewrite IH, Nat.add_succ_r; reflexivity.
Qed.

Lemma render_length mask k text : List.length (render_from mask k text) = List.length text.
Proof. revert k; induction text; intros k; simpl; auto. Qed.

End Basics.

(* ------------------------------------------------------------------ *)
(** ** NLP failures (C9) *)

Module NlpFailure.
Import Detector Accumulator.

Lemma stage_names_raises f pm text st :
  f text = None -> stage_names (Env (Some f) pm) text st = st.
Proof. intros H; unfold stage_names; cbn [nlp]; rewrite H; reflexivity. Qed.

Lemma stage_names_empty pm text st :
  stage_names (Env (Some (fun _ => Some [])) pm) text st = st.
Proof. reflexivity. Qed.

(** C9. When the recognizer call [self.nlp(text)] raises, the call returns
    normally and its result is the one obtained when the recognizer finds
    no entity (and the one obtained with no model loaded): every other
    detector contributes the same masks and counts. *)
Theorem C9_nlp_failure_is_no_entities (f : list nat -> option (list ent))
    (pm : list nat -> list (nat * nat * bool) * bool) (text : list nat)
    (Hraise : f text = None) :
  detect_and_redact (Env (Some f) pm) text =
    detect_and_redact (Env (Some (fun _ => Some [])) pm) text /\
  detect_and_redact (Env (Some f) pm) text = detect_and_redact (Env None pm) text.
Proof.
  unfold detect_and_redact, run.
  rewrite stage_names_raises by exact Hraise.
  rewrite stage_names_empty.
  unfold stage_names at 2; cbn [nlp].
  unfold stage_phonenumbers; cbn [phone_matcher].
  split; reflexivity.
Qed.

Lemma C9_witness :
  (fun _ : list nat => @None (list ent)) (py "CPF 529.982.247-25, Maria Silva") = None /\
  (detect_and_redact (Env (Some (fun _ => None)) (fun _ => ([], false)))
                     (py "CPF 529.982.247-25, Maria Silva") =
     detect_and_redact (Env (Some (fun _ => Some [])) (fun _ => ([], false)))
                       (py "CPF 529.982.247-25, Maria Silva") /\
   detect_and_redact (Env (Some (fun _ => None)) (fun _ => ([], false)))
                     (py "CPF 529.982.247-25, Maria Silva") =
     detect_and_redact (Env None (fun _ => ([], false))) (py "CPF 529.982.247-25, Maria Silva")).
Proof.
  split; [reflexivity|].
  apply (C9_nlp_failure_is_no_entities (fun _ => None) (fun _ => ([], false))
           (py "CPF 529.982.247-25, Maria Silva")).
  reflexivity.
Defined.

End NlpFailure.

(* ------------------------------------------------------------------ *)
(** ** Redaction (C7) *)

Module Redaction.
Import Patterns Detector Accumulator Basics.

Lemma cpf_example_stages :
  fold_left step (cpf_cands (py "CPF: 123.456.789-09")) init =
    DState (range 5 19) [("CPF", 1)] [] true /\
  regex_cands (py "CPF: 123.456.789-09") = [] /\
  sensitive_cands (py "CPF: 123.456.789-09") = [].
Proof. vm_compute; auto. Qed.

Lemma cpf_example_names s e :
  s < 3 -> s < e -> e <= 5 -> name_accepted (py "CPF: 123.456.789-09") (Ent s e "PER") = false.
Proof.
  intros H1 H2 H3.
  destruct s as [|[|[|s]]]; [| | | lia];
  (destruct e as [|[|[|[|[|[|e]]]]]]; [..| lia]); try lia; vm_compute; reflexivity.
Qed.

(** Spans that cannot reach offsets 0..2 without overlapping offset 5. *)
Lemma prefix_kept_fold cs st :
  (forall i, 5 <= i < 19 -> In i (indices_to_mask st)) ->
  (forall i, i < 3 -> ~ In i (indices_to_mask st)) ->
  Forall (fun c => (exists b, c_kind c = KChecked b) /\
                   (c_start c < 3 -> c_start c < c_end c -> 5 < c_end c)) cs ->
  (forall i, 5 <= i < 19 -> In i (indices_to_mask (fold_left step cs st))) /\
  (forall i, i < 3 -> ~ In i (indices_to_mask (fold_left step cs st))).
Proof.
  revert st; induction cs as [|c cs IH]; intros st H1 H2 HF; simpl; auto.
  inversion HF as [|? ? [[b Hb] Hc] HF']; subst.
  apply IH; auto.
  - intros i Hi; apply step_mask; auto.
  - intros i Hi Hin; apply step_mask in Hin; rewrite Hb in Hin.
    destruct Hin as [Hin|[Hr Hov]]; [exact (H2 i Hi Hin)|].
    rewrite overlaps_false in Hov.
    apply (Hov 5); [lia | apply H1; lia].
Qed.

Lemma name_cands_prefix ev :
  Forall (fun c => (exists b, c_kind c = KChecked b) /\
                   (c_start c < 3 -> c_start c < c_end c -> 5 < c_end c))
         (name_cands ev (py "CPF: 123.456.789-09")).
Proof.
  unfold name_cands.
  destruct (nlp ev) as [recognize|]; [|constructor].
  destruct (recognize _) as [ents|]; [|constructor].
  apply Forall_map, Forall_forall; intros [s e l] Hin; apply filter_In in Hin as [_ Ha].
  split; [exists true; reflexivity|]; cbn [c_start c_end start_char end_char]; intros H1 H2.
  destruct (Nat.le_gt_cases e 5) as [H3|H3]; auto.
  destruct (String.eqb l "PER") eqn:El.
  - apply String.eqb_eq in El; subst l.
    rewrite (cpf_example_names s e H1 H2 H3) in Ha; discriminate.
  - unfold name_accepted in Ha; cbn [label_] in Ha; rewrite El in Ha; discriminate.
Qed.
Lemma phonenumbers_cands_prefix ev :
  (forall s e, In (s, e, true) (fst (phone_matcher ev (py "CPF: 123.456.789-09"))) -> 5 <= s) ->
  Forall (fun c => (exists b, c_kind c = KChecked b) /\
                   (c_start c < 3 -> c_start c < c_end c -> 5 < c_end c))
         (phonenumbers_cands ev (py "CPF: 123.456.789-09")).
Proof.
  intros Hpm; unfold phonenumbers_cands.
  apply Forall_map, Forall_forall; intros [[s e] v] Hin; apply filter_In in Hin as [Hin Hv].
  destruct v; [|discriminate].
  split; [exists false; reflexivity|]; cbn [c_start c_end]; intros H1.
  specialize (Hpm s e Hin); lia.
Qed.

Lemma render_example M :
  (forall i, 5 <= i < 19 -> In i M) -> (forall i, i < 3 -> ~ In i M) ->
  render_from M 0 (py "CPF: 123.456.789-09") = py "CPF: xxx.xxx.xxx-xx".
Proof.
  intros H1 H2.
  change (py "CPF: 123.456.789-09") with
    [67; 80; 70; 58; 32; 49; 50; 51; 46; 52; 53; 54; 46; 55; 56; 57; 45; 48; 57].
  cbn [render_from].
  repeat match goal with
         | |- context [mem ?i M] =>
             first [ rewrite (proj2 (mem_false i M) (H2 i ltac:(lia)))
                   | rewrite (proj2 (mem_In i M) (H1 i ltac:(lia)))
                   | destruct (mem i M) ]
         end; reflexivity.
Qed.

(** C7. The redacted text has the length of the input; a character at an
    offset outside the mask is unchanged; at a masked offset an alphanumeric
    character becomes ['x'] (code point 120) and any other character is
    unchanged. In particular ["CPF: 123.456.789-09"] is redacted to
    ["CPF: xxx.xxx.xxx-xx"], for any recognizer and any phone matcher that
    finds no phone number in the label ["CPF: "] (offsets 0 to 4). *)
Theorem C7_redaction_frame (ev : env)
    (Hpm : forall s e, In (s, e, true) (fst (phone_matcher ev (py "CPF: 123.456.789-09"))) -> 5 <= s) :
  (forall (ev' : env) (text : list nat),
     List.length (fst (fst (detect_and_redact ev' text))) = List.length text /\
     (forall i c, nth_error text i = Some c ->
        (~ In i (indices_to_mask (run ev' text)) ->
           nth_error (fst (fst (detect_and_redact ev' text))) i = Some c) /\
        (In i (indices_to_mask (run ev' text)) -> Chr.is_alnum c = true ->
           nth_error (fst (fst (detect_and_redact ev' text))) i = Some 120) /\
        (In i (indices_to_mask (run ev' text)) -> Chr.is_alnum c = false ->
           nth_error (fst (fst (detect_and_redact ev' text))) i = Some c))) /\
  fst (fst (detect_and_redact ev (py "CPF: 123.456.789-09"))) = py "CPF: xxx.xxx.xxx-xx".
Proof.
  split.
  - intros ev' text; unfold detect_and_redact; cbn [fst].
    split; [apply render_length|].
    intros i c Hc; rewrite render_nth, Hc; cbn [option_map Nat.add].
    repeat split; intros Hm.
    + apply mem_false in Hm; rewrite Hm; reflexivity.
    + apply mem_In in Hm; rewrite Hm; intros Ha; rewrite Ha; reflexivity.
    + apply mem_In in Hm; rewrite Hm; intros Ha; rewrite Ha; reflexivity.
  - unfold detect_and_redact; cbn [fst].
    rewrite Fold.run_fold; unfold candidates; rewrite !fold_left_app.
    destruct cpf_example_stages as [Hc [Hr Hs]]; rewrite Hc, Hr, Hs; cbn [fold_left].
    destruct (prefix_kept_fold (name_cands ev (py "CPF: 123.456.789-09"))
                (DState (range 5 19) [("CPF", 1)] [] true)) as [A1 A2].
    + intros i Hi; apply range_In; cbn; lia.
    + intros i Hi Hin; apply range_In in Hin; cbn in Hin; lia.
    + apply name_cands_prefix.
    + destruct (prefix_kept_fold _ _ A1 A2 (phonenumbers_cands_prefix ev Hpm)) as [B1 B2].
      apply render_example; auto.
Qed.

Lemma C7_witness :
  (forall s e, In (s, e, true) (fst ((fun _ : list nat => (@nil (nat * nat * bool), false))
                                       (py "CPF: 123.456.789-09"))) -> 5 <= s) /\
  fst (fst (detect_and_redact (Env None (fun _ => ([], false))) (py "CPF: 123.456.789-09")))
    = py "CPF: xxx.xxx.xxx-xx".
Proof.
  assert (Hpm : forall s e, In (s, e, true) (fst ((fun _ : list nat => (@nil (nat * nat * bool), false))
                                                   (py "CPF: 123.456.789-09"))) -> 5 <= s)
    by (simpl; intros s e []).
  split; [exact Hpm|].
  exact (proj2 (C7_redaction_frame (Env None (fun _ => ([], false))) Hpm)).
Defined.

End Redaction.

(* ------------------------------------------------------------------ *)
(** ** The CPF check digits (C3) *)

Module CpfCheck.
Import Detector.

Lemma is_digit_of_decimal c : Chr.is_decimal c = true -> Chr.is_digit c = true.
Proof. unfold Chr.is_digit; intros H; rewrite H; reflexivity. Qed.

Lemma int_of_decimal c : Chr.is_decimal c = true -> int_of c = Some (c - 48).
Proof. unfold int_of; intros H; rewrite H; reflexivity. Qed.

Lemma str_eqb_repeat (l : list nat) x :
  str_eqb l (repeat x (List.length l)) = forallb (fun c => c =? x) l.
Proof. induction l as [|c l IH]; simpl; auto; rewrite IH; reflexivity. Qed.

Lemma weighted_sum_aux (cpf : list nat) w k a acc :
  (forall i, a <= i < a + k -> Chr.is_decimal (nth i cpf 0) = true) ->
  fold_left (fun acc i =>
               match acc, int_of (nth i cpf 0) with
               | Some a, Some d => Some (a + d * (w - i))
               | _, _ => None
               end) (seq a k) (Some acc) =
  Some (acc + list_sum (map (fun i => (nth i cpf 0 - 48) * (w - i)) (seq a k))).
Proof.
  revert a acc; induction k as [|k IH]; intros a acc H; cbn [seq fold_left map list_sum].
  - rewrite Nat.add_0_r; reflexivity.
  - rewrite (int_of_decimal (nth a cpf 0) (H a ltac:(lia))).
    rewrite IH by (intros i Hi; apply H; lia).
    change (list_sum (?x :: ?l)) with (x + list_sum l); f_equal; lia.
Qed.

Lemma weighted_sum_decimal (cpf : list nat) n w :
  (forall i, i < n -> Chr.is_decimal (nth i cpf 0) = true) ->
  weighted_sum cpf n w = Some (list_sum (map (fun i => (nth i cpf 0 - 48) * (w - i)) (seq 0 n))).
Proof.
  intros H; unfold weighted_sum; rewrite weighted_sum_aux; auto.
  intros i Hi; apply H; lia.
Qed.

Lemma nth_decimal (cpf : list nat) i :
  forallb Chr.is_decimal cpf = true -> i < List.length cpf -> Chr.is_decimal (nth i cpf 0) = true.
Proof.
  intros H Hi; rewrite forallb_forall in H; apply H, nth_In; exact Hi.
Qed.

Lemma mutations_invalid :
  forallb (fun i =>
     forallb (fun d =>
        (d =? nth i (py "52998224725") 0) ||
        match _validate_cpf_digit (firstn i (py "52998224725") ++ d :: skipn (S i) (py "52998224725")) with
        | Some false => true
        | _ => false
        end) (seq 48 10)) (seq 0 11) = true.
Proof. vm_compute; reflexivity. Qed.

(** C3. On a string of eleven decimal digits, [_validate_cpf_digit] holds
    exactly when the digits are not all the same and both check digits
    [((sum_{i<9} d_i * (10 - i)) * 10 mod 11) mod 10 = d_9] and
    [((sum_{i<10} d_i * (11 - i)) * 10 mod 11) mod 10 = d_10] match; the
    ID 52998224725 is valid and each of its single-digit mutations is not. *)
Theorem C3_validate_cpf_digit (cpf : list nat)
    (Hlen : List.length cpf = 11) (Hdig : forallb Chr.is_decimal cpf = true) :
  _validate_cpf_digit cpf =
    Some (negb (forallb (fun c => c =? nth 0 cpf 0) cpf) &&
          (((list_sum (map (fun i => (nth i cpf 0 - 48) * (10 - i)) (seq 0 9)) * 10) mod 11) mod 10
             =? nth 9 cpf 0 - 48) &&
          (((list_sum (map (fun i => (nth i cpf 0 - 48) * (11 - i)) (seq 0 10)) * 10) mod 11) mod 10
             =? nth 10 cpf 0 - 48)) /\
  _validate_cpf_digit (py "52998224725") = Some true /\
  (forall i d, i < 11 -> Chr.is_decimal d = true -> d <> nth i (py "52998224725") 0 ->
     _validate_cpf_digit (firstn i (py "52998224725") ++ d :: skipn (S i) (py "52998224725"))
       = Some false).
Proof.
  split; [|split; [vm_compute; reflexivity|]].
  - unfold _validate_cpf_digit.
    rewrite Hlen; cbn [Nat.eqb negb orb].
    assert (Hd : str_isdigit cpf = true).
    { destruct cpf as [|c cpf']; [discriminate|].
      unfold str_isdigit; apply forallb_forall; intros x Hx.
      apply is_digit_of_decimal; rewrite forallb_forall in Hdig; auto. }
    rewrite Hd; cbn [negb].
    replace (repeat (nth 0 cpf 0) 11) with (repeat (nth 0 cpf 0) (List.length cpf)) by (rewrite Hlen; reflexivity).
    rewrite str_eqb_repeat.
    destruct (forallb (fun c => c =? nth 0 cpf 0) cpf); [reflexivity|].
    cbn [negb andb].
    rewrite weighted_sum_decimal by (intros i Hi; apply nth_decimal; [exact Hdig | lia]).
    rewrite (int_of_decimal (nth 9 cpf 0)) by (apply nth_decimal; [exact Hdig | lia]).
    destruct (_ =? nth 9 cpf 0 - 48); [|reflexivity].
    cbn [negb].
    rewrite weighted_sum_decimal by (intros i Hi; apply nth_decimal; [exact Hdig | lia]).
    rewrite (int_of_decimal (nth 10 cpf 0)) by (apply nth_decimal; [exact Hdig | lia]).
    reflexivity.
  - intros i d Hi Hd Hne.
    pose proof mutations_invalid as H.
    rewrite forallb_forall in H; specialize (H i ltac:(apply in_seq; lia)).
    rewrite forallb_forall in H.
    assert (Hin : In d (seq 48 10)).
    { apply in_seq; unfold Chr.is_decimal, Chr.between in Hd.
      apply andb_true_iff in Hd as [H1 H2]; apply Nat.leb_le in H1; apply Nat.leb_le in H2; lia. }
    specialize (H d Hin).
    apply Nat.eqb_neq in Hne; rewrite Hne in H; cbn [orb] in H.
    destruct (_validate_cpf_digit _) as [[|]|]; congruence.
Qed.

Lemma C3_witness :
  List.length (py "12345678909") = 11 /\ forallb Chr.is_decimal (py "12345678909") = true /\
  _validate_cpf_digit (py "12345678909") = Some true.
Proof.
  assert (H1 : List.length (py "12345678909") = 11) by reflexivity.
  assert (H2 : forallb Chr.is_decimal (py "12345678909") = true) by reflexivity.
  split; [exact H1|]; split; [exact H2|].
  rewrite (proj1 (C3_validate_cpf_digit (py "12345678909") H1 H2)).
  vm_compute; reflexivity.
Defined.

(** The all-zero string satisfies both check-digit equations yet is
    rejected (the same holds for every repeated digit). *)
Lemma C3_counterexample :
  List.length (py "00000000000") = 11 /\ forallb Chr.is_decimal (py "00000000000") = true /\
  ((list_sum (map (fun i => (nth i (py "00000000000") 0 - 48) * (10 - i)) (seq 0 9)) * 10) mod 11) mod 10
    = nth 9 (py "00000000000") 0 - 48 /\
  ((list_sum (map (fun i => (nth i (py "00000000000") 0 - 48) * (11 - i)) (seq 0 10)) * 10) mod 11) mod 10
    = nth 10 (py "00000000000") 0 - 48 /\
  _validate_cpf_digit (py "00000000000") = Some false.
Proof. vm_compute; repeat split. Qed.

End CpfCheck.

(* ------------------------------------------------------------------ *)
(** ** Per-record risk levels (C1) *)

Module RiskLevels.
Import Detector RecordRisk.

Lemma str_in_iff x xs : str_in x xs = true <-> In x xs.
Proof.
  unfold str_in; rewrite existsb_exists; split.
  - intros [y [Hy He]]; apply String.eqb_eq in He; subst; auto.
  - intros H; exists x; split; auto; apply String.eqb_refl.
Qed.

Lemma any_key_in (K C : list string) :
  existsb (fun cat => str_in cat K) C = true <-> exists k, In k K /\ str_in k C = true.
Proof.
  rewrite existsb_exists; split.
  - intros [c [Hc Hk]]; exists c; rewrite str_in_iff in *; auto.
  - intros [k [Hk Hc]]; exists k; rewrite str_in_iff in *; auto.
Qed.

Lemma no_key_in (K C : list string) :
  existsb (fun cat => str_in cat K) C = false <-> forall k, In k K -> str_in k C = false.
Proof.
  split.
  - intros H k Hk; destruct (str_in k C) eqn:E; auto.
    assert (existsb (fun cat => str_in cat K) C = true) by (apply any_key_in; eauto); congruence.
  - intros H; destruct (existsb _ C) eqn:E; auto.
    apply any_key_in in E as [k [Hk Hc]]; rewrite (H k Hk) in Hc; discriminate.
Qed.

(** C1. The entry of a record: [PÚBLICO] with no reason for an empty
    counter map; otherwise [CRÍTICO] as soon as a key of the critical set
    (CPF, CNPJ, GENERAL_REGISTRY and the five sensitive categories) is
    present, with the descriptions of the critical keys present, in the
    map's order; else [MODERADO] when a key of the moderate set (EMAIL,
    PHONE, FULL_ADDRESS, PERSON_NAME) is present, with their descriptions;
    else no entry. A map holding only a CNPJ count is [CRÍTICO]. *)
Theorem C1_classify_record (stats : counts) :
  (stats = [] -> classify_record stats = Some (Risk "PÚBLICO" [])) /\
  (stats <> [] ->
   (exists k, In k (keys stats) /\ str_in k critical_categories = true) ->
   classify_record stats =
     Some (Risk "CRÍTICO"
             (map get_description (filter (fun cat => str_in cat critical_categories) (keys stats))))) /\
  (stats <> [] ->
   (forall k, In k (keys stats) -> str_in k critical_categories = false) ->
   (exists k, In k (keys stats) /\ str_in k moderate_categories = true) ->
   classify_record stats =
     Some (Risk "MODERADO"
             (map get_description (filter (fun cat => str_in cat moderate_categories) (keys stats))))) /\
  (stats <> [] ->
   (forall k, In k (keys stats) -> str_in k critical_categories = false) ->
   (forall k, In k (keys stats) -> str_in k moderate_categories = false) ->
   classify_record stats = None) /\
  classify_record [("CNPJ", 1)] = Some (Risk "CRÍTICO" ["Cadastro Nacional de Pessoa Jurídica"]).
Proof.
  split; [intros ->; reflexivity|].
  split; [|split; [|split]].
  - intros Hne Hc; unfold classify_record.
    destruct stats as [|p stats']; [congruence|].
    apply any_key_in in Hc; rewrite Hc; reflexivity.
  - intros Hne Hc Hm; unfold classify_record.
    destruct stats as [|p stats']; [congruence|].
    apply no_key_in in Hc; apply any_key_in in Hm; rewrite Hc, Hm; reflexivity.
  - intros Hne Hc Hm; unfold classify_record.
    destruct stats as [|p stats']; [congruence|].
    apply no_key_in in Hc; apply no_key_in in Hm; rewrite Hc, Hm; reflexivity.
  - reflexivity.
Qed.

(** A map holding only a company-ID (CNPJ) count is classified
    [CRÍTICO], not [MODERADO]. *)
Lemma C1_counterexample :
  classify_record [("CNPJ", 1)] = Some (Risk "CRÍTICO" ["Cadastro Nacional de Pessoa Jurídica"]) /\
  str_in "CNPJ" critical_categories = true /\ str_in "CNPJ" moderate_categories = false.
Proof. repeat split; reflexivity. Qed.

End RiskLevels.

(* ------------------------------------------------------------------ *)
(** ** The input guard (C8) *)

Module InputGuard.
Import Detector PyCall Properties.

Lemma lcp_prefix a : forall b, prefix_of (lcp a b) a /\ prefix_of (lcp a b) b.
Proof.
  induction a as [|x a IH]; intros b; [split; [exists []|exists b]; reflexivity|].
  destruct b as [|y b]; [split; [exists (x :: a)|exists []]; reflexivity|].
  cbn [lcp]; destruct (x =? y) eqn:E; [|split; [exists (x :: a)|exists (y :: b)]; reflexivity].
  apply Nat.eqb_eq in E; subst y.
  destruct (IH b) as [[t1 H1] [t2 H2]].
  split; [exists t1|exists t2]; cbn; f_equal; assumption.
Qed.

Lemma prefix_trans p q d : prefix_of p q -> prefix_of q d -> prefix_of p d.
Proof. intros [t1 ->] [t2 ->]; exists (t1 ++ t2); rewrite app_assoc; reflexivity. Qed.

Lemma fold_lcp_prefix rest : forall acc,
  prefix_of (fold_left lcp rest acc) acc /\
  forall d, In d rest -> prefix_of (fold_left lcp rest acc) d.
Proof.
  induction rest as [|d rest IH]; intros acc; cbn [fold_left].
  - split; [exists []; rewrite app_nil_r; reflexivity | intros d []].
  - destruct (IH (lcp acc d)) as [H1 H2]; destruct (lcp_prefix acc d) as [Ha Hd].
    split; [exact (prefix_trans _ _ _ H1 Ha)|].
    intros d' [<-|Hin]; [exact (prefix_trans _ _ _ H1 Hd) | exact (H2 d' Hin)].
Qed.

Lemma common_shape_prefix ds d : In d ds -> prefix_of (common_shape ds) d.
Proof.
  destruct ds as [|d0 rest]; [intros []|]; unfold common_shape.
  destruct (fold_lcp_prefix rest d0) as [H1 H2].
  intros [<-|Hin]; [exact H1 | exact (H2 d Hin)].
Qed.

Lemma flat_map_length_const {A B} (f : A -> list B) k l :
  (forall y, In y l -> List.length (f y) = k) -> List.length (flat_map f l) = List.length l * k.
Proof.
  induction l as [|y l IH]; intros H; cbn [flat_map]; [reflexivity|].
  rewrite length_app, (H y (or_introl eq_refl)), IH; [cbn; lia|].
  intros y' Hy'; exact (H y' (or_intror Hy')).
Qed.

Lemma array_items_length d : forall v p, List.length p = d -> prefix_of p (shape v) ->
  List.length (array_items d v) = fold_right Nat.mul 1 p.
Proof.
  induction d as [|d IH]; intros v p Hl Hp.
  - destruct p; [reflexivity|discriminate].
  - destruct p as [|n p]; [discriminate|]; cbn in Hl; injection Hl as Hl.
    destruct Hp as [t Ht]; destruct v as [| | | | | |l]; try discriminate.
    cbn [shape app] in Ht; injection Ht as Hn Hc.
    cbn [array_items fold_right]; rewrite (flat_map_length_const _ (fold_right Nat.mul 1 p)).
    + rewrite Hn; lia.
    + intros y Hy; apply IH; [exact Hl|].
      apply (prefix_trans _ (common_shape (map shape l))); [exists t; exact Hc|].
      apply common_shape_prefix, in_map, Hy.
Qed.

Lemma list_raises ev l :
  (exists k, List.length (array_items (List.length (shape (PList l))) (PList l)) = List.length l * k /\
             List.length l * k <> 1) ->
  detect_and_redact_py ev (PList l) = Raises "ValueError".
Proof.
  intros [k [Hk Hne]]; unfold detect_and_redact_py, isna.
  destruct (array_items _ _) as [|a [|b r]]; cbn in Hk |- *; [reflexivity| lia | reflexivity].
Qed.

(** C8. Null values and non-string scalars are returned unchanged with two
    empty maps, and so is a list holding one scalar or string.  A list
    whose length is not 1, or a one-element list holding such a list, makes
    the guard [pd.isna(text) or ...] raise ValueError: [pd.isna] returns an
    array of [np.asarray(text, dtype=object)] with a number of items other
    than 1, whose truth value is an error. *)
Theorem C8_input_guard (ev : env) :
  (forall v : pyval, (forall s, v <> PStr s) -> (forall l, v <> PList l) ->
     detect_and_redact_py ev v = Returns (v, [], [])) /\
  (forall x : pyval, (forall l, x <> PList l) ->
     detect_and_redact_py ev (PList [x]) = Returns (PList [x], [], [])) /\
  (forall l : list pyval, List.length l <> 1 -> detect_and_redact_py ev (PList l) = Raises "ValueError") /\
  (forall l : list pyval, List.length l <> 1 ->
     detect_and_redact_py ev (PList [PList l]) = Raises "ValueError").
Proof.
  split; [|split; [|split]].
  - intros v Hs Hl; destruct v as [| |z|z|b|s|l]; try reflexivity;
      exfalso; first [exact (Hs _ eq_refl) | exact (Hl _ eq_refl)].
  - intros x Hx; destruct x as [| |z|z|b|s|l]; try reflexivity;
      exfalso; exact (Hx _ eq_refl).
  - intros l Hl; apply list_raises.
    exists (fold_right Nat.mul 1 (common_shape (map shape l))); split.
    + apply (array_items_length _ _ (shape (PList l))); [reflexivity|exists []; rewrite app_nil_r; reflexivity].
    + intros H; apply Nat.eq_mul_1 in H; lia.
  - intros l Hl; apply list_raises.
    exists (List.length l * fold_right Nat.mul 1 (common_shape (map shape l))); split.
    + rewrite (array_items_length _ _ (shape (PList [PList l]))); [|reflexivity|exists []; rewrite app_nil_r; reflexivity].
      reflexivity.
    + intros H; apply Nat.eq_mul_1 in H as [_ H]; apply Nat.eq_mul_1 in H; lia.
Qed.
(** A list of two integers, and a list holding it, are not strings, and
    the call raises instead of passing them through. *)
Lemma C8_counterexample :
  detect_and_redact_py (Env None (fun _ => ([], false))) (PList [PInt 1; PInt 2]) = Raises "ValueError" /\
  detect_and_redact_py (Env None (fun _ => ([], false))) (PList [PList [PInt 1; PInt 2]]) =
    Raises "ValueError".
Proof. split; reflexivity. Qed.

End InputGuard.

(* ------------------------------------------------------------------ *)
(** ** The span accumulator (C6) *)

Module SpanAccumulator.
Import Patterns Detector Accumulator Basics.

(** C6. One call folds [step] over the candidate spans of all detectors,
    in order. An overlap-checked span (names, registry, CNPJ, e-mail,
    address, CEP, phone) is dropped when it meets the mask and otherwise
    added with its count; a tax-ID span is always added and counted; a
    sensitive-topic span is added and counted whenever an identifier was
    found, whether or not it meets the mask, and ignored otherwise. *)
Theorem C6_accumulator (ev : env) (text : list nat) :
  run ev text = fold_left step (candidates ev text) init /\
  (forall st c b, c_kind c = KChecked b ->
     (overlaps (indices_to_mask st) (c_start c) (c_end c) = true -> step st c = st) /\
     (overlaps (indices_to_mask st) (c_start c) (c_end c) = false ->
        indices_to_mask (step st c) = indices_to_mask st ++ range (c_start c) (c_end c) /\
        pii_stats (step st c) = incr (c_key c) (pii_stats st))) /\
  (forall st c v, c_kind c = KCpf v ->
     indices_to_mask (step st c) = indices_to_mask st ++ range (c_start c) (c_end c) /\
     pii_stats (step st c) = incr (c_key c) (pii_stats st)) /\
  (forall st c, c_kind c = KSensitive ->
     (has_identifier st = true ->
        indices_to_mask (step st c) = indices_to_mask st ++ range (c_start c) (c_end c) /\
        pii_stats (step st c) = incr (c_key c) (pii_stats st)) /\
     (has_identifier st = false -> step st c = st)).
Proof.
  split; [apply Fold.run_fold|].
  split; [|split].
  - intros st c b Hk; unfold step; rewrite Hk; split; intros Ho; rewrite Ho; auto.
  - intros st c v Hk; unfold step; rewrite Hk; auto.
  - intros st c Hk; unfold step; rewrite Hk; split; intros Hh; rewrite Hh; auto.
Qed.

(** On ["CPF 529.982.247-25 filho menor de idade"] the keyword spans
    "menor de idade" (offsets 25 to 39) and "filho menor" (19 to 30)
    overlap; the code counts both, where dropping overlapping candidates
    would count one. *)
Lemma C6_counterexample :
  candidates (Env None (fun _ => ([], false))) (py "CPF 529.982.247-25 filho menor de idade") =
    [Cand (KCpf true) "CPF" 4 18; Cand KSensitive "SENSITIVE_MINOR" 25 39;
     Cand KSensitive "SENSITIVE_MINOR" 19 30] /\
  get "SENSITIVE_MINOR"
      (pii_stats (run (Env None (fun _ => ([], false))) (py "CPF 529.982.247-25 filho menor de idade"))) = 2 /\
  get "SENSITIVE_MINOR"
      (pii_stats (fold_left literal_step
                   (candidates (Env None (fun _ => ([], false))) (py "CPF 529.982.247-25 filho menor de idade"))
                   init)) = 1.
Proof. vm_compute; repeat split. Qed.

End SpanAccumulator.

(* ------------------------------------------------------------------ *)
(** ** Category keys and the identifier flag *)

Module Keys.
Import Patterns Detector Accumulator Basics.

Lemma Forall_flat_map_gen {A B : Type} (P : B -> Prop) (f : A -> list B) (l : list A) :
  (forall x, In x l -> Forall P (f x)) -> Forall P (flat_map f l).
Proof.
  induction l as [|x l IH]; intros H; simpl; [constructor|].
  apply Forall_app; split; [apply H; left; auto | apply IH; intros y Hy; apply H; right; auto].
Qed.

Lemma Forall_spans (P : cand -> Prop) kd key l :
  (forall s e, P (Cand kd key s e)) -> Forall P (spans kd key l).
Proof. intros H; unfold spans; apply Forall_map, Forall_forall; intros [s e] _; apply H. Qed.

Lemma sensitive_keys : map fst sensitive_keywords =
  ["SENSITIVE_HEALTH"; "SENSITIVE_MINOR"; "SENSITIVE_SOCIAL"; "SENSITIVE_RACE"; "SENSITIVE_GENDER"].
Proof. reflexivity. Qed.

(** The key each kind of candidate carries. *)
Lemma candidates_wf ev text :
  Forall (fun c => match c_kind c with
                   | KCpf _ => c_key c = "CPF"
                   | KChecked true => c_key c = "GENERAL_REGISTRY" \/ c_key c = "PERSON_NAME"
                   | KChecked false => In (c_key c) ["CNPJ"; "EMAIL"; "FULL_ADDRESS"; "PHONE"]
                   | KSensitive => In (c_key c) (map fst sensitive_keywords)
                   end) (candidates ev text).
Proof.
  unfold candidates, cpf_cands, regex_cands, phonenumbers_cands, sensitive_cands, name_cands.
  rewrite !Forall_app; repeat split.
  - apply Forall_map, Forall_forall; intros [[s e] v] _; reflexivity.
  - destruct (nlp ev) as [recognize|]; [|constructor].
    destruct (recognize text) as [ents|]; [|constructor].
    apply Forall_map, Forall_forall; intros en _; cbn [c_kind c_key]; auto.
  - apply Forall_spans; intros; cbn [c_kind c_key]; auto.
  - apply Forall_spans; intros; cbn [c_kind c_key In]; auto.
  - apply Forall_flat_map_gen; intros tp Htp; apply Forall_spans; intros s e; cbn [c_kind c_key].
    unfold contact_types in Htp.
    destruct Htp as [<-|[<-|[<-|[]]]]; cbn [fst stats_key]; unfold stats_key; cbn [In]; auto 6.
  - apply Forall_flat_map_gen; intros p _; apply Forall_spans; intros; cbn [c_kind c_key In]; auto 6.
  - apply Forall_map, Forall_forall; intros [[s e] v] _; cbn [c_kind c_key In]; auto 6.
  - apply Forall_flat_map_gen; intros kk Hkk; apply Forall_flat_map_gen; intros kw _.
    apply Forall_spans; intros; cbn [c_kind c_key]; apply in_map; exact Hkk.
Qed.

(** Every category key of the counters is one of the twelve the detectors
    register, and every key of the invalid counters is CPF_INVALID. *)
Lemma fold_keys cs st :
  Forall (fun c => match c_kind c with
                   | KCpf _ => c_key c = "CPF"
                   | KChecked true => c_key c = "GENERAL_REGISTRY" \/ c_key c = "PERSON_NAME"
                   | KChecked false => In (c_key c) ["CNPJ"; "EMAIL"; "FULL_ADDRESS"; "PHONE"]
                   | KSensitive => In (c_key c) (map fst sensitive_keywords)
                   end) cs ->
  (forall k, In k (map fst (pii_stats st)) ->
     In k (["CPF"; "PERSON_NAME"; "GENERAL_REGISTRY"; "CNPJ"; "EMAIL"; "FULL_ADDRESS"; "PHONE"]
           ++ map fst sensitive_keywords)) ->
  (forall k, In k (map fst (invalid_cpfs st)) -> k = "CPF_INVALID") ->
  (forall k, In k (map fst (pii_stats (fold_left step cs st))) ->
     In k (["CPF"; "PERSON_NAME"; "GENERAL_REGISTRY"; "CNPJ"; "EMAIL"; "FULL_ADDRESS"; "PHONE"]
           ++ map fst sensitive_keywords)) /\
  (forall k, In k (map fst (invalid_cpfs (fold_left step cs st))) -> k = "CPF_INVALID").
Proof.
  revert st; induction cs as [|c cs IH]; intros st Hwf H1 H2; simpl; auto.
  inversion Hwf as [|? ? Hc Hwf']; subst.
  apply IH; auto; unfold step, add.
  - destruct (c_kind c) as [v|[|]|] eqn:Ek;
      try destruct (overlaps _ _ _); try destruct (has_identifier st);
      cbn [pii_stats]; auto; intros k Hk;
      (apply keys_incr in Hk as [->|Hk]; [|apply H1; exact Hk]);
      apply in_or_app; try rewrite Ek in Hc;
      first [ right; exact Hc
            | left; rewrite Hc; cbn [In]; auto
            | left; destruct Hc as [E|E]; rewrite E; cbn [In]; auto 10
            | left; cbn [In] in Hc |- *; intuition ].
  - destruct (c_kind c) as [v|[|]|]; try destruct (overlaps _ _ _); try destruct (has_identifier st);
      cbn [invalid_cpfs]; auto;
      destruct v; auto; intros k Hk; apply keys_incr in Hk as [->|Hk]; auto.
Qed.

Lemma sensitive_not_base k :
  In k (map fst sensitive_keywords) ->
  ~ In k ["CPF"; "PERSON_NAME"; "GENERAL_REGISTRY"; "CNPJ"; "EMAIL"; "FULL_ADDRESS"; "PHONE"].
Proof.
  rewrite sensitive_keys; cbn [In]; intros H1 H2.
  repeat destruct H1 as [<-|H1]; try contradiction;
    repeat destruct H2 as [H2|H2]; try contradiction; discriminate.
Qed.

(** A sensitive key is present only with the identifier flag, and the flag
    is set only with a CPF, registry or person-name key present. *)
Lemma fold_identifier cs st :
  Forall (fun c => match c_kind c with
                   | KCpf _ => c_key c = "CPF"
                   | KChecked true => c_key c = "GENERAL_REGISTRY" \/ c_key c = "PERSON_NAME"
                   | KChecked false => In (c_key c) ["CNPJ"; "EMAIL"; "FULL_ADDRESS"; "PHONE"]
                   | KSensitive => In (c_key c) (map fst sensitive_keywords)
                   end) cs ->
  (forall k, In k (map fst (pii_stats st)) -> In k (map fst sensitive_keywords) ->
     has_identifier st = true) ->
  (has_identifier st = true ->
     exists k, In k ["CPF"; "GENERAL_REGISTRY"; "PERSON_NAME"] /\ In k (map fst (pii_stats st))) ->
  (forall k, In k (map fst (pii_stats (fold_left step cs st))) -> In k (map fst sensitive_keywords) ->
     has_identifier (fold_left step cs st) = true) /\
  (has_identifier (fold_left step cs st) = true ->
     exists k, In k ["CPF"; "GENERAL_REGISTRY"; "PERSON_NAME"] /\
               In k (map fst (pii_stats (fold_left step cs st)))).
Proof.
  revert st; induction cs as [|c cs IH]; intros st Hwf H1 H2; [exact (conj H1 H2)|].
  inversion Hwf as [|? ? Hc Hwf']; subst; cbn [fold_left].
  assert (Hs : (forall k, In k (map fst (pii_stats (step st c))) -> In k (map fst sensitive_keywords) ->
                  has_identifier (step st c) = true) /\
               (has_identifier (step st c) = true ->
                  exists k, In k ["CPF"; "GENERAL_REGISTRY"; "PERSON_NAME"] /\
                            In k (map fst (pii_stats (step st c))))).
  2: { destruct Hs as [Hs1 Hs2]; apply IH; auto. }
  unfold step, add; destruct (c_kind c) as [v|b|] eqn:Ek.
  - cbn [pii_stats has_identifier]; split; auto.
    exists "CPF"; split; [left; reflexivity|]; apply keys_incr; left; symmetry; exact Hc.
  - destruct (overlaps _ _ _); [split; auto|]; cbn [pii_stats has_identifier].
    split.
    + intros k Hk Hs; apply keys_incr in Hk as [->|Hk].
      * exfalso; apply (sensitive_not_base _ Hs).
        destruct b; [destruct Hc as [E|E]; rewrite E; cbn [In]; auto 10|].
        cbn [In] in Hc |- *; intuition.
      * rewrite (H1 k Hk Hs), orb_true_r; reflexivity.
    + destruct b; cbn [orb]; intros Hh.
      * exists (c_key c); split; [|apply keys_incr; left; reflexivity].
        destruct Hc as [E|E]; rewrite E; cbn [In]; auto.
      * destruct (H2 Hh) as [k [Hk Hk']]; exists k; split; auto; apply keys_incr; right; auto.
  - destruct (has_identifier st) eqn:Eh; [|split; auto; rewrite Eh; auto].
    cbn [pii_stats has_identifier orb]; split; auto.
    intros _; destruct (H2 eq_refl) as [k [Hk Hk']]; exists k; split; auto;
      apply keys_incr; right; auto.
Qed.

(** Only the tax-ID candidates touch the CPF counter. *)
Lemma fold_get_cpf cs st :
  Forall (fun c => match c_kind c with
                   | KCpf _ => c_key c = "CPF"
                   | KChecked true => c_key c = "GENERAL_REGISTRY" \/ c_key c = "PERSON_NAME"
                   | KChecked false => In (c_key c) ["CNPJ"; "EMAIL"; "FULL_ADDRESS"; "PHONE"]
                   | KSensitive => In (c_key c) (map fst sensitive_keywords)
                   end) cs ->
  get "CPF" (pii_stats (fold_left step cs st)) =
    get "CPF" (pii_stats st) + List.length (filter (fun c => match c_kind c with KCpf _ => true | _ => false end) cs).
Proof.
  revert st; induction cs as [|c cs IH]; intros st Hwf; cbn [fold_left filter List.length]; [lia|].
  inversion Hwf as [|? ? Hc Hwf']; subst.
  rewrite IH by exact Hwf'; unfold step, add; destruct (c_kind c) as [v|b|] eqn:Ek.
  - cbn [pii_stats List.length]; rewrite get_incr, Hc; cbn; lia.
  - destruct (overlaps _ _ _); [lia|]; cbn [pii_stats]; rewrite get_incr.
    assert (Hne : String.eqb "CPF" (c_key c) = false).
    { apply String.eqb_neq; intros E; rewrite <- E in Hc.
      destruct b; cbn [In] in Hc; intuition discriminate. }
    rewrite Hne; lia.
  - destruct (has_identifier st); [|lia]; cbn [pii_stats]; rewrite get_incr.
    assert (Hne : String.eqb "CPF" (c_key c) = false).
    { apply String.eqb_neq; intros E; rewrite <- E in Hc.
      rewrite sensitive_keys in Hc; cbn [In] in Hc; intuition discriminate. }
    rewrite Hne; lia.
Qed.

End Keys.

(* ------------------------------------------------------------------ *)
(** ** Sensitive categories need an identifier (C5) *)

Module SensitiveGate.
Import Patterns Detector Accumulator Basics Keys.

Lemma sensitive_gated ev text :
  (forall k, In k (map fst (pii_stats (run ev text))) -> In k (map fst sensitive_keywords) ->
     has_identifier (run ev text) = true) /\
  (has_identifier (run ev text) = true ->
     exists k, In k ["CPF"; "GENERAL_REGISTRY"; "PERSON_NAME"] /\ In k (map fst (pii_stats (run ev text)))).
Proof.
  rewrite Fold.run_fold; apply fold_identifier.
  - apply candidates_wf.
  - intros k [].
  - intros H; discriminate.
Qed.

Lemma slice_clamp (t : list nat) s e : slice t s e = slice t s (Nat.min e (List.length t)).
Proof.
  unfold slice; destruct (Nat.le_ge_cases e (List.length t)) as [H|H].
  - rewrite Nat.min_l by exact H; reflexivity.
  - rewrite Nat.min_r by exact H.
    rewrite !firstn_all2; auto; rewrite length_skipn; lia.
Qed.

Lemma name_accepted_clamp t s e l :
  name_accepted t (Ent s e l) = name_accepted t (Ent s (Nat.min e (List.length t)) l).
Proof. unfold name_accepted; cbn [start_char end_char label_]; rewrite (slice_clamp t s e); reflexivity. Qed.

Lemma sofria_no_name en : name_accepted (py "sofria de") en = false.
Proof.
  destruct en as [s e l]; rewrite name_accepted_clamp.
  change (List.length (py "sofria de")) with 9.
  assert (He : Nat.min e 9 <= 9) by lia; revert He; generalize (Nat.min e 9) as e'; intros e' He.
  destruct (Nat.lt_ge_cases s 9) as [Hs|Hs].
  - unfold name_accepted; cbn [label_ start_char end_char].
    destruct (String.eqb l "PER"); [|reflexivity].
    destruct s as [|[|[|[|[|[|[|[|[|s]]]]]]]]]; try lia;
    (destruct e' as [|[|[|[|[|[|[|[|[|[|e']]]]]]]]]]; try lia); vm_compute; reflexivity.
  - unfold name_accepted; cbn [label_ start_char end_char].
    assert (Hn : slice (py "sofria de") s e' = []).
    { unfold slice; rewrite skipn_all2; [destruct (e' - s); reflexivity|].
      change (List.length (py "sofria de")) with 9; lia. }
    rewrite Hn; destruct (String.eqb l "PER"); reflexivity.
Qed.

Lemma fold_checked_false_hasid cs st :
  Forall (fun c => c_kind c = KChecked false) cs -> has_identifier st = false ->
  has_identifier (fold_left step cs st) = false.
Proof.
  revert st; induction cs as [|c cs IH]; intros st Hk Hh; cbn [fold_left]; auto.
  inversion Hk as [|? ? Hc Hk']; subst; apply IH; auto.
  unfold step, add; rewrite Hc; destruct (overlaps _ _ _); auto.
Qed.

Lemma phonenumbers_cands_checked ev text :
  Forall (fun c => c_kind c = KChecked false) (phonenumbers_cands ev text).
Proof.
  unfold phonenumbers_cands; apply Forall_map, Forall_forall; intros [[s e] v] _; reflexivity.
Qed.

Lemma sofria_stages :
  cpf_cands (py "sofria de") = [] /\ regex_cands (py "sofria de") = [] /\
  sensitive_cands (py "sofria de") = [Cand KSensitive "SENSITIVE_HEALTH" 0 9] /\
  fold_left step (cpf_cands (py "sofria de, CPF 529.982.247-25")) init =
    DState (range 15 29) [("CPF", 1)] [] true /\
  sensitive_cands (py "sofria de, CPF 529.982.247-25") = [Cand KSensitive "SENSITIVE_HEALTH" 0 9].
Proof. vm_compute; repeat split. Qed.

Lemma name_cands_sofria ev : name_cands ev (py "sofria de") = [].
Proof.
  unfold name_cands; destruct (nlp ev) as [recognize|]; auto.
  destruct (recognize _) as [ents|]; auto.
  induction ents as [|en ents IH]; auto; cbn [filter]; rewrite sofria_no_name; exact IH.
Qed.

(** C5. A sensitive-topic key (SENSITIVE_HEALTH, _MINOR, _SOCIAL, _RACE,
    _GENDER) is counted only when [has_identifier] holds, which itself
    holds only when a CPF, registry or accepted person-name key is
    counted. The keyword text ["sofria de"] alone is a sensitive hit but
    yields no sensitive key, for any recognizer and phone matcher; with a
    CPF added (["sofria de, CPF 529.982.247-25"]) SENSITIVE_HEALTH is
    counted. *)
Theorem C5_sensitive_needs_identifier (ev : env) (text : list nat) :
  (forall k, In k (map fst (pii_stats (run ev text))) -> In k (map fst sensitive_keywords) ->
     has_identifier (run ev text) = true /\
     exists k', In k' ["CPF"; "GENERAL_REGISTRY"; "PERSON_NAME"] /\
                In k' (map fst (pii_stats (run ev text)))) /\
  sensitive_cands (py "sofria de") = [Cand KSensitive "SENSITIVE_HEALTH" 0 9] /\
  (forall k, In k (map fst (pii_stats (run ev (py "sofria de")))) -> ~ In k (map fst sensitive_keywords)) /\
  1 <= get "SENSITIVE_HEALTH" (pii_stats (run ev (py "sofria de, CPF 529.982.247-25"))).
Proof.
  destruct sofria_stages as [E1 [E2 [E3 [E4 E5]]]].
  split; [|split; [exact E3|split]].
  - intros k Hk Hs; destruct (sensitive_gated ev text) as [G1 G2].
    pose proof (G1 k Hk Hs) as Hh; exact (conj Hh (G2 Hh)).
  - intros k Hk Hs.
    destruct (sensitive_gated ev (py "sofria de")) as [G1 _].
    assert (Hh : has_identifier (run ev (py "sofria de")) = false).
    { rewrite Fold.run_fold; unfold candidates.
      rewrite E1, E2, E3, name_cands_sofria; cbn [app fold_left].
      rewrite fold_left_app; cbn [fold_left].
      assert (Hp : has_identifier (fold_left step (phonenumbers_cands ev (py "sofria de")) init) = false)
        by (apply fold_checked_false_hasid; [apply phonenumbers_cands_checked | reflexivity]).
      unfold step at 1; cbn [c_kind]; rewrite Hp; exact Hp. }
    rewrite (G1 k Hk Hs) in Hh; discriminate.
  - rewrite Fold.run_fold; unfold candidates; rewrite !fold_left_app, E4, E5; cbn [fold_left].
    set (st := fold_left step _ _).
    assert (Hh : has_identifier st = true) by (apply fold_hasid_mono, fold_hasid_mono, fold_hasid_mono; reflexivity).
    unfold step; cbn [c_kind]; rewrite Hh; unfold add; cbn [pii_stats c_key].
    rewrite get_incr, String.eqb_refl; lia.
Qed.

End SensitiveGate.

(* ------------------------------------------------------------------ *)
(** ** Tax-ID detection (C4) *)

Module CpfDetection.
Import Re Patterns Detector Accumulator Basics Keys.

Lemma formatted_fold text l ms det :
  fst (fold_left (formatted_body text) l (ms, det)) =
    ms ++ map (fun mt => (fst mt, snd mt, is_valid (strip_non_digits (slice text (fst mt) (snd mt))))) l.
Proof.
  revert ms det; induction l as [|[s e] l IH]; intros ms det; cbn [fold_left map].
  - rewrite app_nil_r; reflexivity.
  - unfold formatted_body at 2; rewrite IH, <- app_assoc; reflexivity.
Qed.

Lemma loose_fold_keeps text l acc x :
  In x (fst acc) -> In x (fst (fold_left (loose_body text) l acc)).
Proof.
  revert acc; induction l as [|[s e] l IH]; intros [ms det] H; cbn [fold_left]; auto.
  apply IH; unfold loose_body.
  destruct (existsb _ _); auto; destruct (_has_cpf_context text s); auto.
  cbn [fst] in *; apply in_or_app; left; exact H.
Qed.

Lemma loose_fold_origin text l acc s e v :
  In (s, e, v) (fst (fold_left (loose_body text) l acc)) ->
  In (s, e, v) (fst acc) \/ (In (s, e) l /\ _has_cpf_context text s = true).
Proof.
  revert acc; induction l as [|[s' e'] l IH]; intros [ms det] H; cbn [fold_left] in H; auto.
  apply IH in H as [H|[H1 H2]]; [|right; split; [right; exact H1 | exact H2]].
  unfold loose_body in H.
  destruct (existsb _ _); auto; destruct (_has_cpf_context text s') eqn:Ec; auto.
  cbn [fst] in H; apply in_app_or in H as [H|[H|[]]]; auto.
  injection H as -> -> _; right; split; [left; reflexivity | exact Ec].
Qed.

Lemma filter_nil_of {A : Type} (f : A -> bool) l : Forall (fun x => f x = false) l -> filter f l = [].
Proof. induction 1 as [|x l Hx _ IH]; cbn [filter]; auto; rewrite Hx; exact IH. Qed.

Lemma filter_all_of {A : Type} (f : A -> bool) l : Forall (fun x => f x = true) l -> filter f l = l.
Proof. induction 1 as [|x l Hx _ IH]; cbn [filter]; auto; rewrite Hx, IH; reflexivity. Qed.

Lemma cpf_kind_filter ev text :
  filter (fun c => match c_kind c with KCpf _ => true | _ => false end) (candidates ev text) =
  cpf_cands text.
Proof.
  unfold candidates; rewrite !filter_app.
  rewrite (filter_all_of _ (cpf_cands text)).
  2: { unfold cpf_cands; apply Forall_map, Forall_forall; intros [[s e] v] _; reflexivity. }
  rewrite !filter_nil_of; [rewrite !app_nil_r; reflexivity| | | |].
  - unfold sensitive_cands; apply Forall_flat_map_gen; intros kk _; apply Forall_flat_map_gen;
      intros kw _; apply Forall_spans; reflexivity.
  - unfold phonenumbers_cands; apply Forall_map, Forall_forall; intros [[s e] v] _; reflexivity.
  - unfold regex_cands; rewrite !Forall_app; repeat split;
      try (apply Forall_flat_map_gen; intros x _); apply Forall_spans; reflexivity.
  - unfold name_cands; destruct (nlp ev) as [recognize|]; [|constructor].
    destruct (recognize text) as [ents|]; [|constructor].
    apply Forall_map, Forall_forall; intros en _; reflexivity.
Qed.

(** C4. The CPF count of a call is the number of tax IDs [_detect_cpf]
    returns; every formatted match ([ddd.ddd.ddd-dd]) is among them,
    whatever its context; every other one is a bare 11-digit match whose
    50-character window holds a tax-ID keyword. A bare run without such a
    keyword is not a tax ID, but the detectors that run later (the phone
    patterns) may still mask and count it. *)
Theorem C4_cpf_detection (ev : env) (text : list nat) :
  get "CPF" (pii_stats (run ev text)) = List.length (_detect_cpf text) /\
  (forall s e, In (s, e) (finditer cpf_formatted false text) ->
     exists v, In (s, e, v) (_detect_cpf text)) /\
  (forall s e v, In (s, e, v) (_detect_cpf text) ->
     In (s, e) (finditer cpf_formatted false text) \/
     (In (s, e) (finditer cpf_loose false text) /\ _has_cpf_context text s = true)).
Proof.
  split; [|split].
  - rewrite Fold.run_fold, fold_get_cpf by apply candidates_wf.
    rewrite cpf_kind_filter; unfold cpf_cands; rewrite length_map; reflexivity.
  - intros s e Hin; eexists; unfold _detect_cpf; apply loose_fold_keeps.
    rewrite formatted_fold; cbn [app].
    exact (in_map (fun mt => (fst mt, snd mt, is_valid (strip_non_digits (slice text (fst mt) (snd mt)))))
                  _ (s, e) Hin).
  - intros s e v Hin; unfold _detect_cpf in Hin.
    apply loose_fold_origin in Hin as [Hin|Hin]; [left|right; exact Hin].
    rewrite formatted_fold in Hin; cbn [app] in Hin.
    apply (proj1 (in_map_iff (fun mt : nat * nat =>
             (fst mt, snd mt, is_valid (strip_non_digits (slice text (fst mt) (snd mt)))))
             (finditer cpf_formatted false text) (s, e, v))) in Hin.
    destruct Hin as [[s' e'] [Heq Hin]].
    injection Heq as E1 E2 _; cbn [fst snd] in E1, E2; subst; exact Hin.
Qed.

(** The bare run ["11987654321"] has no tax-ID keyword and is no tax ID;
    it is nevertheless masked and counted as a phone number. *)
Lemma C4_counterexample :
  finditer cpf_loose false (py "11987654321") = [(0, 11)] /\
  _has_cpf_context (py "11987654321") 0 = false /\
  _detect_cpf (py "11987654321") = [] /\
  detect_and_redact (Env None (fun _ => ([], false))) (py "11987654321") =
    (py "xxxxxxxxxxx", [("PHONE", 1)], []).
Proof. vm_compute; repeat split. Qed.

End CpfDetection.

(* ------------------------------------------------------------------ *)
(** ** No legal-process category (C2) *)

Module LegalProcess.
Import Re Patterns Detector Accumulator Basics Keys.

Lemma step_get_mono k st c : get k (pii_stats st) <= get k (pii_stats (step st c)).
Proof.
  unfold step, add; destruct (c_kind c); try destruct (overlaps _ _ _); try destruct (has_identifier st);
    cbn [pii_stats]; try lia; rewrite get_incr; destruct (String.eqb k (c_key c)); lia.
Qed.

Lemma fold_get_mono k cs st : get k (pii_stats st) <= get k (pii_stats (fold_left step cs st)).
Proof.
  revert st; induction cs as [|c cs IH]; intros st; cbn [fold_left]; [lia|].
  etransitivity; [apply (step_get_mono k st c) | apply IH].
Qed.

Lemma name_rejected_table t :
  forallb (fun s => forallb (fun e => negb (name_accepted t (Ent s e "PER")))
                            (seq 0 (S (List.length t))))
          (seq 0 (S (List.length t))) = true ->
  forall en, name_accepted t en = false.
Proof.
  intros Ht [s e l]; rewrite SensitiveGate.name_accepted_clamp.
  assert (He : Nat.min e (List.length t) <= List.length t) by lia.
  revert He; generalize (Nat.min e (List.length t)) as e'; intros e' He.
  destruct (Nat.le_gt_cases s (List.length t)) as [Hs|Hs].
  - unfold name_accepted at 1; cbn [label_].
    destruct (String.eqb l "PER") eqn:El; [|reflexivity].
    apply String.eqb_eq in El; subst l.
    rewrite forallb_forall in Ht; specialize (Ht s ltac:(apply in_seq; lia)).
    rewrite forallb_forall in Ht; specialize (Ht e' ltac:(apply in_seq; lia)).
    apply negb_true_iff in Ht; unfold name_accepted in Ht; cbn [label_] in Ht; exact Ht.
  - unfold name_accepted; cbn [label_ start_char end_char].
    assert (Hn : slice t s e' = []).
    { unfold slice; rewrite skipn_all2 by lia; destruct (e' - s); reflexivity. }
    rewrite Hn; destruct (String.eqb l "PER"); reflexivity.
Qed.

Lemma name_cands_rejected ev t :
  (forall en, name_accepted t en = false) -> name_cands ev t = [].
Proof.
  intros H; unfold name_cands; destruct (nlp ev) as [recognize|]; auto.
  destruct (recognize t) as [ents|]; auto.
  induction ents as [|en ents IH]; auto; cbn [filter]; rewrite H; exact IH.
Qed.

Lemma sei_example_stages :
  finditer SEI_PROCESS false (py "23456-11987654321/2023-11") = [(0, 25)] /\
  cpf_cands (py "23456-11987654321/2023-11") = [] /\
  regex_cands (py "23456-11987654321/2023-11") = [Cand (KChecked false) "PHONE" 6 17] /\
  forallb (fun s => forallb (fun e => negb (name_accepted (py "23456-11987654321/2023-11") (Ent s e "PER")))
                            (seq 0 (S (List.length (py "23456-11987654321/2023-11")))))
          (seq 0 (S (List.length (py "23456-11987654321/2023-11")))) = true.
Proof. vm_compute; repeat split. Qed.

(** C2. The engine has no legal-process detector: the category keys of
    any call are among CPF, PERSON_NAME, GENERAL_REGISTRY, CNPJ, EMAIL,
    FULL_ADDRESS, PHONE and the five sensitive ones, and the invalid
    counters only hold CPF_INVALID. On ["23456-11987654321/2023-11"], which
    the repository's legal-process pattern matches whole, the phone
    detector masks offsets 6 to 16 and PHONE is counted, for any
    recognizer and phone matcher. *)
Theorem C2_no_legal_process_detector (ev : env) (text : list nat) :
  (forall k, In k (map fst (pii_stats (run ev text))) ->
     In k (["CPF"; "PERSON_NAME"; "GENERAL_REGISTRY"; "CNPJ"; "EMAIL"; "FULL_ADDRESS"; "PHONE"]
           ++ map fst sensitive_keywords)) /\
  (forall k, In k (map fst (invalid_cpfs (run ev text))) -> k = "CPF_INVALID") /\
  finditer SEI_PROCESS false (py "23456-11987654321/2023-11") = [(0, 25)] /\
  1 <= get "PHONE" (pii_stats (run ev (py "23456-11987654321/2023-11"))) /\
  (forall i, 6 <= i < 17 -> In i (indices_to_mask (run ev (py "23456-11987654321/2023-11")))).
Proof.
  destruct sei_example_stages as [E0 [E1 [E2 E3]]].
  pose proof (name_cands_rejected ev _ (name_rejected_table _ E3)) as En.
  split; [|split; [|split; [exact E0|]]].
  - rewrite Fold.run_fold; apply fold_keys; [apply candidates_wf | intros k [] | intros k []].
  - rewrite Fold.run_fold; apply fold_keys; [apply candidates_wf | intros k [] | intros k []].
  - rewrite Fold.run_fold; unfold candidates; rewrite !fold_left_app, E1, E2, En.
    cbn [fold_left].
    assert (E4 : step init (Cand (KChecked false) "PHONE" 6 17) =
                 DState (range 6 17) [("PHONE", 1)] [] false) by reflexivity.
    rewrite E4; split.
    + etransitivity; [|apply fold_get_mono]; etransitivity; [|apply fold_get_mono].
      cbn [pii_stats]; reflexivity.
    + intros i Hi; apply fold_mask_incl, fold_mask_incl; cbn [indices_to_mask].
      apply range_In; exact Hi.
Qed.

(** ["23456-11987654321/2023-11"]: the legal-process pattern matches
    offsets 0 to 25, the second phone pattern matches offsets 6 to 17
    inside it, and the call records PHONE and no other category. *)
Lemma C2_counterexample :
  finditer SEI_PROCESS false (py "23456-11987654321/2023-11") = [(0, 25)] /\
  map (fun p => finditer p false (py "23456-11987654321/2023-11")) phone_patterns =
    [[]; [(6, 17)]; []; []] /\
  detect_and_redact (Env None (fun _ => ([], false))) (py "23456-11987654321/2023-11") =
    (py "23456-xxxxxxxxxxx/2023-11", [("PHONE", 1)], []).
Proof. vm_compute; repeat split. Qed.

End LegalProcess.

(* ------------------------------------------------------------------ *)
(** ** Government e-mail addresses (C10) *)

Module GovEmail.
Import Re Patterns Detector Accumulator Basics EmailParts.

Lemma search_from_some ic r s i fuel a b :
  search_from ic r s i fuel = Some (a, b) -> match_at ic r s a = Some b.
Proof.
  revert i; induction fuel as [|fuel IH]; intros i H; cbn [search_from] in H; [discriminate|].
  destruct (match_at ic r s i) eqn:E; [injection H as <- <-; exact E | exact (IH _ H)].
Qed.

Lemma finditer_aux_match ic r s pos fuel a b :
  In (a, b) (finditer_aux ic r s pos fuel) -> match_at ic r s a = Some b.
Proof.
  revert pos; induction fuel as [|fuel IH]; intros pos H; cbn [finditer_aux] in H; [contradiction|].
  destruct (search_from ic r s pos _) as [[st en]|] eqn:E; [|contradiction].
  destruct H as [H|H]; [injection H as <- <-; exact (search_from_some _ _ _ _ _ _ _ E) | exact (IH _ H)].
Qed.

(** Soundness of a greedy repetition of a one-character matcher: the
    iterations consume characters satisfying [P]. *)
Lemma rep_sound (mr : nat -> (nat -> option nat) -> option nat) (P : nat -> Prop) :
  (forall j k' e, mr j k' = Some e -> P j /\ k' (S j) = Some e) ->
  forall fuel mn mx k n j0 e,
  rep_loop mr mn mx k fuel n j0 = Some e ->
  exists j1, j0 <= j1 /\ (forall x, j0 <= x < j1 -> P x) /\ k j1 = Some e.
Proof.
  intros Hmr fuel; induction fuel as [|fuel IH]; intros mn mx k n j0 e H; cbn [rep_loop] in H;
    [discriminate|].
  destruct (n <? mn).
  - apply Hmr in H as [Hp H]; apply IH in H as [j1 [Hj [Hx Hk]]].
    exists j1; split; [lia|split; [|exact Hk]].
    intros x Hxr; destruct (Nat.eq_dec x j0) as [->|Hne]; [exact Hp | apply Hx; lia].
  - destruct (below mx n) eqn:Eb.
    + destruct (mr j0 _) as [e'|] eqn:Em.
      * injection H as <-; apply Hmr in Em as [Hp Em].
        rewrite (proj2 (Nat.ltb_lt j0 (S j0)) (Nat.lt_succ_diag_r j0)) in Em.
        apply IH in Em as [j1 [Hj [Hx Hk]]].
        exists j1; split; [lia|split; [|exact Hk]].
        intros x Hxr; destruct (Nat.eq_dec x j0) as [->|Hne]; [exact Hp | apply Hx; lia].
      * exists j0; split; [lia|split; [intros x Hx; lia | exact H]].
    + exists j0; split; [lia|split; [intros x Hx; lia | exact H]].
Qed.

Lemma class_step ic neg its s j k' e :
  m ic (RClass neg its) s j k' = Some e ->
  (exists d, nth_error s j = Some d /\ xorb neg (class_mem ic its d) = true) /\ k' (S j) = Some e.
Proof.
  cbn [m]; destruct (nth_error s j) as [d|]; [|discriminate].
  destruct (xorb neg (class_mem ic its d)) eqn:E; [|discriminate]; eauto.
Qed.

Lemma char_step ic c s j k e :
  m ic (RChar c) s j k = Some e ->
  (exists d, nth_error s j = Some d /\ lit_eq ic c d = true) /\ k (S j) = Some e.
Proof.
  cbn [m]; destruct (nth_error s j) as [d|]; [|discriminate].
  destruct (lit_eq ic c d) eqn:E; [|discriminate]; eauto.
Qed.

(** Completeness of [.*] followed by a continuation that succeeds at [q]. *)
Lemma any_star_complete ic s k fuel n j q :
  (forall x, j <= x < q -> exists d, nth_error s x = Some d /\ d <> 10) ->
  k q <> None -> q - j < fuel -> j <= q ->
  rep_loop (fun j k' => m ic RAny s j k') 0 None k fuel n j <> None.
Proof.
  revert n j; induction fuel as [|fuel IH]; intros n j Hx Hk Hf Hj; [lia|].
  cbn [rep_loop]; rewrite (proj2 (Nat.ltb_ge n 0)) by lia; cbn [below].
  destruct (Nat.eq_dec j q) as [->|Hne].
  - destruct (m ic RAny s q _); [discriminate | exact Hk].
  - destruct (Hx j ltac:(lia)) as [d [Hd Hd10]].
    cbn [m]; rewrite Hd; rewrite (proj2 (Nat.eqb_neq d 10) Hd10).
    rewrite (proj2 (Nat.ltb_lt j (S j)) (Nat.lt_succ_diag_r j)).
    destruct (rep_loop _ 0 None k fuel (S n) (S j)) eqn:E; [discriminate|].
    exfalso; revert E; apply IH; [intros x Hxr; apply Hx; lia | exact Hk | lia | lia].
Qed.


Lemma seq_step ic r1 r2 s i k e :
  m ic (RSeq r1 r2) s i k = Some e -> m ic r1 s i (fun j => m ic r2 s j k) = Some e.
Proof. exact id. Qed.

Lemma bound_step ic s i k e : m ic RBound s i k = Some e -> k i = Some e.
Proof. cbn [m]; destruct (boundary s i); [exact id | discriminate]. Qed.

Lemma neglook_step ic r s i k e :
  m ic (RNegLook r) s i k = Some e -> m ic r s i Some = None /\ k i = Some e.
Proof. cbn [m]; destruct (m ic r s i Some); [discriminate | auto]. Qed.

Lemma rep_class_sound ic neg its mn mx s i k e :
  m ic (RRep (RClass neg its) mn mx) s i k = Some e ->
  exists j, i <= j /\
    (forall x, i <= x < j -> exists d, nth_error s x = Some d /\ xorb neg (class_mem ic its d) = true) /\
    k j = Some e.
Proof.
  cbn [m]; intros H.
  exact (rep_sound (fun j k' => m ic (RClass neg its) s j k')
           (fun x => exists d, nth_error s x = Some d /\ xorb neg (class_mem ic its d) = true)
           (fun j k' e' => class_step ic neg its s j k' e') _ _ _ _ _ _ _ H).
Qed.

Lemma char_lit ic c r s q k :
  nth_error s q = Some c -> m ic (RSeq (RChar c) r) s q k = m ic r s (S q) k.
Proof. intros H; cbn [m]; rewrite H; unfold lit_eq; rewrite Nat.eqb_refl; reflexivity. Qed.

Lemma firstn_skipn_nth (s l : list nat) q n i :
  firstn n (skipn q s) = l -> i < n -> nth_error s (q + i) = nth_error l i.
Proof.
  intros <- Hi; rewrite nth_error_firstn, (proj2 (Nat.ltb_lt _ _) Hi), nth_error_skipn; reflexivity.
Qed.


Lemma gov_lit_match s q :
  firstn 7 (skipn q s) = py ".gov.br" -> m false gov_lit s q Some = Some (7 + q).
Proof.
  intros H.
  assert (Hpy : py ".gov.br" = [46; 103; 111; 118; 46; 98; 114]) by (vm_compute; reflexivity).
  rewrite Hpy in H.
  pose proof (fun i => firstn_skipn_nth s _ q 7 i H) as N.
  unfold gov_lit.
  rewrite char_lit by (rewrite <- (Nat.add_0_r q); exact (N 0 ltac:(lia))).
  rewrite char_lit by (rewrite <- (Nat.add_1_r q); exact (N 1 ltac:(lia))).
  rewrite char_lit by (replace (S (S q)) with (q + 2) by lia; exact (N 2 ltac:(lia))).
  rewrite char_lit by (replace (S (S (S q))) with (q + 3) by lia; exact (N 3 ltac:(lia))).
  rewrite char_lit by (replace (S (S (S (S q)))) with (q + 4) by lia; exact (N 4 ltac:(lia))).
  rewrite char_lit by (replace (S (S (S (S (S q))))) with (q + 5) by lia; exact (N 5 ltac:(lia))).
  rewrite char_lit by (replace (S (S (S (S (S (S q)))))) with (q + 6) by lia; exact (N 6 ltac:(lia))).
  reflexivity.
Qed.

Lemma newline_dec (s : list nat) lo n :
  (exists x, lo <= x < lo + n /\ nth_error s x = Some 10) \/
  (forall x, lo <= x < lo + n -> nth_error s x <> Some 10).
Proof.
  induction n as [|n IH].
  - right; intros x Hx; lia.
  - destruct IH as [[x [Hx Hs]]|IH]; [left; exists x; split; [lia|exact Hs]|].
    destruct (nth_error s (lo + n)) as [d|] eqn:E; [destruct (Nat.eq_dec d 10) as [->|Hd]|].
    + left; exists (lo + n); split; [lia|exact E].
    + right; intros x Hx; destruct (Nat.eq_dec x (lo + n)) as [->|Hne];
        [rewrite E; congruence | apply IH; lia].
    + right; intros x Hx; destruct (Nat.eq_dec x (lo + n)) as [->|Hne];
        [rewrite E; discriminate | apply IH; lia].
Qed.

(** The negative lookahead [(?!.*\.gov\.br)] fails at [i] whenever
    [.gov.br] starts at some [q >= i] with no newline in between. *)
Lemma gov_look_blocks s i q :
  i <= q -> firstn 7 (skipn q s) = py ".gov.br" ->
  (forall x, i <= x < q -> nth_error s x <> Some 10) ->
  m false (RSeq (RRep RAny 0 None) gov_lit) s i Some <> None.
Proof.
  intros Hiq Hg Hnl.
  assert (Hlen : q + 7 <= List.length s).
  { assert (L := f_equal (@List.length nat) Hg).
    rewrite length_firstn, length_skipn in L.
    change (List.length (py ".gov.br")) with 7 in L. lia. }
  change (rep_loop (fun j k' => m false RAny s j k') 0 None (fun j => m false gov_lit s j Some)
            (0 + S (List.length s - i)) 0 i <> None).
  apply (any_star_complete false s (fun j => m false gov_lit s j Some) _ 0 i q).
  - intros x Hx; destruct (nth_error s x) as [d|] eqn:E.
    + exists d; split; [reflexivity|]; intros ->; exact (Hnl x Hx E).
    + apply nth_error_None in E; lia.
  - rewrite (gov_lit_match s q Hg); discriminate.
  - lia.
  - exact Hiq.
Qed.



Lemma email_re :
  re EMAIL =
  RSeq RBound (RSeq (RRep (RClass false L_items) 1 None) (RSeq (RChar 64)
    (RSeq (RNegLook (RSeq (RRep RAny 0 None) gov_lit))
    (RSeq (RRep (RClass false D_items) 1 None) (RSeq (RChar 46)
    (RSeq (RRep (RClass false T_items) 2 None) (RSeq RBound REps))))))).
Proof. vm_compute; reflexivity. Qed.

Lemma email_icase : icase EMAIL = false.
Proof. vm_compute; reflexivity. Qed.

Lemma class_no_at neg its d :
  class_mem false its 64 = neg -> xorb neg (class_mem false its d) = true -> d <> 64.
Proof. intros H H' ->; rewrite H in H'; destruct neg; discriminate. Qed.

Lemma lit_eq_false c d : lit_eq false c d = true -> d = c.
Proof. unfold lit_eq; rewrite orb_false_r; intros H; symmetry; apply Nat.eqb_eq, H. Qed.

(** Shape of an EMAIL match: exactly one [@], at [j1], and the lookahead
    after it failed. *)
Lemma email_match s st en :
  match_at false (re EMAIL) s st = Some en ->
  exists j1, st <= j1 < en /\ nth_error s j1 = Some 64 /\
    (forall x, st <= x < en -> nth_error s x = Some 64 -> x = j1) /\
    m false (RSeq (RRep RAny 0 None) gov_lit) s (S j1) Some = None.
Proof.
  unfold match_at; rewrite email_re; intros H.
  apply seq_step, bound_step in H; cbv beta in H.
  apply seq_step, rep_class_sound in H as [j1 [Hj1 [HL H]]]; cbv beta in H.
  apply seq_step, char_step in H as [[d [Hd Hd64]] H]; apply lit_eq_false in Hd64; subst d.
  apply seq_step, neglook_step in H as [Hlook H]; cbv beta in H.
  apply seq_step, rep_class_sound in H as [j2 [Hj2 [HD H]]]; cbv beta in H.
  apply seq_step, char_step in H as [[d [Hd' Hd46]] H]; apply lit_eq_false in Hd46; subst d.
  apply seq_step, rep_class_sound in H as [j3 [Hj3 [HT H]]]; cbv beta in H.
  apply seq_step, bound_step in H; cbn [m] in H; injection H as <-.
  exists j1; split; [lia|split; [exact Hd|split; [|exact Hlook]]].
  intros x Hx Hx64.
  destruct (Nat.lt_ge_cases x j1) as [Hlt|Hge].
  - destruct (HL x ltac:(lia)) as [d [E Hc]]; rewrite Hx64 in E; injection E as <-.
    exfalso; exact (class_no_at false L_items 64 eq_refl Hc eq_refl).
  - destruct (Nat.eq_dec x j1) as [->|Hne1]; [reflexivity|exfalso].
    destruct (Nat.lt_ge_cases x j2) as [Hlt2|Hge2].
    + destruct (HD x ltac:(lia)) as [d [E Hc]]; rewrite Hx64 in E; injection E as <-.
      exact (class_no_at false D_items 64 eq_refl Hc eq_refl).
    + destruct (Nat.eq_dec x j2) as [->|Hne2]; [rewrite Hd' in Hx64; discriminate|].
      destruct (HT x ltac:(lia)) as [d [E Hc]]; rewrite Hx64 in E; injection E as <-.
      exact (class_no_at false T_items 64 eq_refl Hc eq_refl).
Qed.

Lemma finditer_email_match text st en :
  In (st, en) (finditer EMAIL false text) -> match_at false (re EMAIL) text st = Some en.
Proof.
  unfold finditer; rewrite email_icase; intros Hin.
  exact (finditer_aux_match _ _ _ _ _ _ _ Hin).
Qed.

Lemma gov_address_split pre d b :
  let text := pre ++ 64 :: d ++ py ".gov.br" ++ b in
  nth_error text (List.length pre) = Some 64 /\
  firstn 7 (skipn (List.length pre + S (List.length d)) text) = py ".gov.br".
Proof.
  cbv zeta; split.
  - rewrite nth_error_app2, Nat.sub_diag by lia; reflexivity.
  - rewrite skipn_app, (@skipn_all2 _ _ pre) by lia.
    replace (List.length pre + S (List.length d) - List.length pre) with (S (List.length d)) by lia.
    cbn [skipn app]; rewrite skipn_app, skipn_all, Nat.sub_diag; cbn [skipn app].
    replace 7 with (List.length (py ".gov.br") + 0) by reflexivity.
    rewrite firstn_app_2, app_nil_r; reflexivity.
Qed.

(* ==================================================================== *)

(** C10: in every match of the EMAIL pattern, the [@] it contains is never
    followed on the same line by [.gov.br]: between that [@] and any later
    [.gov.br] there is a newline.  Consequently the [@] of an address
    [local@domain.gov.br] (no newline in the domain) lies outside every
    EMAIL match, so that [@] is neither counted nor masked by this
    detector.  The test is case-sensitive: the whole address
    [nome@orgao.GOV.BR] is an EMAIL match. *)
Theorem C10_email_excludes_gov_at (text : list nat) :
  (forall st en, In (st, en) (finditer EMAIL false text) ->
   forall p q, st <= p < en -> nth_error text p = Some 64 -> p < q ->
   firstn 7 (skipn q text) = py ".gov.br" ->
   exists j, p < j < q /\ nth_error text j = Some 10) /\
  (forall pre d b, text = pre ++ 64 :: d ++ py ".gov.br" ++ b -> ~ In 10 d ->
   forall st en, In (st, en) (finditer EMAIL false text) ->
   en <= List.length pre \/ List.length pre < st) /\
  finditer EMAIL false (py "nome@orgao.GOV.BR") = [(0, 17)].
Proof.
  assert (A : forall st en, In (st, en) (finditer EMAIL false text) ->
   forall p q, st <= p < en -> nth_error text p = Some 64 -> p < q ->
   firstn 7 (skipn q text) = py ".gov.br" ->
   exists j, p < j < q /\ nth_error text j = Some 10).
  { intros st en Hin p q Hp Hat Hpq Hg.
    destruct (email_match text st en (finditer_email_match text st en Hin))
      as [j1 [Hj1 [Hat1 [Huniq Hlook]]]].
    assert (Hpj : p = j1) by exact (Huniq p Hp Hat); subst j1.
    destruct (newline_dec text (S p) (q - S p)) as [[x [Hx Hnl]]|Hnl].
    - exists x; split; [lia|exact Hnl].
    - exfalso; apply (gov_look_blocks text (S p) q); [lia|exact Hg| |exact Hlook].
      intros x Hx; apply Hnl; lia. }
  split; [exact A|]; split; [|vm_compute; reflexivity].
  intros pre d b Htext Hd st en Hin.
  destruct (gov_address_split pre d b) as [Hat Hg]; rewrite <- Htext in Hat, Hg.
  destruct (Nat.lt_ge_cases (List.length pre) st) as [Hlt|Hge]; [right; exact Hlt|].
  destruct (Nat.lt_ge_cases (List.length pre) en) as [Hlt'|Hge']; [|left; exact Hge'].
  destruct (A st en Hin (List.length pre) (List.length pre + S (List.length d)) ltac:(lia) Hat ltac:(lia) Hg) as [j [Hj Hj10]].
  exfalso; apply Hd; subst text.
  rewrite nth_error_app2 in Hj10 by lia.
  replace (j - List.length pre) with (S (j - S (List.length pre))) in Hj10 by lia.
  cbn [nth_error] in Hj10; rewrite nth_error_app1 in Hj10 by lia.
  exact (nth_error_In d _ Hj10).
Qed.

(** C10: the address [nome@orgao.gov.br] followed by [@x.com]: the EMAIL
    pattern matches [orgao.gov.br@x.com], which covers the domain of the
    government address; the detector counts one EMAIL and masks it. *)
Lemma C10_counterexample :
  finditer EMAIL false (py "nome@orgao.gov.br@x.com") = [(5, 23)] /\
  firstn 17 (py "nome@orgao.gov.br@x.com") = py "nome@orgao.gov.br" /\
  detect_and_redact (Env None (fun _ => ([], false))) (py "nome@orgao.gov.br@x.com") =
    (py "nome@xxxxx.xxx.xx@x.xxx", [("EMAIL", 1)], []).
Proof. vm_compute; repeat split. Qed.

End GovEmail.

(* ------------------------------------------------------------------ *)
(** ** Risk level, recommendations and breakdown of [ReportService] *)

Module ReportServiceFacts.
Import Detector PyCall PyFloat ReportService Properties.

Lemma list_sum_zero {A : Type} (g : A -> nat) l :
  list_sum (map g l) = 0 <-> forall x, In x l -> g x = 0.
Proof.
  induction l as [|x l IH]; cbn [map In]; [split; [intros _ y []|reflexivity]|].
  change (list_sum (g x :: map g l)) with (g x + list_sum (map g l)).
  split.
  - intros H y [<-|Hy]; [lia|]; apply IH; [lia|exact Hy].
  - intros H; rewrite (H x (or_introl eq_refl)), (proj2 IH (fun y Hy => H y (or_intror Hy))); reflexivity.
Qed.

Lemma list_sum_pos {A : Type} (g : A -> nat) l :
  (0 <? list_sum (map g l)) = existsb (fun x => 0 <? g x) l.
Proof.
  induction l as [|x l IH]; [reflexivity|]; cbn [map existsb].
  change (list_sum (g x :: map g l)) with (g x + list_sum (map g l)).
  rewrite <- IH; destruct (g x) as [|n]; [reflexivity|].
  cbn [orb]; apply Nat.ltb_lt; lia.
Qed.

Lemma key_in_get k d : 0 < get k d -> key_in k d = true.
Proof.
  induction d as [|[a v] d IH]; cbn [get key_in existsb fst]; [lia|].
  destruct (String.eqb k a); [reflexivity|]; intros H; exact (IH H).
Qed.

Lemma max_quot_big : (2 ^ 1000 < max_quot)%Z.
Proof. apply Z.ltb_lt; vm_compute; reflexivity. Qed.

(** [num / den > 0.05] is [20 * num > den] for denominators up to [2^50]
    and quotients below [2^1000]. *)
Lemma gt_0_05_exact c t :
  0 < t -> (Z.of_nat t <= 2 ^ 50)%Z -> (Z.of_nat c < 2 ^ 1000)%Z ->
  gt_0_05 c t = Returns (t <? 20 * c).
Proof.
  intros Ht Hb Hc; unfold gt_0_05, div_gt.
  destruct (Nat.eqb_spec t 0) as [E|_]; [lia|].
  pose proof max_quot_big as HM.
  destruct (Z.leb_spec (max_quot * Z.of_nat t) (Z.of_nat c)) as [E|_]; [nia|].
  f_equal.
  change (2 ^ 58)%Z with 288230376151711744%Z.
  change (2 ^ 50)%Z with 1125899906842624%Z in Hb.
  destruct (Z.ltb_spec (14411518807585589 * Z.of_nat t) (Z.of_nat c * 288230376151711744));
    destruct (Nat.ltb_spec t (20 * c)); auto; lia.
Qed.

(** The quotient raises only at zero and beyond the range of doubles. *)
Lemma gt_0_05_returns c t :
  0 < t -> (Z.of_nat c < 2 ^ 1000)%Z -> exists b, gt_0_05 c t = Returns b.
Proof.
  intros Ht Hc; unfold gt_0_05, div_gt.
  destruct (Nat.eqb_spec t 0) as [E|_]; [lia|].
  pose proof max_quot_big as HM.
  destruct (Z.leb_spec (max_quot * Z.of_nat t) (Z.of_nat c)) as [E|_]; [nia|eauto].
Qed.

(** X5: without critical categories [_calculate_risk_level] never raises and
    does not depend on [total_records]: MÉDIO when a high-risk category has
    a positive count, else BAIXO when some count is positive, else MÍNIMO. *)
Theorem X5_risk_level_without_critical (pii_stats : counts) (total_records : nat) :
  (forall k, In k critical_pii -> get k pii_stats = 0) ->
  _calculate_risk_level pii_stats total_records =
  Returns (if existsb (fun k => 0 <? get k pii_stats) high_risk_pii then "MÉDIO"
           else if existsb (fun kv => 0 <? snd kv) pii_stats then "BAIXO" else "MÍNIMO").
Proof.
  intros H; unfold _calculate_risk_level, sum_get, sum_values.
  rewrite (proj2 (list_sum_zero _ _) H), !list_sum_pos; cbn [Nat.ltb Nat.leb].
  destruct (existsb _ high_risk_pii); [reflexivity|]; destruct (existsb _ pii_stats); reflexivity.
Qed.

Lemma X5_witness :
  (forall k, In k critical_pii -> get k [("EMAIL", 2); ("PERSON_NAME", 1)] = 0) /\
  _calculate_risk_level [("EMAIL", 2); ("PERSON_NAME", 1)] 0 = Returns "MÉDIO".
Proof.
  assert (H : forall k, In k critical_pii -> get k [("EMAIL", 2); ("PERSON_NAME", 1)] = 0).
  { intros k Hk; unfold critical_pii in Hk; cbn [In] in Hk.
    repeat destruct Hk as [<-|Hk]; try contradiction; reflexivity. }
  split; [exact H|].
  rewrite (X5_risk_level_without_critical _ 0 H); reflexivity.
Defined.

(** X6: with critical categories, [_calculate_risk_level] raises
    ZeroDivisionError when [total_records] is 0, even with a sensitive
    category present; for [total_records > 0] it gives CRÍTICO when a
    sensitive category is present, and otherwise CRÍTICO exactly when
    [total_records < 20 * critical_count] (the 5% rule) and ALTO else
    (counts below [2^1000], [total_records] up to [2^50]). *)
Theorem X6_risk_level_with_critical (pii_stats : counts) (total_records : nat) :
  0 < sum_get critical_pii pii_stats ->
  (total_records = 0 -> _calculate_risk_level pii_stats total_records = Raises "ZeroDivisionError") /\
  ((Z.of_nat (sum_get critical_pii pii_stats) < 2 ^ 1000)%Z -> 0 < total_records ->
   existsb (fun k => key_in k pii_stats) sensitive_keys = true ->
   _calculate_risk_level pii_stats total_records = Returns "CRÍTICO") /\
  ((Z.of_nat (sum_get critical_pii pii_stats) < 2 ^ 1000)%Z -> 0 < total_records ->
   (Z.of_nat total_records <= 2 ^ 50)%Z ->
   existsb (fun k => key_in k pii_stats) sensitive_keys = false ->
   _calculate_risk_level pii_stats total_records =
   Returns (if total_records <? 20 * sum_get critical_pii pii_stats then "CRÍTICO" else "ALTO")).
Proof.
  intros Hc; unfold _calculate_risk_level at 1 2 3.
  destruct (Nat.ltb_spec 0 (sum_get critical_pii pii_stats)) as [_|E]; [|lia].
  split; [|split].
  - intros ->; reflexivity.
  - intros Hb Ht Hs; destruct (gt_0_05_returns _ _ Ht Hb) as [b Eb]; rewrite Eb, Hs, orb_true_r.
    reflexivity.
  - intros Hb Ht Ht' Hs; rewrite (gt_0_05_exact _ _ Ht Ht' Hb), Hs, orb_false_r.
    destruct (total_records <? _); reflexivity.
Qed.

Lemma X6_witness :
  0 < sum_get critical_pii [("CPF", 1); ("PHONE", 3)] /\
  _calculate_risk_level [("CPF", 1); ("PHONE", 3)] 0 = Raises "ZeroDivisionError" /\
  _calculate_risk_level [("CPF", 1); ("PHONE", 3)] 20 = Returns "ALTO" /\
  _calculate_risk_level [("CPF", 1); ("PHONE", 3)] 19 = Returns "CRÍTICO".
Proof.
  assert (H : 0 < sum_get critical_pii [("CPF", 1); ("PHONE", 3)]) by (vm_compute; lia).
  destruct (X6_risk_level_with_critical [("CPF", 1); ("PHONE", 3)] 0 H) as [H0 _].
  destruct (X6_risk_level_with_critical [("CPF", 1); ("PHONE", 3)] 20 H) as [_ [_ H20]].
  destruct (X6_risk_level_with_critical [("CPF", 1); ("PHONE", 3)] 19 H) as [_ [_ H19]].
  split; [exact H|]; split; [apply H0; reflexivity|]; split.
  - rewrite H20; [reflexivity| vm_compute; reflexivity | lia | vm_compute; discriminate | reflexivity].
  - rewrite H19; [reflexivity| vm_compute; reflexivity | lia | vm_compute; discriminate | reflexivity].
Defined.


(** X7: [_get_recommendations] never returns an empty list; it returns the
    single default recommendation exactly when the level is neither
    CRÍTICO nor ALTO and none of SENSITIVE_HEALTH, SENSITIVE_RACE,
    SENSITIVE_GENDER, SENSITIVE_MINOR, CPF and GENERAL_REGISTRY is a key of
    the statistics; a CRÍTICO or ALTO level always opens the list with the
    encryption and need-to-know recommendations. *)
Theorem X7_recommendations (risk_level : string) (pii_stats : counts) :
  _get_recommendations risk_level pii_stats <> [] /\
  (_get_recommendations risk_level pii_stats = [rec_default] <->
   RecordRisk.str_in risk_level ["CRÍTICO"; "ALTO"] = false /\
   existsb (fun k => key_in k pii_stats)
           ["SENSITIVE_HEALTH"; "SENSITIVE_RACE"; "SENSITIVE_GENDER"; "SENSITIVE_MINOR";
            "CPF"; "GENERAL_REGISTRY"] = false) /\
  (RecordRisk.str_in risk_level ["CRÍTICO"; "ALTO"] = true ->
   firstn 2 (_get_recommendations risk_level pii_stats) = [rec_crypto; rec_access]).
Proof.
  unfold _get_recommendations; cbn [existsb].
  destruct (RecordRisk.str_in risk_level _);
    destruct (key_in "SENSITIVE_HEALTH" pii_stats); destruct (key_in "SENSITIVE_RACE" pii_stats);
    destruct (key_in "SENSITIVE_GENDER" pii_stats); destruct (key_in "SENSITIVE_MINOR" pii_stats);
    destruct (key_in "CPF" pii_stats); destruct (key_in "GENERAL_REGISTRY" pii_stats);
    cbn; (split; [discriminate|]);
    (split; [split;
             [ intros H; first [ split; reflexivity | discriminate H
                               | injection H as H; unfold rec_default, rec_gov, rec_minor, rec_discr,
                                   rec_health, rec_crypto, rec_access in H; discriminate H ]
             | intros [H1 H2]; first [ reflexivity | discriminate H1 | discriminate H2 ] ]
            | intros; first [ reflexivity | discriminate ] ]).
Qed.

(** Every category key the service detector can report. *)
Lemma detector_keys ev text k :
  In k (map fst (pii_stats (run ev text))) ->
  In k (["CPF"; "PERSON_NAME"; "GENERAL_REGISTRY"; "CNPJ"; "EMAIL"; "FULL_ADDRESS"; "PHONE"]
        ++ map fst Patterns.sensitive_keywords).
Proof.
  rewrite Fold.run_fold; apply Keys.fold_keys.
  - apply Keys.candidates_wf.
  - intros k' [].
  - intros k' [].
Qed.

(** X8: every category the service detector reports has its own entry in
    the descriptions table of [_get_pii_description]: the report never
    falls back to printing the raw key. *)
Theorem X8_descriptions_cover_detector (ev : env) (text : list nat) (k : string) :
  In k (map fst (snd (fst (detect_and_redact ev text)))) ->
  RecordRisk.lookup k descriptions <> None /\ _get_pii_description k <> k.
Proof.
  unfold detect_and_redact; cbn [fst snd]; intros H.
  apply detector_keys in H; rewrite Keys.sensitive_keys in H; cbn [app In] in H.
  repeat destruct H as [<-|H]; try contradiction; split; vm_compute; discriminate.
Qed.

Lemma X8_witness :
  In "CPF" (map fst (snd (fst (detect_and_redact (Env None (fun _ => ([], false)))
                                                    (py "CPF 529.982.247-25"))))) /\
  _get_pii_description "CPF" = "Cadastro de Pessoa Física".
Proof.
  assert (H : In "CPF" (map fst (snd (fst (detect_and_redact (Env None (fun _ => ([], false)))
                                                                (py "CPF 529.982.247-25")))))).
  { vm_compute; left; reflexivity. }
  split; [exact H|].
  destruct (X8_descriptions_cover_detector _ _ _ H) as [_ _]; reflexivity.
Defined.

(** The sort. *)

Lemma insert_perm x l : Permutation (insert_by_count x l) (x :: l).
Proof.
  induction l as [|y l IH]; cbn [insert_by_count]; [auto|].
  destruct (snd x <? snd y); [auto|].
  eapply perm_trans; [apply perm_skip, IH | apply perm_swap].
Qed.

Lemma sort_perm l acc :
  Permutation (fold_left (fun acc x => insert_by_count x acc) l acc) (l ++ acc).
Proof.
  revert acc; induction l as [|x l IH]; intros acc; cbn [fold_left app]; auto.
  eapply perm_trans; [apply IH|].
  eapply perm_trans; [apply Permutation_app_head, insert_perm|].
  apply Permutation_sym, Permutation_middle.
Qed.

Lemma insert_sorted x l :
  StronglySorted count_le l -> StronglySorted count_le (insert_by_count x l).
Proof.
  induction l as [|y l IH]; intros H; cbn [insert_by_count].
  - repeat constructor.
  - inversion H as [|? ? Hl Hy]; subst.
    destruct (Nat.ltb_spec (snd x) (snd y)) as [Lt|Ge].
    + constructor; [exact H|]; constructor; [unfold count_le; lia|].
      eapply Forall_impl; [|exact Hy]; unfold count_le; intros z Hz; lia.
    + constructor; [apply IH, Hl|].
      apply Forall_forall; intros z Hz.
      apply (Permutation_in _ (insert_perm x l)) in Hz; destruct Hz as [<-|Hz].
      * unfold count_le; lia.
      * exact (proj1 (Forall_forall _ _) Hy z Hz).
Qed.

Lemma sort_sorted l acc :
  StronglySorted count_le acc ->
  StronglySorted count_le (fold_left (fun acc x => insert_by_count x acc) l acc).
Proof.
  revert acc; induction l as [|x l IH]; intros acc H; cbn [fold_left]; auto.
  apply IH, insert_sorted, H.
Qed.

Lemma sorted_snoc {A : Type} (R : A -> A -> Prop) l a :
  StronglySorted R l -> (forall x, In x l -> R x a) -> StronglySorted R (l ++ [a]).
Proof.
  induction l as [|y l IH]; intros H Ha; cbn [app]; [repeat constructor|].
  inversion H as [|? ? Hl Hy]; subst; constructor.
  - apply IH; auto; intros x Hx; apply Ha; right; exact Hx.
  - apply Forall_app; split; [exact Hy|]; constructor; [apply Ha; left; reflexivity | constructor].
Qed.

Lemma sorted_rev {A : Type} (R : A -> A -> Prop) l :
  StronglySorted R l -> StronglySorted (fun a b => R b a) (rev l).
Proof.
  induction l as [|y l IH]; intros H; cbn [rev]; [constructor|].
  inversion H as [|? ? Hl Hy]; subst.
  apply sorted_snoc; [apply IH, Hl|].
  intros x Hx; apply in_rev in Hx; exact (proj1 (Forall_forall _ _) Hy x Hx).
Qed.

Lemma insert_filter x l c :
  StronglySorted count_le l ->
  filter (fun kv => snd kv =? c) (insert_by_count x l) =
  filter (fun kv => snd kv =? c) l ++ (if snd x =? c then [x] else []).
Proof.
  induction l as [|y l IH]; intros H; cbn [insert_by_count].
  - cbn [filter]; destruct (snd x =? c); reflexivity.
  - inversion H as [|? ? Hl Hy]; subst.
    destruct (Nat.ltb_spec (snd x) (snd y)) as [Lt|Ge].
    + destruct (Nat.eqb_spec (snd x) c) as [Ex|Nx].
      * assert (Hn : filter (fun kv => snd kv =? c) (y :: l) = []).
        { apply CpfDetection.filter_nil_of; constructor; [apply Nat.eqb_neq; lia|].
          eapply Forall_impl; [|exact Hy]; unfold count_le; intros z Hz; apply Nat.eqb_neq; lia. }
        cbn [filter] in Hn |- *; rewrite Hn, (proj2 (Nat.eqb_eq _ _) Ex); reflexivity.
      * cbn [filter]; rewrite (proj2 (Nat.eqb_neq _ _) Nx), app_nil_r; reflexivity.
    + cbn [filter]; rewrite IH by exact Hl.
      destruct (snd y =? c); reflexivity.
Qed.

Lemma sort_filter l acc c :
  StronglySorted count_le acc ->
  filter (fun kv => snd kv =? c) (fold_left (fun acc x => insert_by_count x acc) l acc) =
  filter (fun kv => snd kv =? c) acc ++ filter (fun kv => snd kv =? c) l.
Proof.
  revert acc; induction l as [|x l IH]; intros acc H; cbn [fold_left filter].
  - rewrite app_nil_r; reflexivity.
  - rewrite IH by (apply insert_sorted, H).
    rewrite insert_filter by exact H; rewrite <- app_assoc.
    destruct (snd x =? c); reflexivity.
Qed.

(** X9: [sorted(d.items(), key=lambda x: x[1], reverse=True)]: the result
    is a permutation of the items, its counts never increase, and items of
    equal count keep their original relative order. *)
Theorem X9_sorted_by_count_desc (items : list (string * nat)) :
  Permutation (sorted_by_count_desc items) items /\
  StronglySorted (fun a b => snd b <= snd a) (sorted_by_count_desc items) /\
  (forall c, filter (fun kv => snd kv =? c) (sorted_by_count_desc items) =
             filter (fun kv => snd kv =? c) items).
Proof.
  unfold sorted_by_count_desc, stable_sort_by_count; split; [|split].
  - eapply perm_trans; [apply Permutation_sym, Permutation_rev|].
    eapply perm_trans; [apply sort_perm|]; rewrite app_nil_r.
    apply Permutation_sym, Permutation_rev.
  - apply (sorted_rev count_le), sort_sorted; constructor.
  - intros c; rewrite filter_rev, sort_filter by constructor; cbn [filter app].
    rewrite filter_rev, rev_involutive; reflexivity.
Qed.
End ReportServiceFacts.

(* ------------------------------------------------------------------ *)
(** ** The record loops of [FileProcessor] *)

Module FileProcessorFacts.
Import Detector PyCall FileProcessor Properties.

Lemma truth_raises r exc : truth r = Raises exc -> exc = "ValueError".
Proof. unfold truth; destruct r as [b|[|b [|b' l]]]; congruence. Qed.

(** The service detector raises nothing but ValueError. *)
Lemma detect_and_redact_py_raises ev v exc :
  detect_and_redact_py ev v = Raises exc -> exc = "ValueError".
Proof.
  unfold detect_and_redact_py.
  destruct (truth (isna v)) as [e|[|]] eqn:T; [intros H; injection H as <-; eapply truth_raises; eauto
                                              | discriminate |].
  destruct v; try discriminate.
  all: destruct (detect_and_redact ev s) as [[r st] inv]; discriminate.
Qed.

(** Every record handed to the service detector raises ValueError: either
    the guard does, or the triple it returns does not unpack into two
    names. *)
Lemma record_body_service ev st v : record_body (service_detect ev) st v = Raises "ValueError".
Proof.
  destruct st as [[n rw] tot]; unfold record_body, service_detect.
  destruct (detect_and_redact_py ev v) as [exc|[[r s] i]] eqn:E; [|reflexivity].
  rewrite (detect_and_redact_py_raises ev v exc E); reflexivity.
Qed.

Lemma loop_all_skipped {A : Type} (body : fp_state -> A -> outcome fp_state) (skip : A -> bool)
      (Hs : forall st x, skip x = true -> body st x = Returns st)
      (Hr : forall st x, skip x = false -> body st x = Raises "ValueError") st xs :
  loop body st xs = if forallb skip xs then Returns st else Raises "ValueError".
Proof.
  revert st; induction xs as [|x xs IH]; intros st; cbn [loop forallb]; auto.
  destruct (skip x) eqn:E; cbn [andb].
  - rewrite (Hs st x E); apply IH.
  - rewrite (Hr st x E); reflexivity.
Qed.

(** Aggregation with a detector returning a pair. *)
Lemma get_add_count k k' n d :
  get k (IndexReport.add_count k' n d) = if String.eqb k k' then get k d + n else get k d.
Proof.
  induction d as [|[a v] d IH]; cbn [IndexReport.add_count get].
  - destruct (String.eqb k k'); reflexivity.
  - destruct (String.eqb k' a) eqn:E; cbn [get].
    + apply String.eqb_eq in E; subst; destruct (String.eqb k a); reflexivity.
    + rewrite IH; destruct (String.eqb k a) eqn:E1; auto.
      apply String.eqb_eq in E1; subst; destruct (String.eqb a k') eqn:E2; auto.
      apply String.eqb_eq in E2; subst; rewrite String.eqb_refl in E; discriminate.
Qed.

Lemma get_notin k d : ~ In k (map fst d) -> get k d = 0.
Proof.
  induction d as [|[a v] d IH]; cbn [get map In fst]; auto; intros H.
  destruct (String.eqb k a) eqn:E; [apply String.eqb_eq in E; subst; tauto|].
  apply IH; tauto.
Qed.

Lemma get_add_all k src dst :
  NoDup (map fst src) -> get k (add_all src dst) = get k dst + get k src.
Proof.
  unfold add_all; revert dst; induction src as [|[a v] src IH]; intros dst Hnd;
    cbn [fold_left get]; [lia|].
  inversion Hnd as [|? ? Hn Hnd']; subst.
  rewrite IH by exact Hnd'; cbn [fst snd]; rewrite get_add_count.
  destruct (String.eqb k a) eqn:E; [|lia].
  apply String.eqb_eq in E; subst; rewrite (get_notin a src Hn); lia.
Qed.


Lemma loop_pairs (detect : pyval -> outcome (list pyobj)) (f : pyval -> pyval * counts)
      (Hd : forall v, detect v = Returns [OVal (fst (f v)); ODict (snd (f v))])
      (Hnd : forall v, NoDup (map fst (snd (f v)))) cells n rw tot :
  exists tot', loop (record_body detect) (n, rw, tot) cells =
                 Returns (n + List.length cells,
                          rw + List.length (filter (fun v => nonempty (snd (f v))) cells), tot') /\
               forall k, get k tot' = get k tot + list_sum (map (fun v => get k (snd (f v))) cells).
Proof.
  revert n rw tot; induction cells as [|v cells IH]; intros n rw tot; cbn [loop].
  - exists tot; split; [cbn [List.length filter]; rewrite !Nat.add_0_r; reflexivity | intros k; cbn; lia].
  - unfold record_body at 1; rewrite Hd; cbn [unpack2 truthy].
    destruct (snd (f v)) as [|kv d] eqn:Ef.
    + destruct (IH (S n) rw tot) as [tot' [E1 E2]]; exists tot'; split.
      * rewrite E1; cbn [List.length filter]; rewrite Ef; cbn [nonempty].
        rewrite Nat.add_succ_r; reflexivity.
      * intros k; rewrite E2; cbn [map]; rewrite Ef; cbn [get].
        change (list_sum (?a :: ?l)) with (a + list_sum l); lia.
    + destruct (IH (S n) (S rw) (add_all (kv :: d) tot)) as [tot' [E1 E2]]; exists tot'; split.
      * rewrite E1; cbn [List.length filter]; rewrite Ef; cbn [nonempty List.length].
        rewrite !Nat.add_succ_r; reflexivity.
      * intros k; rewrite E2, get_add_all by (rewrite <- Ef; apply Hnd).
        cbn [map]; rewrite Ef; change (list_sum (?a :: ?l)) with (a + list_sum l); lia.
Qed.

(** X1: [process_txt] wired to the service detector: a file whose lines are
    all blank after [strip] gives zero records, zero records with PII and
    empty totals; any other file raises ValueError at its first non-blank
    line. *)
Theorem X1_process_txt_service (ev : env) (lines : list (list nat)) :
  process_txt (service_detect ev) lines =
  if forallb (fun l => match strip l with [] => true | _ => false end) lines
  then Returns (0, 0, []) else Raises "ValueError".
Proof.
  unfold process_txt; apply loop_all_skipped.
  - intros st l; unfold txt_body; destruct (strip l); [reflexivity | discriminate].
  - intros st l; unfold txt_body; destruct (strip l); [discriminate|].
    intros _; apply record_body_service.
Qed.

(** X2: [process_csv] wired to the service detector: without a text column
    it raises ValueError; with one, an empty table gives zero records and
    empty totals, and any row raises ValueError, whatever its cell holds. *)
Theorem X2_process_csv_service (ev : env) (text_column : option string) (cells : list pyval) :
  process_csv (service_detect ev) text_column cells =
  match text_column, cells with
  | Some _, [] => Returns (0, 0, [])
  | _, _ => Raises "ValueError"
  end.
Proof.
  unfold process_csv; destruct text_column as [c|]; [|destruct cells; reflexivity].
  destruct cells as [|v cells]; [reflexivity|]; cbn [loop].
  rewrite record_body_service; reflexivity.
Qed.

(** X3: [process_excel] wired to the service detector: with a text column,
    a sheet whose cells are all NaN, empty or the string ["nan"] gives zero
    records and empty totals, and any other cell raises ValueError. *)
Theorem X3_process_excel_service (ev : env) (text_column : string)
        (cells : list (option (list nat))) :
  process_excel (service_detect ev) (Some text_column) cells =
  if forallb (fun c => match c with
                       | None | Some [] => true
                       | Some s => str_eqb s (py "nan")
                       end) cells
  then Returns (0, 0, []) else Raises "ValueError".
Proof.
  unfold process_excel; apply loop_all_skipped.
  - intros st [[|a s]|]; unfold excel_body; cbn [orb]; try reflexivity.
    intros E; rewrite E; reflexivity.
  - intros st [[|a s]|]; unfold excel_body; cbn [orb]; try discriminate.
    intros E; rewrite E; apply record_body_service.
Qed.

(** X4: [process_csv] with a detector returning a pair (text, statistics
    dict without repeated keys): the number of records is the number of
    rows, [records_with_pii] the number of rows with a non-empty dict, and
    every total is the sum over the rows of that row's count. *)
Theorem X4_process_csv_totals (detect : pyval -> outcome (list pyobj))
        (f : pyval -> pyval * counts)
        (Hd : forall v, detect v = Returns [OVal (fst (f v)); ODict (snd (f v))])
        (Hnd : forall v, NoDup (map fst (snd (f v))))
        (text_column : string) (cells : list pyval) :
  exists tot, process_csv detect (Some text_column) cells =
                Returns (List.length cells,
                         List.length (filter (fun v => nonempty (snd (f v))) cells), tot) /\
              forall k, get k tot = list_sum (map (fun v => get k (snd (f v))) cells).
Proof.
  unfold process_csv; destruct (loop_pairs detect f Hd Hnd cells 0 0 []) as [tot [E1 E2]].
  exists tot; split; [exact E1 | intros k; rewrite E2; reflexivity].
Qed.


Lemma X4_witness :
  (forall v, sample_detect v = Returns [OVal (fst (sample_f v)); ODict (snd (sample_f v))]) /\
  (forall v, NoDup (map fst (snd (sample_f v)))) /\
  exists tot, process_csv sample_detect (Some "texto") [PStr (py "a"); PNone; PStr (py "b")] =
                Returns (3, 2, tot) /\ get "CPF" tot = 4.
Proof.
  assert (Hd : forall v, sample_detect v = Returns [OVal (fst (sample_f v)); ODict (snd (sample_f v))])
    by (intros v; reflexivity).
  assert (Hnd : forall v, NoDup (map fst (snd (sample_f v)))).
  { intros [| | | | | |]; cbn; repeat constructor; cbn; intuition discriminate. }
  split; [exact Hd|]; split; [exact Hnd|].
  destruct (X4_process_csv_totals sample_detect sample_f Hd Hnd "texto"
              [PStr (py "a"); PNone; PStr (py "b")]) as [tot [E1 E2]].
  exists tot; split; [exact E1 | rewrite E2; reflexivity].
Defined.

End FileProcessorFacts.

(* ------------------------------------------------------------------ *)
(** ** The dicts the service detector returns *)

Module DetectorDicts.
Import Detector Accumulator PyCall ReportService ReportServiceFacts Properties.

(** A counter dict as [defaultdict(int)] builds it with [+= 1]: no
    repeated key, no zero count. *)

Lemma incr_ok k d : dict_ok d -> dict_ok (incr k d).
Proof.
  induction d as [|[a v] d IH]; intros [Hn Hp]; cbn [incr].
  - split; repeat constructor; auto.
  - inversion Hn as [|? ? Ha Hn']; inversion Hp as [|? ? Hv Hp']; subst.
    destruct (String.eqb_spec k a) as [->|Ne].
    + split; [exact Hn|]; constructor; [cbn; lia | exact Hp'].
    + destruct (IH (conj Hn' Hp')) as [Hn2 Hp2]; split; cbn [map fst].
      * constructor; [|exact Hn2]; rewrite Basics.keys_incr; intros [E|E]; [congruence | tauto].
      * constructor; [exact Hv | exact Hp2].
Qed.

Lemma step_ok st c :
  dict_ok (pii_stats st) -> dict_ok (invalid_cpfs st) ->
  dict_ok (pii_stats (step st c)) /\ dict_ok (invalid_cpfs (step st c)).
Proof.
  intros H1 H2; unfold step, add; destruct (c_kind c) as [v|b|].
  - cbn [pii_stats invalid_cpfs]; split; [apply incr_ok, H1|].
    destruct v; [exact H2 | apply incr_ok, H2].
  - destruct (overlaps _ _ _); [auto|]; cbn [pii_stats invalid_cpfs]; split; [apply incr_ok|]; auto.
  - destruct (has_identifier st); [|auto]; cbn [pii_stats invalid_cpfs]; split; [apply incr_ok|]; auto.
Qed.

Lemma fold_ok cs st :
  dict_ok (pii_stats st) -> dict_ok (invalid_cpfs st) ->
  dict_ok (pii_stats (fold_left step cs st)) /\ dict_ok (invalid_cpfs (fold_left step cs st)).
Proof.
  revert st; induction cs as [|c cs IH]; intros st H1 H2; cbn [fold_left]; [auto|].
  destruct (step_ok st c H1 H2); apply IH; auto.
Qed.

Lemma run_ok ev text : dict_ok (pii_stats (run ev text)) /\ dict_ok (invalid_cpfs (run ev text)).
Proof.
  rewrite Fold.run_fold; apply fold_ok; split; constructor.
Qed.

Lemma get_pos k d : dict_ok d -> In k (map fst d) -> 1 <= get k d.
Proof.
  induction d as [|[a v] d IH]; intros [Hn Hp] Hk; cbn [map fst In] in Hk; [contradiction|].
  inversion Hn; inversion Hp; subst; cbn [get].
  destruct (String.eqb_spec k a) as [->|Ne]; [assumption|].
  apply IH; [split; assumption | destruct Hk as [E|E]; [congruence | exact E]].
Qed.

Lemma sum_get_ge k ks d : In k ks -> get k d <= sum_get ks d.
Proof.
  unfold sum_get; induction ks as [|k' ks IH]; intros Hk; [contradiction|].
  change (list_sum (map (fun k => get k d) (k' :: ks)))
    with (get k' d + list_sum (map (fun k => get k d) ks)).
  destruct Hk as [<-|Hk]; [lia | specialize (IH Hk); lia].
Qed.

(** X10: the statistics dict and the invalid-CPF dict returned by
    [detect_and_redact] have no repeated key and no count below 1, so a
    key is present exactly when its count is positive. *)
Theorem X10_detector_dicts (ev : env) (text : list nat) :
  NoDup (map fst (snd (fst (detect_and_redact ev text)))) /\
  Forall (fun kv => 1 <= snd kv) (snd (fst (detect_and_redact ev text))) /\
  NoDup (map fst (snd (detect_and_redact ev text))) /\
  Forall (fun kv => 1 <= snd kv) (snd (detect_and_redact ev text)).
Proof.
  unfold detect_and_redact; cbn [fst snd].
  destruct (run_ok ev text) as [[H1 H2] [H3 H4]]; auto.
Qed.

(** X11: a record whose statistics, as the service detector returns them,
    hold a sensitive category is rated CRÍTICO by [_calculate_risk_level]
    for every positive [total_records] (critical count below [2^1000]). *)
Theorem X11_sensitive_record_critical (ev : env) (text : list nat) (total_records : nat) (k : string) :
  In k sensitive_keys ->
  In k (map fst (snd (fst (detect_and_redact ev text)))) ->
  0 < total_records ->
  (Z.of_nat (sum_get critical_pii (snd (fst (detect_and_redact ev text)))) < 2 ^ 1000)%Z ->
  _calculate_risk_level (snd (fst (detect_and_redact ev text))) total_records = Returns "CRÍTICO".
Proof.
  unfold detect_and_redact; cbn [fst snd]; intros Hs Hk Ht Hb.
  assert (Hc : 0 < sum_get critical_pii (pii_stats (run ev text))).
  { pose proof (get_pos k _ (proj1 (run_ok ev text)) Hk).
    assert (In k critical_pii) by (unfold sensitive_keys in Hs; unfold critical_pii; cbn [In] in *; tauto).
    pose proof (sum_get_ge k critical_pii (pii_stats (run ev text)) H0); lia. }
  unfold _calculate_risk_level.
  destruct (Nat.ltb_spec 0 (sum_get critical_pii (pii_stats (run ev text)))) as [_|E]; [|lia].
  destruct (gt_0_05_returns _ _ Ht Hb) as [b Eb]; rewrite Eb.
  assert (Hin : existsb (fun k => key_in k (pii_stats (run ev text))) sensitive_keys = true).
  { apply existsb_exists; exists k; split; [exact Hs|].
    apply key_in_get; pose proof (get_pos k _ (proj1 (run_ok ev text)) Hk); lia. }
  rewrite Hin, orb_true_r; reflexivity.
Qed.

Lemma X11_witness :
  In "SENSITIVE_HEALTH" sensitive_keys /\
  In "SENSITIVE_HEALTH"
     (map fst (snd (fst (detect_and_redact (Env None (fun _ => ([], false)))
                                           (py "CPF 529.982.247-25, laudo médico anexo"))))) /\
  (Z.of_nat (sum_get critical_pii
               (snd (fst (detect_and_redact (Env None (fun _ => ([], false)))
                                            (py "CPF 529.982.247-25, laudo médico anexo"))))) < 2 ^ 1000)%Z /\
  _calculate_risk_level
    (snd (fst (detect_and_redact (Env None (fun _ => ([], false)))
                                 (py "CPF 529.982.247-25, laudo médico anexo")))) 1000 = Returns "CRÍTICO".
Proof.
  assert (H1 : In "SENSITIVE_HEALTH" sensitive_keys) by (cbn; auto).
  assert (H2 : In "SENSITIVE_HEALTH"
     (map fst (snd (fst (detect_and_redact (Env None (fun _ => ([], false)))
                                           (py "CPF 529.982.247-25, laudo médico anexo")))))).
  { vm_compute; auto. }
  assert (H3 : (Z.of_nat (sum_get critical_pii
               (snd (fst (detect_and_redact (Env None (fun _ => ([], false)))
                                            (py "CPF 529.982.247-25, laudo médico anexo"))))) < 2 ^ 1000)%Z).
  { apply Z.ltb_lt; vm_compute; reflexivity. }
  split; [exact H1|]; split; [exact H2|]; split; [exact H3|].
  apply (X11_sensitive_record_critical _ _ 1000 "SENSITIVE_HEALTH" H1 H2); [lia | exact H3].
Defined.

End DetectorDicts.

(* ------------------------------------------------------------------ *)
(** ** The standalone detectors of indexReport.py and index.py *)

Module IndexFacts.
Import Re Detector PyCall PyFloat IndexReport Basics Properties.

Lemma mask_matches_In i ms mk :
  In i (mask_matches ms mk) <-> In i mk \/ exists s e, In (s, e) ms /\ s <= i < e.
Proof.
  unfold mask_matches; revert mk; induction ms as [|[s e] ms IH]; intros mk; cbn [fold_left].
  - split; [tauto|]; intros [H|[s [e [[] _]]]]; exact H.
  - rewrite IH, in_app_iff, range_In; cbn [fst snd]; split.
    + intros [[H|H]|[s' [e' [H1 H2]]]]; [tauto| right; exists s, e; cbn; auto |].
      right; exists s', e'; cbn; auto.
    + intros [H|[s' [e' [[E|H1] H2]]]]; [tauto| |].
      * injection E as -> ->; tauto.
      * right; exists s', e'; auto.
Qed.


Lemma regex_fold_mask text tps m st i :
  In i (fst (fold_left (regex_body text) tps (m, st))) <-> In i m \/ regex_covered tps text i.
Proof.
  unfold regex_covered; revert m st; induction tps as [|[k P] tps IH]; intros m st.
  - cbn; split; [tauto|]; intros [H|[? [? [? [? [[] _]]]]]]; exact H.
  - cbn [fold_left]; unfold regex_body at 2; cbn [fst snd].
    destruct (finditer P false text) as [|se ms] eqn:E.
    + rewrite IH; split; [intros [H|[k' [P' [s [e [H1 H2]]]]]]; [tauto|]|].
      * right; exists k', P', s, e; split; [right; exact H1 | exact H2].
      * intros [H|[k' [P' [s [e [[Eq|H1] H2]]]]]]; [tauto| |].
        -- injection Eq as -> ->; rewrite E in H2; destruct H2 as [[] _].
        -- right; exists k', P', s, e; auto.
    + rewrite IH, <- E, mask_matches_In; split.
      * intros [[H|[s [e [H1 H2]]]]|[k' [P' [s [e [H1 H2]]]]]]; [tauto| |].
        -- right; exists k, P, s, e; split; [left; reflexivity | auto].
        -- right; exists k', P', s, e; split; [right; exact H1 | exact H2].
      * intros [H|[k' [P' [s [e [[Eq|H1] H2]]]]]]; [tauto| |].
        -- injection Eq as -> ->; left; right; exists s, e; exact H2.
        -- right; exists k', P', s, e; auto.
Qed.

Lemma regex_fold_get text tps m st k :
  get k (snd (fold_left (regex_body text) tps (m, st))) =
  get k st + list_sum (map (fun tp => if String.eqb k (fst tp)
                                      then List.length (finditer (snd tp) false text) else 0) tps).
Proof.
  revert m st; induction tps as [|[k' P] tps IH]; intros m st; cbn [fold_left map]; [cbn; lia|].
  change (list_sum (?a :: ?l)) with (a + list_sum l).
  unfold regex_body at 2; cbn [fst snd].
  destruct (finditer P false text) as [|se ms] eqn:E.
  - rewrite IH; cbn [List.length]; destruct (String.eqb k k'); lia.
  - rewrite IH, FileProcessorFacts.get_add_count, <- E; destruct (String.eqb k k'); lia.
Qed.

Lemma list_sum_select {A : Type} (tps : list (string * A)) (g : string * A -> nat) k P :
  NoDup (map fst tps) -> In (k, P) tps ->
  list_sum (map (fun tp => if String.eqb k (fst tp) then g tp else 0) tps) = g (k, P).
Proof.
  induction tps as [|[k' P'] tps IH]; intros Hn Hin; [contradiction|].
  inversion Hn as [|? ? Hk Hn']; subst; cbn [map fst].
  change (list_sum (?a :: ?l)) with (a + list_sum l).
  destruct Hin as [Eq|Hin].
  - injection Eq as -> ->; rewrite String.eqb_refl.
    rewrite (proj2 (ReportServiceFacts.list_sum_zero _ tps)); [lia|].
    intros [k2 P2] H2; cbn [fst]; destruct (String.eqb_spec k k2) as [->|]; [|reflexivity].
    exfalso; apply Hk; apply (in_map fst) in H2; exact H2.
  - rewrite (IH Hn' Hin); destruct (String.eqb_spec k k') as [->|]; [|lia].
    exfalso; apply Hk; apply (in_map fst) in Hin; exact Hin.
Qed.

(** The entities counted and masked by [detect_and_redact]. *)

Lemma ent_fold_mask text ents m st i :
  In i (fst (fold_left (ent_body text) ents (m, st))) <->
  In i m \/ exists en, In en ents /\ (is_name text en || String.eqb (label_ en) "LOC") = true /\
                       start_char en <= i < end_char en.
Proof.
  revert m st; induction ents as [|en ents IH]; intros m st; cbn [fold_left].
  - split; [tauto|]; intros [H|[en [[] _]]]; exact H.
  - unfold ent_body at 2; cbv beta iota.
    destruct (is_name text en) eqn:N; [|destruct (String.eqb (label_ en) "LOC") eqn:L].
    all: match goal with |- context [fold_left _ _ (?a, ?b)] => rewrite (IH a b) end.
    1,2: rewrite in_app_iff, range_In; split;
      [ intros [[H|H]|[en' [H1 H2]]];
        [ tauto
        | right; exists en; split; [left; reflexivity|]; rewrite N; try rewrite L;
          split; [reflexivity | exact H]
        | right; exists en'; split; [right; exact H1 | exact H2] ]
      | intros [H|[en' [[<-|H1] H2]]]; [tauto | tauto | right; exists en'; auto] ].
    split.
    + intros [H|[en' [H1 H2]]]; [tauto|]; right; exists en'; split; [right|]; auto.
    + intros [H|[en' [[<-|H1] [H2 H3]]]]; [tauto | |right; exists en'; auto].
      rewrite N, L in H2; discriminate.
Qed.

Lemma ent_fold_get text ents m st k :
  get k (snd (fold_left (ent_body text) ents (m, st))) =
  get k st + (if String.eqb k "PERSON_NAME" then List.length (filter (is_name text) ents) else 0)
           + (if String.eqb k "LOCATION" then List.length (filter (is_loc text) ents) else 0).
Proof.
  revert m st; induction ents as [|en ents IH]; intros m st; cbn [fold_left filter].
  - cbn [snd]; destruct (String.eqb k "PERSON_NAME"); destruct (String.eqb k "LOCATION");
    cbn [List.length]; lia.
  - unfold ent_body at 2; cbv beta iota.
    assert (Hl : is_loc text en = negb (is_name text en) && String.eqb (label_ en) "LOC")
      by reflexivity.
    rewrite Hl.
    destruct (is_name text en) eqn:N; [|destruct (String.eqb (label_ en) "LOC") eqn:L];
      cbn [negb andb List.length]; rewrite IH; cbn [snd]; try rewrite get_incr;
      destruct (String.eqb k "PERSON_NAME") eqn:E1; destruct (String.eqb k "LOCATION") eqn:E2;
      try (apply String.eqb_eq in E1; apply String.eqb_eq in E2; congruence);
      cbn [List.length]; lia.
Qed.

(** The dict [pii_stats] as built with [+= len(matches)] and [+= 1]. *)
Lemma keys_add_count a k n d :
  In a (map fst (IndexReport.add_count k n d)) <-> a = k \/ In a (map fst d).
Proof.
  induction d as [|[k' v] d IH]; cbn [IndexReport.add_count map fst In].
  - split; (intros [H|[]]; left; symmetry; exact H).
  - destruct (String.eqb_spec k k') as [->|Ne]; cbn [map fst In]; [intuition (subst; auto)|].
    rewrite IH; intuition (subst; auto).
Qed.

Lemma add_count_ok k n d : 0 < n -> dict_ok d -> dict_ok (IndexReport.add_count k n d).
Proof.
  intros Hpos; induction d as [|[a v] d IH]; intros [Hn Hp]; cbn [IndexReport.add_count].
  - split; repeat constructor; cbn; [tauto | lia].
  - inversion Hn as [|? ? Ha Hn']; inversion Hp as [|? ? Hv Hp']; subst.
    destruct (String.eqb_spec k a) as [->|Ne].
    + split; [exact Hn|]; constructor; [cbn in *; lia | exact Hp'].
    + destruct (IH (conj Hn' Hp')) as [Hn2 Hp2]; split; cbn [map fst].
      * constructor; [|exact Hn2]; rewrite keys_add_count; intros [E|E]; [congruence | tauto].
      * constructor; [exact Hv | exact Hp2].
Qed.

Lemma regex_fold_ok text tps m st :
  dict_ok st -> dict_ok (snd (fold_left (regex_body text) tps (m, st))).
Proof.
  revert m st; induction tps as [|[k P] tps IH]; intros m st H; cbn [fold_left]; [exact H|].
  unfold regex_body at 2; cbn [fst snd].
  destruct (finditer P false text) as [|se ms] eqn:E; apply IH; [exact H|].
  apply add_count_ok; [cbn [List.length]; lia | exact H].
Qed.

Lemma ent_fold_ok text ents m st :
  dict_ok st -> dict_ok (snd (fold_left (ent_body text) ents (m, st))).
Proof.
  revert m st; induction ents as [|en ents IH]; intros m st H; cbn [fold_left]; [exact H|].
  unfold ent_body at 2; cbv beta iota.
  destruct (is_name text en); [|destruct (String.eqb (label_ en) "LOC")];
    apply IH; try apply DetectorDicts.incr_ok; exact H.
Qed.

Lemma regex_patterns_keys :
  map fst regex_patterns = ["CPF"; "CNPJ"; "RG"; "EMAIL"; "PHONE"; "CEP"; "SEI_PROCESS"; "DATE_BIRTH"].
Proof. reflexivity. Qed.

Lemma detect_text_shape nlp text ents :
  nlp text = Some ents ->
  detect_and_redact_text nlp text =
  Returns (render_from (fst (fold_left (ent_body text) ents
                                      (fold_left (regex_body text) regex_patterns ([], [])))) 0 text,
           snd (fold_left (ent_body text) ents (fold_left (regex_body text) regex_patterns ([], [])))).
Proof.
  intros Hn; unfold detect_and_redact_text; rewrite Hn.
  destruct (fold_left (ent_body text) ents _) as [mask stats]; reflexivity.
Qed.

(** X12: counts of the report detector [detect_and_redact] of
    indexReport.py (the NLP call succeeding): each regex category counts
    all non-overlapping matches of its pattern, PERSON_NAME counts the PER
    entities of two or more words, LOCATION the other LOC entities; the
    dict has no repeated key and no count below 1. *)
Theorem X12_index_report_counts (nlp : list nat -> option (list ent)) (text : list nat)
        (ents : list ent) :
  nlp text = Some ents ->
  exists r stats,
    detect_and_redact_text nlp text = Returns (r, stats) /\
    (forall k P, In (k, P) regex_patterns -> get k stats = List.length (finditer P false text)) /\
    get "PERSON_NAME" stats = List.length (filter (is_name text) ents) /\
    get "LOCATION" stats = List.length (filter (is_loc text) ents) /\
    NoDup (map fst stats) /\ Forall (fun kv => 1 <= snd kv) stats.
Proof.
  intros Hn; rewrite (detect_text_shape nlp text ents Hn).
  destruct (fold_left (regex_body text) regex_patterns ([], [])) as [m0 s0] eqn:E0.
  eexists; eexists; split; [reflexivity|].
  assert (Hok : dict_ok s0).
  { replace s0 with (snd (fold_left (regex_body text) regex_patterns ([], []))) by (rewrite E0; reflexivity).
    apply regex_fold_ok; split; constructor. }
  split; [|split; [|split]].
  - intros k P Hin; rewrite ent_fold_get.
    assert (Hk : In k (map fst regex_patterns)) by (apply (in_map fst) in Hin; exact Hin).
    rewrite regex_patterns_keys in Hk.
    replace (get k s0) with (get k (snd (fold_left (regex_body text) regex_patterns ([], []))))
      by (rewrite E0; reflexivity).
    rewrite regex_fold_get, (list_sum_select regex_patterns
                              (fun tp => List.length (finditer (snd tp) false text)) k P).
    + cbn [get snd].
      destruct (String.eqb_spec k "PERSON_NAME") as [->|_];
        [cbn [In] in Hk; intuition discriminate|].
      destruct (String.eqb_spec k "LOCATION") as [->|_]; [cbn [In] in Hk; intuition discriminate|].
      lia.
    + rewrite regex_patterns_keys; repeat constructor; cbn [In]; intuition discriminate.
    + exact Hin.
  - rewrite ent_fold_get; cbn [String.eqb Ascii.eqb Bool.eqb].
    replace (get "PERSON_NAME" s0) with 0; [lia|].
    replace s0 with (snd (fold_left (regex_body text) regex_patterns ([], []))) by (rewrite E0; reflexivity).
    rewrite regex_fold_get; symmetry; apply (ReportServiceFacts.list_sum_zero _ regex_patterns).
    intros tp Htp; apply (in_map fst) in Htp; rewrite regex_patterns_keys in Htp.
    destruct (String.eqb_spec "PERSON_NAME" (fst tp)) as [E|]; [|reflexivity].
    rewrite <- E in Htp; cbn [In] in Htp; intuition discriminate.
  - rewrite ent_fold_get; cbn [String.eqb Ascii.eqb Bool.eqb].
    replace (get "LOCATION" s0) with 0; [lia|].
    replace s0 with (snd (fold_left (regex_body text) regex_patterns ([], []))) by (rewrite E0; reflexivity).
    rewrite regex_fold_get; symmetry; apply (ReportServiceFacts.list_sum_zero _ regex_patterns).
    intros tp Htp; apply (in_map fst) in Htp; rewrite regex_patterns_keys in Htp.
    destruct (String.eqb_spec "LOCATION" (fst tp)) as [E|]; [|reflexivity].
    rewrite <- E in Htp; cbn [In] in Htp; intuition discriminate.
  - apply ent_fold_ok, Hok.
Qed.

Lemma X12_witness :
  (fun _ : list nat => Some [Ent 22 33 "PER"]) (py "tel 11987654321 email Maria Silva") =
    Some [Ent 22 33 "PER"] /\
  exists r stats,
    detect_and_redact_text (fun _ => Some [Ent 22 33 "PER"]) (py "tel 11987654321 email Maria Silva") =
      Returns (r, stats) /\ get "PERSON_NAME" stats = 1.
Proof.
  split; [reflexivity|].
  destruct (X12_index_report_counts (fun _ => Some [Ent 22 33 "PER"])
              (py "tel 11987654321 email Maria Silva") [Ent 22 33 "PER"] eq_refl)
    as [r [stats [E [_ [Hp _]]]]].
  exists r, stats; split; [exact E|]; rewrite Hp; vm_compute; reflexivity.
Defined.

Lemma report_mask text ents i :
  In i (fst (fold_left (ent_body text) ents (fold_left (regex_body text) regex_patterns ([], [])))) <->
  regex_covered regex_patterns text i \/
  exists en, In en ents /\ (is_name text en || String.eqb (label_ en) "LOC") = true /\
             start_char en <= i < end_char en.
Proof.
  destruct (fold_left (regex_body text) regex_patterns ([], [])) as [m0 s0] eqn:E0.
  rewrite ent_fold_mask.
  replace (In i m0) with (In i (fst (fold_left (regex_body text) regex_patterns ([], []))))
    by (rewrite E0; reflexivity).
  rewrite regex_fold_mask; cbn [In]; tauto.
Qed.

(** X13: redaction of the report detector [detect_and_redact] of
    indexReport.py (the NLP call succeeding): the text keeps its length; a
    character inside a regex match or inside a counted PER or LOC entity
    becomes ['x'] when alphanumeric and is kept otherwise; every other
    character is kept. *)
Theorem X13_index_report_redaction (nlp : list nat -> option (list ent)) (text : list nat)
        (ents : list ent) :
  nlp text = Some ents ->
  exists r stats,
    detect_and_redact_text nlp text = Returns (r, stats) /\
    List.length r = List.length text /\
    forall i c, nth_error text i = Some c ->
      ((regex_covered regex_patterns text i \/
        exists en, In en ents /\ (is_name text en || String.eqb (label_ en) "LOC") = true /\
                   start_char en <= i < end_char en) ->
       nth_error r i = Some (if Chr.is_alnum c then 120 else c)) /\
      (~ (regex_covered regex_patterns text i \/
          exists en, In en ents /\ (is_name text en || String.eqb (label_ en) "LOC") = true /\
                     start_char en <= i < end_char en) ->
       nth_error r i = Some c).
Proof.
  intros Hn; rewrite (detect_text_shape nlp text ents Hn).
  eexists; eexists; split; [reflexivity|]; split; [apply render_length|].
  intros i c Hc; rewrite render_nth, Hc; cbn [option_map Nat.add]; split.
  - intros H; apply report_mask, mem_In in H; rewrite H; reflexivity.
  - intros H; rewrite <- report_mask, <- mem_In in H.
    destruct (mem i _); [exfalso; apply H; reflexivity | reflexivity].
Qed.

Lemma X13_witness :
  (fun _ : list nat => Some [Ent 0 5 "LOC"]) (py "Goias, tel 11987654321") = Some [Ent 0 5 "LOC"] /\
  exists r stats,
    detect_and_redact_text (fun _ => Some [Ent 0 5 "LOC"]) (py "Goias, tel 11987654321") =
      Returns (r, stats) /\ nth_error r 0 = Some 120.
Proof.
  split; [reflexivity|].
  destruct (X13_index_report_redaction (fun _ => Some [Ent 0 5 "LOC"]) (py "Goias, tel 11987654321")
              [Ent 0 5 "LOC"] eq_refl) as [r [stats [E [_ H]]]].
  exists r, stats; split; [exact E|].
  apply (proj1 (H 0 71 eq_refl)); right; exists (Ent 0 5 "LOC"); split; [left; reflexivity|].
  split; [reflexivity | cbn; lia].
Defined.

(** [num / den > 0.5] is [2 * num > den] for denominators below [2^53]
    and quotients below [2^1000]. *)
Lemma gt_0_5_exact c t :
  0 < t -> (Z.of_nat t < 2 ^ 53)%Z -> (Z.of_nat c < 2 ^ 1000)%Z ->
  gt_0_5 c t = Returns (t <? 2 * c).
Proof.
  intros Ht Hb Hc; unfold gt_0_5, div_gt.
  destruct (Nat.eqb_spec t 0) as [E|_]; [lia|].
  pose proof ReportServiceFacts.max_quot_big as HM.
  destruct (Z.leb_spec (max_quot * Z.of_nat t) (Z.of_nat c)) as [E|_]; [nia|].
  f_equal.
  change (2 ^ 54)%Z with 18014398509481984%Z.
  change (2 ^ 53 + 1)%Z with 9007199254740993%Z.
  change (2 ^ 53)%Z with 9007199254740992%Z in Hb.
  destruct (Z.ltb_spec (9007199254740993 * Z.of_nat t) (Z.of_nat c * 18014398509481984));
    destruct (Nat.ltb_spec t (2 * c)); auto; lia.
Qed.

(** X14: [ReportGenerator.calculate_risk_level] of indexReport.py: without
    CPF, CNPJ or RG counts it never raises and gives MÉDIO, BAIXO or
    MÍNIMO; with them it raises ZeroDivisionError when [total_records] is
    0, and otherwise gives CRÍTICO exactly when the critical count exceeds
    half of [total_records] and ALTO else ([total_records] below [2^53],
    counts below [2^1000]). *)
Theorem X14_index_report_risk_level (pii_stats : counts) (total_records : nat) :
  (ReportService.sum_get critical_pii pii_stats = 0 ->
   calculate_risk_level pii_stats total_records =
   Returns (if existsb (fun k => 0 <? get k pii_stats) high_risk_pii then "🟡 MÉDIO"
            else if existsb (fun kv => 0 <? snd kv) pii_stats then "🟢 BAIXO" else "⚪ MÍNIMO")) /\
  (0 < ReportService.sum_get critical_pii pii_stats -> total_records = 0 ->
   calculate_risk_level pii_stats total_records = Raises "ZeroDivisionError") /\
  (0 < ReportService.sum_get critical_pii pii_stats -> 0 < total_records ->
   (Z.of_nat total_records < 2 ^ 53)%Z ->
   (Z.of_nat (ReportService.sum_get critical_pii pii_stats) < 2 ^ 1000)%Z ->
   calculate_risk_level pii_stats total_records =
   Returns (if total_records <? 2 * ReportService.sum_get critical_pii pii_stats
            then "🔴 CRÍTICO" else "🟠 ALTO")).
Proof.
  unfold calculate_risk_level; split; [|split].
  - intros H; rewrite H; unfold ReportService.sum_get, ReportService.sum_values.
    rewrite !ReportServiceFacts.list_sum_pos; cbn [Nat.ltb Nat.leb].
    destruct (existsb _ high_risk_pii); [reflexivity|]; destruct (existsb _ pii_stats); reflexivity.
  - intros H ->; destruct (Nat.ltb_spec 0 (ReportService.sum_get critical_pii pii_stats)); [|lia].
    reflexivity.
  - intros H Ht Hb Hc; destruct (Nat.ltb_spec 0 (ReportService.sum_get critical_pii pii_stats)); [|lia].
    rewrite (gt_0_5_exact _ _ Ht Hb Hc); destruct (total_records <? _); reflexivity.
Qed.

(** The mask of [redact_text] in index.py. *)
Lemma script_regex_mask text ps mk i :
  In i (fold_left (fun mk p => mask_matches (finditer p false text) mk) ps mk) <->
  In i mk \/ exists P s e, In P ps /\ In (s, e) (finditer P false text) /\ s <= i < e.
Proof.
  revert mk; induction ps as [|p ps IH]; intros mk; cbn [fold_left].
  - split; [tauto|]; intros [H|[P [s [e [[] _]]]]]; exact H.
  - rewrite IH, mask_matches_In; split.
    + intros [[H|[s [e H]]]|[P [s [e [H1 H2]]]]]; [tauto | |].
      * right; exists p, s, e; split; [left; reflexivity | exact H].
      * right; exists P, s, e; split; [right; exact H1 | exact H2].
    + intros [H|[P [s [e [[<-|H1] H2]]]]]; [tauto | left; right; exists s, e; exact H2 |].
      right; exists P, s, e; auto.
Qed.

Lemma script_ent_mask text ents mk i :
  In i (fold_left (fun mk en => if is_name text en then mk ++ range (start_char en) (end_char en)
                                else mk) ents mk) <->
  In i mk \/ exists en, In en ents /\ is_name text en = true /\ start_char en <= i < end_char en.
Proof.
  revert mk; induction ents as [|en ents IH]; intros mk; cbn [fold_left].
  - split; [tauto|]; intros [H|[en [[] _]]]; exact H.
  - rewrite IH; destruct (is_name text en) eqn:N; [rewrite in_app_iff, range_In|]; split.
    + intros [[H|H]|[en' [H1 H2]]]; [tauto | |].
      * right; exists en; split; [left; reflexivity | split; [exact N | exact H]].
      * right; exists en'; split; [right; exact H1 | exact H2].
    + intros [H|[en' [[<-|H1] H2]]]; [tauto | tauto | right; exists en'; auto].
    + intros [H|[en' [H1 H2]]]; [tauto|]; right; exists en'; split; [right; exact H1 | exact H2].
    + intros [H|[en' [[<-|H1] [H2 H3]]]]; [tauto | congruence | right; exists en'; auto].
Qed.

(** X15: [redact_text] of index.py: NaN, [None] and non-string scalars
    are returned unchanged; for a string (the NLP call succeeding) the
    result has the same length, a character inside a match of one of its
    five patterns or inside a PER entity of two or more words becomes
    ['x'] when alphanumeric, and every other character is kept (LOC
    entities are not masked). *)
Theorem X15_index_script_redact_text (nlp : list nat -> option (list ent)) :
  (forall v, (forall s, v <> PStr s) -> (forall l, v <> PList l) -> IndexScript.redact_text nlp v = Returns v) /\
  (forall text ents, nlp text = Some ents ->
   exists r, IndexScript.redact_text nlp (PStr text) = Returns (PStr r) /\
     List.length r = List.length text /\
     forall i c, nth_error text i = Some c ->
       ((exists P s e, In P IndexScript.regex_patterns /\ In (s, e) (finditer P false text) /\ s <= i < e) \/
        (exists en, In en ents /\ is_name text en = true /\ start_char en <= i < end_char en) ->
        nth_error r i = Some (if Chr.is_alnum c then 120 else c)) /\
       (~ ((exists P s e, In P IndexScript.regex_patterns /\ In (s, e) (finditer P false text) /\ s <= i < e) \/
           (exists en, In en ents /\ is_name text en = true /\ start_char en <= i < end_char en)) ->
        nth_error r i = Some c)).
Proof.
  split.
  - intros v Hs Hl; destruct v as [| |z|z|b|s|l]; try reflexivity.
    + exfalso; exact (Hs s eq_refl).
    + exfalso; exact (Hl l eq_refl).
  - intros text ents Hn; unfold IndexScript.redact_text, IndexScript.redact_str; cbn [isna checknull truth].
    rewrite Hn; eexists; split; [reflexivity|]; split; [apply render_length|].
    intros i c Hc; rewrite render_nth, Hc; cbn [option_map Nat.add].
    assert (Hm : forall P : Prop,
               (P <-> In i (fold_left (fun mk en => if is_name text en
                                                   then mk ++ range (start_char en) (end_char en) else mk)
                              ents (fold_left (fun mk p => mask_matches (finditer p false text) mk)
                                              IndexScript.regex_patterns []))) ->
               (P -> (if mem i (fold_left (fun mk en => if is_name text en
                                                   then mk ++ range (start_char en) (end_char en) else mk)
                              ents (fold_left (fun mk p => mask_matches (finditer p false text) mk)
                                              IndexScript.regex_patterns [])) then
                        (if Chr.is_alnum c then 120 else c) else c) = if Chr.is_alnum c then 120 else c) /\
               (~ P -> (if mem i (fold_left (fun mk en => if is_name text en
                                                   then mk ++ range (start_char en) (end_char en) else mk)
                              ents (fold_left (fun mk p => mask_matches (finditer p false text) mk)
                                              IndexScript.regex_patterns [])) then
                        (if Chr.is_alnum c then 120 else c) else c) = c)).
    { intros P HP; rewrite HP, <- mem_In; split; [intros ->; reflexivity|].
      destruct (mem i _); [intros H; exfalso; apply H; reflexivity | reflexivity]. }
    destruct (Hm _ (iff_sym (iff_trans (script_ent_mask _ _ _ _)
                               (or_iff_compat_r _ (script_regex_mask text _ [] i))))) as [H1 H2].
    split; [intros H; f_equal; apply H1; cbn [In]; tauto
           | intros H; f_equal; apply H2; cbn [In]; tauto].
Qed.
End IndexFacts.

(* ------------------------------------------------------------------ *)
(** ** Tax IDs in the service detector *)

Module ServiceCpf.
Import Re Patterns Detector Accumulator Basics CpfCheck Properties.

Lemma forallb_false_existsb (f : nat -> bool) l :
  forallb f l = false -> existsb (fun c => negb (f c)) l = true.
Proof.
  induction l as [|c l IH]; cbn [forallb existsb]; [discriminate|].
  destruct (f c); cbn; auto.
Qed.

Lemma validate_decimal_some (cpf : list nat) :
  List.length cpf = 11 -> forallb Chr.is_decimal cpf = true -> _validate_cpf_digit cpf <> None.
Proof.
  intros Hlen Hdig; unfold _validate_cpf_digit.
  destruct (negb _ || negb _); [discriminate|].
  destruct (str_eqb _ _); [discriminate|].
  rewrite weighted_sum_decimal by (intros i Hi; apply nth_decimal; [exact Hdig | lia]).
  rewrite (int_of_decimal (nth 9 cpf 0)) by (apply nth_decimal; [exact Hdig | lia]).
  destruct (negb _); [discriminate|].
  rewrite weighted_sum_decimal by (intros i Hi; apply nth_decimal; [exact Hdig | lia]).
  rewrite (int_of_decimal (nth 10 cpf 0)) by (apply nth_decimal; [exact Hdig | lia]).
  discriminate.
Qed.

(** X16: [_validate_cpf_digit] returns False on a string whose length is
    not 11, on a string with a character that is not a digit and on a
    string of one repeated character; it raises ValueError only on eleven
    digits of which one is not decimal (a superscript digit). *)
Theorem X16_validate_cpf_digit_edges (cpf : list nat) :
  (List.length cpf <> 11 -> _validate_cpf_digit cpf = Some false) /\
  (existsb (fun c => negb (Chr.is_digit c)) cpf = true -> _validate_cpf_digit cpf = Some false) /\
  (forallb (fun c => c =? nth 0 cpf 0) cpf = true -> _validate_cpf_digit cpf = Some false) /\
  (_validate_cpf_digit cpf = None ->
   List.length cpf = 11 /\ forallb Chr.is_digit cpf = true /\
   existsb (fun c => negb (Chr.is_decimal c)) cpf = true).
Proof.
  assert (Hdig : existsb (fun c => negb (Chr.is_digit c)) cpf = true -> str_isdigit cpf = false).
  { intros H; unfold str_isdigit; destruct cpf as [|c cpf']; [reflexivity|].
    destruct (forallb Chr.is_digit (c :: cpf')) eqn:F; [|reflexivity].
    rewrite existsb_exists in H; destruct H as [x [Hx Hn]].
    rewrite forallb_forall in F; rewrite (F x Hx) in Hn; discriminate. }
  split; [|split; [|split]].
  - intros H; unfold _validate_cpf_digit.
    destruct (Nat.eqb_spec (List.length cpf) 11); [contradiction | reflexivity].
  - intros H; unfold _validate_cpf_digit; rewrite (Hdig H), orb_true_r; reflexivity.
  - intros H; unfold _validate_cpf_digit.
    destruct (Nat.eqb_spec (List.length cpf) 11) as [Hl|]; [|reflexivity].
    destruct (negb (str_isdigit cpf)); [reflexivity|]; cbn [negb orb].
    replace (repeat (nth 0 cpf 0) 11) with (repeat (nth 0 cpf 0) (List.length cpf)) by (rewrite Hl; reflexivity).
    rewrite str_eqb_repeat, H; reflexivity.
  - intros H.
    destruct (Nat.eqb_spec (List.length cpf) 11) as [Hl|Hl].
    2: { unfold _validate_cpf_digit in H; destruct (Nat.eqb_spec (List.length cpf) 11); [contradiction|discriminate]. }
    destruct (existsb (fun c => negb (Chr.is_digit c)) cpf) eqn:Ed.
    { unfold _validate_cpf_digit in H; rewrite (Hdig eq_refl), orb_true_r in H; discriminate. }
    split; [exact Hl|]; split.
    + destruct (forallb Chr.is_digit cpf) eqn:F; [reflexivity|].
      apply forallb_false_existsb in F; congruence.
    + destruct (forallb Chr.is_decimal cpf) eqn:F.
      * exfalso; exact (validate_decimal_some cpf Hl F H).
      * apply forallb_false_existsb, F.
Qed.

(** A tax-ID candidate is masked whatever follows it. *)
Lemma fold_cpf_masked cs st c i :
  In c cs -> (exists v, c_kind c = KCpf v) -> c_start c <= i < c_end c ->
  In i (indices_to_mask (fold_left step cs st)).
Proof.
  revert st; induction cs as [|c' cs IH]; intros st Hin Hk Hi; [contradiction|]; cbn [fold_left].
  destruct Hin as [<-|Hin]; [|apply IH; auto].
  apply fold_mask_incl, step_mask; right; split; [exact Hi|].
  destruct Hk as [v ->]; exact I.
Qed.

(** X17: every character of every tax ID [_detect_cpf] reports is masked
    in the output of [detect_and_redact]: it becomes ['x'] when
    alphanumeric and is kept otherwise. *)
Theorem X17_cpf_spans_redacted (ev : env) (text : list nat) (s e : nat) (v : bool) (i c : nat) :
  In (s, e, v) (_detect_cpf text) -> s <= i < e -> nth_error text i = Some c ->
  nth_error (fst (fst (detect_and_redact ev text))) i = Some (if Chr.is_alnum c then 120 else c).
Proof.
  intros Hin Hi Hc; unfold detect_and_redact; cbn [fst].
  rewrite render_nth, Hc; cbn [option_map Nat.add].
  assert (Hm : In i (indices_to_mask (run ev text))).
  { rewrite Fold.run_fold.
    apply (fold_cpf_masked _ _ (Cand (KCpf v) "CPF" s e)); [| exists v; reflexivity | exact Hi].
    unfold candidates; apply in_or_app; left; unfold cpf_cands.
    apply (in_map (fun c => let '(s, e, v) := c in Cand (KCpf v) "CPF" s e) _ _ Hin). }
  apply mem_In in Hm; rewrite Hm; reflexivity.
Qed.

Lemma X17_witness :
  In (4, 18, true) (_detect_cpf (py "CPF 529.982.247-25")) /\ 4 <= 5 < 18 /\
  nth_error (py "CPF 529.982.247-25") 5 = Some 50 /\
  nth_error (fst (fst (detect_and_redact (Env None (fun _ => ([], false))) (py "CPF 529.982.247-25")))) 5
    = Some 120.
Proof.
  assert (H1 : In (4, 18, true) (_detect_cpf (py "CPF 529.982.247-25"))) by (vm_compute; left; reflexivity).
  assert (H2 : 4 <= 5 < 18) by lia.
  assert (H3 : nth_error (py "CPF 529.982.247-25") 5 = Some 50) by reflexivity.
  split; [exact H1|]; split; [exact H2|]; split; [exact H3|].
  exact (X17_cpf_spans_redacted (Env None (fun _ => ([], false))) _ 4 18 true 5 50 H1 H2 H3).
Defined.

Lemma filter_filter_gen {A : Type} (f g : A -> bool) l :
  filter f (filter g l) = filter (fun x => g x && f x) l.
Proof.
  induction l as [|x l IH]; cbn [filter]; [reflexivity|].
  destruct (g x); cbn [filter andb]; [destruct (f x)|]; rewrite ?IH; reflexivity.
Qed.

Lemma fold_get_invalid cs st :
  Forall (fun c => match c_kind c with KCpf _ => c_key c = "CPF" | _ => True end) cs ->
  get "CPF_INVALID" (invalid_cpfs (fold_left step cs st)) =
  get "CPF_INVALID" (invalid_cpfs st) +
  List.length (filter (fun c => match c_kind c with KCpf false => true | _ => false end) cs).
Proof.
  revert st; induction cs as [|c cs IH]; intros st Hwf; cbn [fold_left filter List.length]; [lia|].
  inversion Hwf as [|? ? Hc Hwf']; subst.
  rewrite IH by exact Hwf'; unfold step, add; destruct (c_kind c) as [[|]|b|].
  - cbn [invalid_cpfs]; lia.
  - cbn [invalid_cpfs List.length]; rewrite get_incr; cbn; lia.
  - destruct (overlaps _ _ _); cbn [invalid_cpfs]; lia.
  - destruct (has_identifier st); cbn [invalid_cpfs]; lia.
Qed.

(** X18: the invalid-CPF dict of [detect_and_redact] counts under
    CPF_INVALID exactly the tax IDs of [_detect_cpf] whose check digits
    fail, and this count never exceeds the CPF count of the statistics. *)
Theorem X18_invalid_cpf_count (ev : env) (text : list nat) :
  get "CPF_INVALID" (snd (detect_and_redact ev text)) =
    List.length (filter (fun m => negb (snd m)) (_detect_cpf text)) /\
  get "CPF_INVALID" (snd (detect_and_redact ev text)) <=
    get "CPF" (snd (fst (detect_and_redact ev text))).
Proof.
  unfold detect_and_redact; cbn [fst snd]; rewrite Fold.run_fold.
  assert (Hwf := Keys.candidates_wf ev text).
  assert (Hinv : get "CPF_INVALID" (invalid_cpfs (fold_left step (candidates ev text) init)) =
                 List.length (filter (fun m => negb (snd m)) (_detect_cpf text))).
  { rewrite fold_get_invalid.
    2: { eapply Forall_impl; [|exact Hwf]; intros c; cbv beta; destruct (c_kind c) as [|[|]|]; auto. }
    cbn [init invalid_cpfs get].
    replace (filter (fun c => match c_kind c with KCpf false => true | _ => false end) (candidates ev text))
      with (filter (fun c => match c_kind c with KCpf false => true | _ => false end)
                   (filter (fun c => match c_kind c with KCpf _ => true | _ => false end) (candidates ev text))).
    2: { rewrite filter_filter_gen; apply filter_ext; intros c; destruct (c_kind c) as [[|]|[|]|]; reflexivity. }
    rewrite CpfDetection.cpf_kind_filter; unfold cpf_cands.
    rewrite filter_map_swap, length_map; cbn [Nat.add]; f_equal; apply filter_ext; intros [[s e] v]; destruct v; reflexivity. }
  split; [exact Hinv|].
  rewrite Hinv, Keys.fold_get_cpf by exact Hwf; cbn [init pii_stats get].
  rewrite CpfDetection.cpf_kind_filter; unfold cpf_cands; rewrite length_map.
  pose proof (filter_length_le (fun m : nat * nat * bool => negb (snd m)) (_detect_cpf text)); lia.
Qed.

End ServiceCpf.


Module CpfSpans.
Import Re Patterns Detector Basics Properties.

Lemma rep_loop_mono (mr : nat -> (nat -> option nat) -> option nat) mn mx k
      (Hmr : forall j k' e, mr j k' = Some e -> exists j', j <= j' /\ k' j' = Some e) :
  forall fuel n j e, rep_loop mr mn mx k fuel n j = Some e ->
  exists j', j <= j' /\ k j' = Some e.
Proof.
  induction fuel as [|fuel IH]; intros n j e H; [discriminate|].
  cbn [rep_loop] in H.
  destruct (n <? mn).
  - destruct (Hmr _ _ _ H) as [j1 [Hj1 H1]].
    destruct (IH _ _ _ H1) as [j2 [Hj2 H2]]. exists j2; split; [lia|exact H2].
  - destruct (below mx n) eqn:Eb.
    + destruct (mr j _) as [e'|] eqn:Em.
      * injection H as <-.
        destruct (Hmr _ _ _ Em) as [j1 [Hj1 H1]].
        destruct (j <? j1); [|discriminate].
        destruct (IH _ _ _ H1) as [j2 [Hj2 H2]]. exists j2; split; [lia|exact H2].
      * exists j; split; [lia|exact H].
    + exists j; split; [lia|exact H].
Qed.

Lemma m_mono ic r : forall s i k e, m ic r s i k = Some e ->
  exists j, i <= j /\ k j = Some e.
Proof.
  induction r as [| c | neg its | | | r1 IH1 | r1 IH1 r2 IH2 | r1 IH1 r2 IH2 | r1 IH1 mn mx];
    intros s i k e H; cbn [m] in H.
  - exists i; split; [lia|exact H].
  - destruct (nth_error s i); [|discriminate].
    destruct (lit_eq ic c n); [|discriminate]. exists (S i); split; [lia|exact H].
  - destruct (nth_error s i); [|discriminate].
    destruct (xorb neg (class_mem ic its n)); [|discriminate].
    exists (S i); split; [lia|exact H].
  - destruct (nth_error s i); [|discriminate].
    destruct (n =? 10); [discriminate|]. exists (S i); split; [lia|exact H].
  - destruct (boundary s i); [|discriminate]. exists i; split; [lia|exact H].
  - destruct (m ic r1 s i Some); [discriminate|]. exists i; split; [lia|exact H].
  - destruct (IH1 _ _ _ _ H) as [j1 [Hj1 H1]].
    destruct (IH2 _ _ _ _ H1) as [j2 [Hj2 H2]]. exists j2; split; [lia|exact H2].
  - destruct (m ic r1 s i k) eqn:E1.
    + injection H as <-. exact (IH1 _ _ _ _ E1).
    + exact (IH2 _ _ _ _ H).
  - exact (rep_loop_mono _ mn mx k (fun j k' e' H' => IH1 s j k' e' H') _ _ _ _ H).
Qed.

Lemma search_from_mono ic r s : forall fuel i st en,
  search_from ic r s i fuel = Some (st, en) -> i <= st <= en.
Proof.
  induction fuel as [|fuel IH]; intros i st en H; [discriminate|].
  cbn [search_from] in H. unfold match_at in H.
  destruct (m ic r s i Some) eqn:E.
  - injection H as <- <-.
    destruct (m_mono _ _ _ _ _ _ E) as [j [Hj Hs]]. injection Hs as <-. lia.
  - apply IH in H. lia.
Qed.


Lemma finditer_aux_disjoint ic r s : forall fuel pos,
  NoDup (span_positions (finditer_aux ic r s pos fuel)) /\
  (forall p, In p (span_positions (finditer_aux ic r s pos fuel)) -> pos <= p).
Proof.
  induction fuel as [|fuel IH]; intros pos; cbn [finditer_aux].
  - split; [constructor|intros p []].
  - destruct (search_from ic r s pos _) as [[st en]|] eqn:E; [|split; [constructor|intros p []]].
    apply search_from_mono in E.
    destruct (IH (if en =? st then S en else en)) as [Hnd Hge].
    assert (Hpos : en <= (if en =? st then S en else en)) by (destruct (en =? st); lia).
    unfold span_positions in *; cbn [map concat fst snd].
    split.
    + apply NoDup_app; [apply seq_NoDup|exact Hnd|].
      intros a Ha Hb. apply range_In in Ha. apply Hge in Hb. lia.
    + intros p Hp. apply in_app_or in Hp as [Hp|Hp].
      * apply range_In in Hp. lia.
      * apply Hge in Hp. lia.
Qed.

Lemma fold_formatted text : forall l ms det,
  fold_left (formatted_body text) l (ms, det) =
  (ms ++ map (fun se => (fst se, snd se, is_valid (strip_non_digits (slice text (fst se) (snd se))))) l,
   det ++ span_positions l).
Proof.
  induction l as [|[a b] l IH]; intros ms det; cbn [fold_left map].
  - rewrite !app_nil_r. reflexivity.
  - unfold formatted_body at 2. rewrite IH. cbn [fst snd].
    unfold span_positions; cbn [map concat fst snd]. rewrite <- !app_assoc. reflexivity.
Qed.

Lemma positions_app l1 l2 :
  cpf_positions (l1 ++ l2) = cpf_positions l1 ++ cpf_positions l2.
Proof. unfold cpf_positions. rewrite map_app, concat_app. reflexivity. Qed.

Lemma fold_loose text : forall l ms det,
  det = cpf_positions ms -> NoDup det ->
  snd (fold_left (loose_body text) l (ms, det)) =
    cpf_positions (fst (fold_left (loose_body text) l (ms, det))) /\
  NoDup (snd (fold_left (loose_body text) l (ms, det))).
Proof.
  induction l as [|[a b] l IH]; intros ms det Hdet Hnd; cbn [fold_left].
  - split; assumption.
  - cbv delta [loose_body] beta iota.
    destruct (existsb (fun pos => mem pos det) (range a b)) eqn:Ex;
      [exact (IH _ _ Hdet Hnd)|].
    destruct (_has_cpf_context text a); [|exact (IH _ _ Hdet Hnd)].
    apply IH.
    + rewrite positions_app, Hdet. unfold cpf_positions at 3. cbn. rewrite app_nil_r. reflexivity.
    + apply NoDup_app; [exact Hnd|apply seq_NoDup|].
      intros p Hp Hq. 
      assert (existsb (fun pos => mem pos det) (range a b) = true) as Ht.
      { apply existsb_exists. exists p. split; [exact Hq|]. apply mem_In; exact Hp. }
      congruence.
Qed.

(** X19. The entries returned by [_detect_cpf] never overlap: no text
    position lies in the ranges of two entries, so the list of all covered
    positions has no duplicates.  Formatted matches come from one
    non-overlapping [re.finditer] scan, and a loose match is skipped when it
    meets a position already detected. *)
Theorem X19_detect_cpf_disjoint (text : list nat) :
  NoDup (cpf_positions (_detect_cpf text)).
Proof.
  unfold _detect_cpf.
  rewrite fold_formatted. cbn [app].
  assert (Hf : cpf_positions (map (fun se => (fst se, snd se,
            is_valid (strip_non_digits (slice text (fst se) (snd se)))))
            (finditer cpf_formatted false text))
          = span_positions (finditer cpf_formatted false text)).
  { unfold cpf_positions, span_positions. rewrite map_map. reflexivity. }
  pose proof (finditer_aux_disjoint (icase cpf_formatted || false) (re cpf_formatted) text
                (S (List.length text)) 0) as [Hnd _].
  destruct (fold_loose text (finditer cpf_loose false text) _ _ (eq_sym Hf) Hnd) as [Heq Hnd'].
  rewrite <- Heq. exact Hnd'.
Qed.

End CpfSpans.

(* ------------------------------------------------------------------ *)
(** ** Risk descriptions of [ReportService] *)

Module RiskDescription.
Import Detector PyCall PyFloat ReportService.

Lemma risk_level_values pii_stats total_records lvl :
  _calculate_risk_level pii_stats total_records = Returns lvl ->
  In lvl ["CRÍTICO"; "ALTO"; "MÉDIO"; "BAIXO"; "MÍNIMO"].
Proof.
  unfold _calculate_risk_level.
  destruct (0 <? sum_get critical_pii pii_stats).
  - destruct (gt_0_05 _ _) as [exc|above]; [discriminate|].
    destruct (above || _); intros H; injection H as <-; cbn; tauto.
  - destruct (0 <? sum_get high_risk_pii pii_stats); [intros H; injection H as <-; cbn; tauto|].
    destruct (0 <? sum_values pii_stats); intros H; injection H as <-; cbn; tauto.
Qed.

(** X20. Every level [_calculate_risk_level] returns is a key of the table of
    [_get_risk_description], so the report never carries the fallback text
    'Classificação não disponível'. *)
Theorem X20_risk_level_described pii_stats total_records lvl :
  _calculate_risk_level pii_stats total_records = Returns lvl ->
  RecordRisk.lookup lvl risk_descriptions <> None /\
  _get_risk_description lvl <> "Classificação não disponível".
Proof.
  intros H. apply risk_level_values in H.
  unfold _get_risk_description.
  cbn in H; repeat destruct H as [<-|H]; [..|contradiction];
    cbn; split; discriminate.
Qed.

Lemma X20_witness :
  _calculate_risk_level [("EMAIL", 3)] 10 = Returns "MÉDIO" /\
  _get_risk_description "MÉDIO" <> "Classificação não disponível".
Proof.
  split; [reflexivity|].
  exact (proj2 (X20_risk_level_described [("EMAIL", 3)] 10 "MÉDIO" eq_refl)).
Defined.

End RiskDescription.
